(** * Greenhouse telemetry simulator and trend analysis

    A shallow embedding of [CPC_data_generator.py] (the diurnal signal
    generator) and [CPC_Visualization.py] (moving average, linear trend,
    trend narrative), with the properties of the specification stated over
    it.

    Numbers.  Python [float]s are read as exact rationals ([Q]): rounding
    error of binary64 arithmetic is not modelled.  Python [int]s are [Z].
    Where the analysis code can leave the finite numbers (a quotient by a
    zero variance) the value lives in [float64], which adds the infinities
    and NaN.  The two external numeric primitives that have no rational
    value, [np.sin] and [np.pi], are section variables, and so is the
    stream of variates behind [np.random.normal].

    Documents.  A document read from the collection may lack 'timestamp'
    or 'data'; the value under 'timestamp' is told apart by what
    [datetime.fromisoformat] makes of it (an instant, a ValueError, a
    TypeError), the value under 'data' is a dict that may lack any key,
    or not a dict.  The values under the metric keys are numbers. *)

From Stdlib Require Import String Ascii.
From Stdlib Require Import ZArith QArith Qround Qminmax Qabs.
From Stdlib Require Import List Bool Lia Lqa DecimalString.
From Stdlib Require DecimalN DecimalFacts.
Import ListNotations.

Local Open Scope Q_scope.

(** ** Python results and builtins *)

Module Py.

Inductive exn : Type :=
| ValueError (msg : string)
| OverflowError (msg : string)
| KeyError (key : string)
| TypeError (msg : string).

Inductive result (A : Type) : Type :=
| Ok (a : A)
| Raise (e : exn).

Arguments Ok {A} a.
Arguments Raise {A} e.

Definition is_ok {A} (r : result A) : bool :=
  match r with Ok _ => true | Raise _ => false end.

Definition is_value_error {A} (r : result A) : bool :=
  match r with Raise (ValueError _) => true | _ => false end.

Definition bind {A B} (r : result A) (k : A -> result B) : result B :=
  match r with
  | Ok a => k a
  | Raise e => Raise e
  end.

(** [max(a, b)] and [min(a, b)]: the second argument replaces the first
    only when it is strictly greater (smaller). *)
Definition max (a b : Q) : Q := if Qlt_le_dec a b then b else a.
Definition min (a b : Q) : Q := if Qlt_le_dec b a then b else a.
Definition maxZ (a b : Z) : Z := if (a <? b)%Z then b else a.

(** [int(x)] on a float truncates toward zero. *)
Definition int (x : Q) : Z := Z.quot (Qnum x) (Zpos (Qden x)).

(** Nearest integer, ties to the even neighbour. *)
Definition round_half_even (x : Q) : Z :=
  let f := Qfloor x in
  match Qcompare (x - inject_Z f) (1 # 2) with
  | Lt => f
  | Gt => (f + 1)%Z
  | Eq => if Z.even f then f else (f + 1)%Z
  end.

(** [round(x, ndigits)]. *)
Definition round (x : Q) (ndigits : nat) : Q :=
  let scale := inject_Z (10 ^ Z.of_nat ndigits) in
  inject_Z (round_half_even (x * scale)) / scale.

(** [range(n)]. *)
Definition range (n : nat) : list Z := map Z.of_nat (seq 0 n).

End Py.

(** ** [datetime]

    A [datetime] is kept as the proleptic Gregorian ordinal of its date
    and the second of its day, the two numbers [datetime.__add__] computes
    with; the microsecond field is always zero in this program. *)

Module datetime.

Definition MAXORDINAL : Z := 3652059.

Definition is_leap (year : Z) : bool :=
  ((year mod 4 =? 0) && (negb (year mod 100 =? 0) || (year mod 400 =? 0)))%Z.

Definition days_before_year (year : Z) : Z :=
  let y := (year - 1)%Z in
  (y * 365 + y / 4 - y / 100 + y / 400)%Z.

Definition days_before_month (year month : Z) : Z :=
  (nth (Z.to_nat month)
     [0; 0; 31; 59; 90; 120; 151; 181; 212; 243; 273; 304; 334]%Z 0
   + (if ((2 <? month) && is_leap year)%Z then 1 else 0))%Z.

Definition ymd2ord (year month day : Z) : Z :=
  (days_before_year year + days_before_month year month + day)%Z.

Record t : Type := mk { ordinal : Z; day_second : Z }.

(** [datetime(year, month, day, hour, minute, second)]. *)
Definition make (year month day hour minute second : Z) : t :=
  {| ordinal := ymd2ord year month day;
     day_second := (hour * 3600 + minute * 60 + second)%Z |}.

Definition hour (d : t) : Z := (day_second d / 3600)%Z.
Definition minute (d : t) : Z := ((day_second d mod 3600) / 60)%Z.
Definition second (d : t) : Z := ((day_second d mod 3600) mod 60)%Z.

Record timedelta : Type := mkdelta { days : Z; seconds : Z }.

(** [timedelta(minutes=m)]: normalised so that [0 <= seconds < 86400];
    the day count is limited to nine digits. *)
Definition of_minutes (m : Z) : Py.result timedelta :=
  let s := (m * 60)%Z in
  let d := (s / 86400)%Z in
  if (999999999 <? Z.abs d)%Z
  then Py.Raise (Py.OverflowError "days out of range")
  else Py.Ok {| days := d; seconds := (s mod 86400)%Z |}.

(** [self + delta]. *)
Definition add (self : t) (delta : timedelta) : Py.result t :=
  let s := (day_second self + seconds delta)%Z in
  let d := (ordinal self + days delta + s / 86400)%Z in
  if ((0 <? d) && (d <=? MAXORDINAL))%Z
  then Py.Ok {| ordinal := d; day_second := (s mod 86400)%Z |}
  else Py.Raise (Py.OverflowError "result out of range").

(** Seconds since the start of ordinal day 0; two datetimes compare as
    these numbers do. *)
Definition to_seconds (d : t) : Z := (ordinal d * 86400 + day_second d)%Z.

Definition lt (a b : t) : Prop := (to_seconds a < to_seconds b)%Z.

Definition valid (d : t) : Prop :=
  (0 < ordinal d <= MAXORDINAL /\ 0 <= day_second d < 86400)%Z.

(** The instant [m] minutes after [start], as the loop computes it. *)
Definition after_minutes (start : t) (m : Z) : Py.result t :=
  Py.bind (of_minutes m) (add start).

End datetime.

(** ** CPC_data_generator.py *)

Record sensor_data : Type := mk_data {
  temperature : Q;
  humidity : Z;
  soil_moisture : Z;
  light_level : Z;
  co2_level : Z
}.

Record doc : Type := mk_doc {
  timestamp : datetime.t;
  data : sensor_data
}.

Module Generator.
Section Generator.

(** [np.sin] and [np.pi]. *)
Variable np_sin : Q -> Q.
Variable np_pi : Q.

(** The standard normal variates the process-wide generator hands out,
in order; the state of the generator is the index of the next one. *)
Variable gauss : nat -> Q.

Definition M (A : Type) : Type := nat -> Py.result (A * nat).

Definition ret {A} (a : A) : M A := fun s => Py.Ok (a, s).

Definition bind {A B} (m : M A) (k : A -> M B) : M B :=
fun s =>
match m s with
| Py.Ok (a, s') => k a s'
| Py.Raise e => Py.Raise e
end.

Definition lift {A} (r : Py.result A) : M A :=
fun s =>
match r with
| Py.Ok a => Py.Ok (a, s)
| Py.Raise e => Py.Raise e
end.

Notation "x <- m ;; k" := (bind m (fun x => k))
(at level 61, m at next level, right associativity).

(** [np.random.normal(loc, scale)]. *)
Definition np_random_normal (loc scale : Q) : M Q :=
fun s => Py.Ok (loc + scale * gauss s, S s).

Definition temp_cycle (hour : Z) : Q :=
4 * np_sin (inject_Z (hour - 6) * np_pi / 12).

Definition light_cycle (hour : Z) : Q :=
if ((6 <=? hour) && (hour <=? 18))%Z
then 50000 * np_sin (inject_Z (hour - 6) * np_pi / 12)
else 0.

Definition co2_cycle (hour : Z) : Q :=
-200 * np_sin (inject_Z (hour - 6) * np_pi / 12).

(** One turn of the loop of [generate_data], for index [i]. *)
Definition loop_body (start_time : datetime.t) (step : Z) (i : Z) : M doc :=
let temp := 25.0 in
let humidity := 75 in
let soil_moisture := 65 in
let light_level := 0 in
let co2_level := 800 in
delta <- lift (datetime.of_minutes (step * i)) ;;
current_time <- lift (datetime.add start_time delta) ;;
let hour := datetime.hour current_time in
let temp_cycle := temp_cycle hour in
let light_cycle := light_cycle hour in
let co2_cycle := co2_cycle hour in
temp_variation <- np_random_normal 0 0.3 ;;
humidity_variation <- np_random_normal 0 2 ;;
soil_moisture_variation <- np_random_normal 0 1 ;;
light_variation <- np_random_normal 0 1000 ;;
co2_variation <- np_random_normal 0 50 ;;
let final_temp :=
Py.round (Py.max (Py.min (temp + temp_cycle + temp_variation) 35) 15) 1 in
let final_humidity :=
Py.int (Py.min (Py.max (humidity + humidity_variation) 60) 90) in
let final_soil_moisture :=
Py.int (Py.min (Py.max (soil_moisture + soil_moisture_variation) 50) 80) in
let final_light :=
Py.maxZ (Py.int (light_level + light_cycle + light_variation)) 0 in
let final_co2 :=
Py.maxZ (Py.int (co2_level + co2_cycle + co2_variation)) 400 in
ret {| timestamp := current_time;
     data := {| temperature := final_temp;
                humidity := final_humidity;
                soil_moisture := final_soil_moisture;
                light_level := final_light;
                co2_level := final_co2 |} |}.

(** [for i in range(...)]: each turn appends its document. *)
Fixpoint for_each (start_time : datetime.t) (step : Z)
(indices : list Z) (documents : list doc) : M (list doc) :=
match indices with
| [] => ret documents
| i :: rest =>
  d <- loop_body start_time step i ;;
  for_each start_time step rest (documents ++ [d])
end.

(** The generation loop with its three literals named: the start
instant, the spacing in minutes and the number of samples. *)
Definition generate (start_time : datetime.t) (step : Z) (count : nat)
: M (list doc) :=
for_each start_time step (Py.range count) [].

Definition start_time : datetime.t := datetime.make 2025 1 21 0 0 0.

Definition generate_data : M (list doc) := generate start_time 30 48.

End Generator.
End Generator.


(** ** NumPy

    The array functions the analysis calls, after NumPy's definitions.
    An array of floats is a list of rationals. *)

Module np.

(** A binary64 value that may have left the finite numbers. *)
Inductive float64 : Type :=
| Fin (q : Q)
| Inf (negative : bool)
| NaN.

Definition Qlt_bool (a b : Q) : bool := negb (Qle_bool b a).

(** [a / b] on floats: a zero divisor gives an infinity, or NaN for
    [0 / 0], with a warning and no exception. *)
Definition true_divide (a b : Q) : float64 :=
  if Qeq_bool b 0
  then if Qeq_bool a 0 then NaN else Inf (Qlt_bool a 0)
  else Fin (a / b).

Definition negative (x : float64) : float64 :=
  match x with
  | Fin q => Fin (- q)
  | Inf s => Inf (negb s)
  | NaN => NaN
  end.

Definition add (x y : float64) : float64 :=
  match x, y with
  | Fin a, Fin b => Fin (a + b)
  | Fin _, Inf s => Inf s
  | Inf s, Fin _ => Inf s
  | Inf s, Inf s' => if Bool.eqb s s' then Inf s else NaN
  | _, _ => NaN
  end.

Definition subtract (x y : float64) : float64 := add x (negative y).

Definition multiply (x y : float64) : float64 :=
  match x, y with
  | Fin a, Fin b => Fin (a * b)
  | Fin a, Inf s => if Qeq_bool a 0 then NaN else Inf (xorb s (Qlt_bool a 0))
  | Inf s, Fin b => if Qeq_bool b 0 then NaN else Inf (xorb s (Qlt_bool b 0))
  | Inf s, Inf s' => Inf (xorb s s')
  | _, _ => NaN
  end.

Definition absolute (x : float64) : float64 :=
  match x with
  | Fin q => Fin (Qabs q)
  | Inf _ => Inf false
  | NaN => NaN
  end.

(** [x < y]; every comparison with NaN is false. *)
Definition less (x y : float64) : bool :=
  match x, y with
  | Fin a, Fin b => Qlt_bool a b
  | Fin _, Inf s => negb s
  | Inf s, Fin _ => s
  | Inf s, Inf s' => s && negb s'
  | _, _ => false
  end.

Definition greater (x y : float64) : bool := less y x.

(** [np.arange(n)]. *)
Definition arange (n : nat) : list Q := map inject_Z (Py.range n).

(** [np.ones(n)]. *)
Definition ones (n : Z) : Py.result (list Q) :=
  if (n <? 0)%Z
  then Py.Raise (Py.ValueError "negative dimensions are not allowed")
  else Py.Ok (repeat 1 (Z.to_nat n)).

Definition sum (a : list Q) : Q := fold_right Qplus 0 a.

(** [np.mean(a)] of a non-empty array. *)
Definition mean (a : list Q) : Q := sum a / inject_Z (Z.of_nat (length a)).

Definition amax (a : list Q) : Q :=
  match a with
  | [] => 0
  | x :: a' => fold_left Qmax a' x
  end.

Definition amin (a : list Q) : Q :=
  match a with
  | [] => 0
  | x :: a' => fold_left Qmin a' x
  end.

(** Sum of the products of the leading elements of [a] and [v], as far
    as the shorter one reaches. *)
Fixpoint dot (a v : list Q) : Q :=
  match a, v with
  | x :: a', y :: v' => x * y + dot a' v'
  | _, _ => 0
  end.

(** [np.correlate(a, v, 'valid')] for [len(v) <= len(a)]: one output
    for each position at which [v] lies inside [a]. *)
Definition correlate_valid (a v : list Q) : list Q :=
  map (fun k => dot (skipn k a) v) (seq 0 (length a - length v + 1)).

(** [np.convolve(a, v, mode='valid')]: the longer array is taken as the
    signal whichever argument it is. *)
Definition convolve_valid (a v : list Q) : Py.result (list Q) :=
  let (a, v) := if (length a <? length v)%nat then (v, a) else (a, v) in
  if (length a =? 0)%nat then Py.Raise (Py.ValueError "a cannot be empty")
  else if (length v =? 0)%nat then Py.Raise (Py.ValueError "v cannot be empty")
  else Py.Ok (correlate_valid a (rev v)).

(** The three distinct entries of [np.cov(x, y, bias=1)] for two
    arrays of the same length [n >= 1]: deviations from the means,
    their products summed and scaled by [1 / n]. *)
Definition cov (x y : list Q) : Q * Q * Q :=
  let fact := inject_Z (Z.of_nat (length x)) in
  let dx := map (fun a => a - mean x) x in
  let dy := map (fun b => b - mean y) y in
  (dot dx dx * (1 / fact), dot dx dy * (1 / fact), dot dy dy * (1 / fact)).

End np.

(** ** [scipy.stats.linregress]

    After SciPy's definition (version 1.6 or later, which refuses an [x]
    whose values are all identical). *)

Module stats.

(** The correlation coefficient [ssxym / sqrt(ssxm * ssym)] is a
    rational over a square root; it is kept exactly, as its sign and
    its square. *)
Record root : Type := mk_root { sign : Z; square : Q }.

Definition root_of_quotient (num den_squared : Q) : root :=
  {| sign := Z.sgn (Qnum num); square := num * num / den_squared |}.

Definition root_const (z : Z) : root :=
  {| sign := Z.sgn z; square := inject_Z (z * z) |}.

(** [r > 1.0] and [r < -1.0]. *)
Definition above_one (r : root) : bool :=
  (0 <? sign r)%Z && np.Qlt_bool 1 (square r).
Definition below_minus_one (r : root) : bool :=
  (sign r <? 0)%Z && np.Qlt_bool 1 (square r).

(** The fields of the result that the program reads; the p-value and
    the standard error are computed after them and are not used. *)
Record LinregressResult : Type := mk_result {
  slope : np.float64;
  intercept : np.float64;
  rvalue : root
}.

(** The estimates, for two arrays of the same length [n >= 1]. *)
Definition estimate (x y : list Q) : LinregressResult :=
  let xmean := np.mean x in
  let ymean := np.mean y in
  let '(ssxm, ssxym, ssym) := np.cov x y in
  let r :=
    if Qeq_bool ssxm 0 || Qeq_bool ssym 0 then root_const 0
    else
      let r := root_of_quotient ssxym (ssxm * ssym) in
      if above_one r then root_const 1
      else if below_minus_one r then root_const (-1)
      else r in
  let slope := np.true_divide ssxym ssxm in
  let intercept := np.subtract (np.Fin ymean) (np.multiply slope (np.Fin xmean)) in
  {| slope := slope; intercept := intercept; rvalue := r |}.

(** [linregress(x, y)]: the checks on the input, then the estimates.
    A single point passes the checks. *)
Definition linregress (x y : list Q) : Py.result LinregressResult :=
  if ((length x =? 0) || (length y =? 0))%nat
  then Py.Raise (Py.ValueError "Inputs must not be empty.")
  else if Qeq_bool (np.amax x) (np.amin x) && (1 <? length x)%nat
  then Py.Raise (Py.ValueError
         "Cannot calculate a linear regression if all x values are identical")
  else if negb (length x =? length y)%nat
  then Py.Raise (Py.ValueError "all the input array dimensions must match")
  else Py.Ok (estimate x y).

End stats.

(** ** CPC_Visualization.py *)

(** A value found under 'timestamp', as [datetime.fromisoformat] takes
    it: text in ISO format, which denotes an instant, any other text, or a
    value that is not text. *)
Inductive timestamp_value : Type :=
| iso_text (dt : datetime.t)
| other_text (s : string)
| not_text.

(** A value found under 'data': a dict, given as its items, which may
    lack any of its keys and holds numbers, or a value that is not a
    dict. *)
Inductive data_value : Type :=
| dict (items : list (string * Q))
| not_dict.

(** A document of the collection, as [find()] returns it: either key may
    be missing. *)
Record mongo_doc : Type := mk_mongo_doc {
  doc_timestamp : option timestamp_value;
  doc_data : option data_value
}.

Module Visualization.

Local Open Scope string_scope.

Notation "x <- m ;; k" := (Py.bind m (fun x => k))
  (at level 61, m at next level, right associativity).
Notation "' pat <- m ;; k" :=
  (Py.bind m (fun x => match x with pat => k end))
  (at level 61, pat pattern, m at next level, right associativity).

(** [d[key]] on a dict given as its items in insertion order. *)
Fixpoint getitem {A} (d : list (string * A)) (key : string) : Py.result A :=
  match d with
  | [] => Py.Raise (Py.KeyError key)
  | (k, v) :: d' => if String.eqb k key then Py.Ok v else getitem d' key
  end.

(** [l[start:]]. *)
Definition slice_from {A} (l : list A) (start : Z) : list A :=
  let n := Z.of_nat (length l) in
  let start := if (start <? 0)%Z then Z.max (start + n) 0 else start in
  skipn (Z.to_nat start) l.

Definition digits (n : Z) : string :=
  NilZero.string_of_uint (N.to_uint (Z.to_N n)).

Definition two_digits (n : Z) : string :=
  if (n <? 10)%Z then "0" ++ digits n else digits n.

(** [format(x, '.2f')]: sign, integer part, point, two decimals, the
    value rounded to the nearest hundredth. *)
Definition format_2f (x : np.float64) : string :=
  match x with
  | np.Fin q =>
      let n := Py.round_half_even (Qabs q * 100) in
      (if np.Qlt_bool q 0 then "-" else "")
      ++ digits (n / 100) ++ "." ++ two_digits (n mod 100)
  | np.Inf false => "inf"
  | np.Inf true => "-inf"
  | np.NaN => "nan"
  end.

(** [dt.strftime('%H:%M')]. *)
Definition strftime_HM (dt : datetime.t) : string :=
  two_digits (datetime.hour dt) ++ ":" ++ two_digits (datetime.minute dt).

Definition calculate_moving_average (data : list Q) (window : Z)
  : Py.result (list Q) :=
  ones <- np.ones window ;;
  np.convolve_valid data (map (fun a => a / inject_Z window) ones).

Definition predict_trend (x y : list Q)
  : Py.result (np.float64 * np.float64 * np.float64) :=
  res <- stats.linregress x y ;;
  Py.Ok (stats.slope res, stats.intercept res,
         np.Fin (stats.square (stats.rvalue res))).

Definition trend_descriptions : list (string * list (string * string)) :=
  [ ("temperature",
     [ ("increasing", "Temperature is steadily rising, indicating heat accumulation.");
       ("decreasing", "Temperature is declining, suggesting cooling or external climate influences.");
       ("stable", "Temperature remains relatively constant.") ]);
    ("humidity",
     [ ("increasing", "Humidity is gradually increasing, potentially indicating higher moisture content.");
       ("decreasing", "Humidity is decreasing, making the environment drier.");
       ("stable", "Humidity remains consistent.") ]);
    ("soil_moisture",
     [ ("increasing", "Soil moisture is increasing, possibly due to irrigation or environmental changes.");
       ("decreasing", "Soil moisture is decreasing, which might require attention to plant hydration.");
       ("stable", "Soil moisture remains steady.") ]);
    ("light_level",
     [ ("increasing", "Light intensity is continuously increasing, reflecting changing daylight.");
       ("decreasing", "Light intensity is diminishing, possibly due to cloud cover or time of day.");
       ("stable", "Light intensity remains constant.") ]);
    ("co2_level",
     [ ("increasing", "CO2 concentration is rising, potentially indicating ventilation issues.");
       ("decreasing", "CO2 concentration is dropping, suggesting good ventilation or plant photosynthesis.");
       ("stable", "CO2 levels remain relatively stable.") ]) ].

(** Lines 52 to 57: the direction of the trend. *)
Definition trend_of (slope : np.float64) : string :=
  if np.less (np.absolute slope) (np.Fin 0.01) then "stable"
  else if np.greater slope (np.Fin 0) then "increasing"
  else "decreasing".

(** Line 60. *)
Definition confidence_note (r2 : np.float64) : string :=
  if np.greater r2 (np.Fin 0.7)
  then "Trend analysis is highly reliable"
  else "Trend analysis should be interpreted cautiously".

Definition generate_trend_narrative (parameter : string)
    (slope r2 : np.float64) : Py.result string :=
  let trend := trend_of slope in
  let confidence_note := confidence_note r2 in
  by_trend <- getitem trend_descriptions parameter ;;
  description <- getitem by_trend trend ;;
  Py.Ok (description ++ " " ++ confidence_note
         ++ ", statistical fit R² = " ++ format_2f r2 ++ ".").

(** The six lists filled by the loop over the documents. *)
Record series : Type := mk_series {
  timestamps : list string;
  temperatures : list Q;
  humidities : list Q;
  soil_moistures : list Q;
  light_levels : list Q;
  co2_levels : list Q
}.

Definition empty_series : series := mk_series [] [] [] [] [] [].

(** [datetime.fromisoformat(timestamp_str)]. *)
Definition fromisoformat (timestamp_str : timestamp_value)
  : Py.result datetime.t :=
  match timestamp_str with
  | iso_text dt => Py.Ok dt
  | other_text s => Py.Raise (Py.ValueError ("Invalid isoformat string: " ++ s))
  | not_text => Py.Raise (Py.TypeError "fromisoformat: argument must be str")
  end.

(** [doc['timestamp']]. *)
Definition timestamp_of (doc : mongo_doc) : Py.result timestamp_value :=
  match doc_timestamp doc with
  | Some v => Py.Ok v
  | None => Py.Raise (Py.KeyError "timestamp")
  end.

(** [data[key]] on the value found under 'data'. *)
Definition data_getitem (data : data_value) (key : string) : Py.result Q :=
  match data with
  | dict items => getitem items key
  | not_dict => Py.Raise (Py.TypeError "object is not subscriptable")
  end.

(** Lines 81 to 92: one turn of the loop on a document with 'data'. *)
Definition append_reading (doc : mongo_doc) (data : data_value)
    (acc : series) : Py.result series :=
  timestamp_str <- timestamp_of doc ;;
  dt <- fromisoformat timestamp_str ;;
  let time_only := strftime_HM dt in
  temperature <- data_getitem data "temperature" ;;
  humidity <- data_getitem data "humidity" ;;
  soil_moisture <- data_getitem data "soil_moisture" ;;
  light_level <- data_getitem data "light_level" ;;
  co2_level <- data_getitem data "co2_level" ;;
  Py.Ok {| timestamps := (timestamps acc ++ [time_only])%list;
           temperatures := (temperatures acc ++ [temperature])%list;
           humidities := (humidities acc ++ [humidity])%list;
           soil_moistures := (soil_moistures acc ++ [soil_moisture])%list;
           light_levels := (light_levels acc ++ [light_level])%list;
           co2_levels := (co2_levels acc ++ [co2_level])%list |}.

(** Lines 78 to 92: the loop over the documents. *)
Fixpoint collect (documents : list mongo_doc) (acc : series)
  : Py.result series :=
  match documents with
  | [] => Py.Ok acc
  | doc :: rest =>
      match doc_data doc with
      | None => collect rest acc
      | Some data =>
          acc' <- append_reading doc data acc ;;
          collect rest acc'
      end
  end.

(** [slope * x + intercept] on the array [x]. *)
Definition trend_line (slope intercept : np.float64) (x : list Q)
  : list np.float64 :=
  map (fun xi => np.add (np.multiply slope (np.Fin xi)) intercept) x.

Section Run.

(** [ax.plot(xs, ys)]: the drawing library is outside the program; a
    call may raise, for instance on arguments of different lengths. *)
Variable ax_plot : list string -> list np.float64 -> Py.result unit.

(** One panel: moving average, fit, the three curves.  Returns the
    slope and R² of the fit. *)
Definition panel (timestamps : list string) (x values : list Q)
  : Py.result (np.float64 * np.float64) :=
  ma <- calculate_moving_average values 3 ;;
  '(slope, intercept, r2) <- predict_trend x values ;;
  let pred := trend_line slope intercept x in
  _ <- ax_plot timestamps (map np.Fin values) ;;
  _ <- ax_plot
         (slice_from timestamps
            (Z.of_nat (length timestamps) - Z.of_nat (length ma)))
         (map np.Fin ma) ;;
  _ <- ax_plot timestamps pred ;;
  Py.Ok (slope, r2).

(** The body of the [try] of [create_visualization], up to the
    dictionary of narratives: [None] when no document carries data. *)
Definition create_visualization (documents : list mongo_doc)
  : Py.result (option (list (string * string))) :=
  s <- collect documents empty_series ;;
  match timestamps s with
  | [] => Py.Ok None
  | _ :: _ =>
      let timestamps := timestamps s in
      let x := np.arange (length timestamps) in
      temp_ma <- calculate_moving_average (temperatures s) 3 ;;
      hum_ma <- calculate_moving_average (humidities s) 3 ;;
      _ <- ax_plot timestamps (map np.Fin (temperatures s)) ;;
      _ <- ax_plot
             (slice_from timestamps
                (Z.of_nat (length timestamps) - Z.of_nat (length temp_ma)))
             (map np.Fin temp_ma) ;;
      _ <- ax_plot timestamps (map np.Fin (humidities s)) ;;
      _ <- ax_plot
             (slice_from timestamps
                (Z.of_nat (length timestamps) - Z.of_nat (length hum_ma)))
             (map np.Fin hum_ma) ;;
      '(temp_slope, temp_intercept, temp_r2) <-
         predict_trend x (temperatures s) ;;
      _ <- ax_plot timestamps (trend_line temp_slope temp_intercept x) ;;
      '(soil_slope, soil_r2) <- panel timestamps x (soil_moistures s) ;;
      '(light_slope, light_r2) <- panel timestamps x (light_levels s) ;;
      '(co2_slope, co2_r2) <- panel timestamps x (co2_levels s) ;;
      n_temperature <-
        generate_trend_narrative "temperature" temp_slope temp_r2 ;;
      n_humidity <-
        generate_trend_narrative "humidity" (np.Fin 0) (np.Fin 0) ;;
      n_soil_moisture <-
        generate_trend_narrative "soil_moisture" soil_slope soil_r2 ;;
      n_light_level <-
        generate_trend_narrative "light_level" light_slope light_r2 ;;
      n_co2_level <-
        generate_trend_narrative "co2_level" co2_slope co2_r2 ;;
      Py.Ok (Some [ ("temperature", n_temperature);
                    ("humidity", n_humidity);
                    ("soil_moisture", n_soil_moisture);
                    ("light_level", n_light_level);
                    ("co2_level", n_co2_level) ])
  end.

End Run.

End Visualization.
(** ** Vocabulary for the properties of the generator *)

Module GeneratorSpec.
Section Spec.

Variable np_sin : Q -> Q.
Variable np_pi : Q.
Variable gauss : nat -> Q.

Local Abbreviation temp_cycle := (Generator.temp_cycle np_sin np_pi).
Local Abbreviation light_cycle := (Generator.light_cycle np_sin np_pi).
Local Abbreviation co2_cycle := (Generator.co2_cycle np_sin np_pi).
Local Abbreviation after_minutes := datetime.after_minutes.

(** The hard clamp of the specification. *)
Definition clamp (lower upper value : Q) : Q :=
Py.max (Py.min value upper) lower.

(** The five values of the reading taken at clock hour [hour] when the
generator is in state [s]: the variates used are [gauss s] to
[gauss (4 + s)], in the order of the five calls. *)
Definition sample (hour : Z) (s : nat) : sensor_data :=
{| temperature :=
   Py.round (Py.max (Py.min (25.0 + temp_cycle hour + (0 + 0.3 * gauss s)) 35) 15) 1;
 humidity :=
   Py.int (Py.min (Py.max (75 + (0 + 2 * gauss (1 + s))) 60) 90);
 soil_moisture :=
   Py.int (Py.min (Py.max (65 + (0 + 1 * gauss (2 + s))) 50) 80);
 light_level :=
   Py.maxZ (Py.int (0 + light_cycle hour + (0 + 1000 * gauss (3 + s)))) 0;
 co2_level :=
   Py.maxZ (Py.int (800 + co2_cycle hour + (0 + 50 * gauss (4 + s)))) 400 |}.

Definition within_bounds (d : sensor_data) : Prop :=
15 <= temperature d <= 35 /\
(60 <= humidity d <= 90)%Z /\
(50 <= soil_moisture d <= 80)%Z /\
(0 <= light_level d)%Z /\
(400 <= co2_level d)%Z.

(** The variation drawn by [np.random.normal(0, sigma)] as call number
[j] of a reading taken in generator state [s]. *)
Definition variation (sigma : Q) (j s : nat) : Q := 0 + sigma * gauss (j + s).

(** The reading at clock hour [hour] taken in generator state [s] is
the clamp of base + cycle + the variation drawn for it, each metric
with its own limits (one-sided for light and CO2), then rounded to one
decimal or truncated. *)
Definition clamped_at (hour : Z) (s : nat) (d : sensor_data) : Prop :=
temperature d
= Py.round (clamp 15 35 (25.0 + temp_cycle hour + variation 0.3 0 s)) 1 /\
humidity d = Py.int (clamp 60 90 (75 + variation 2 1 s)) /\
soil_moisture d = Py.int (clamp 50 80 (65 + variation 1 2 s)) /\
light_level d
= Z.max (Py.int (0 + light_cycle hour + variation 1000 3 s)) 0 /\
co2_level d
= Z.max (Py.int (800 + co2_cycle hour + variation 50 4 s)) 400.

(** [docs_at start step indices s docs]: [docs] are the documents of
the turns [indices], the first one taken in generator state [s]. *)
Fixpoint docs_at (start : datetime.t) (step : Z) (indices : list Z)
(s : nat) (docs : list doc) : Prop :=
match indices, docs with
| [], [] => True
| i :: indices', d :: docs' =>
  after_minutes start (step * i) = Py.Ok (timestamp d) /\
  data d = sample (datetime.hour (timestamp d)) s /\
  docs_at start step indices' (5 + s)%nat docs'
| _, _ => False
end.

End Spec.
End GeneratorSpec.

(** ** Vocabulary for the properties of the analysis *)

Module AnalysisSpec.

Local Open Scope string_scope.

Inductive metric : Type :=
| Temperature | Humidity | SoilMoisture | LightLevel | Co2Level.

Inductive direction : Type := Increasing | Decreasing | Stable.

Inductive confidence : Type := Reliable | Cautious.

Definition metric_key (m : metric) : string :=
  match m with
  | Temperature => "temperature"
  | Humidity => "humidity"
  | SoilMoisture => "soil_moisture"
  | LightLevel => "light_level"
  | Co2Level => "co2_level"
  end.

Definition direction_key (d : direction) : string :=
  match d with
  | Increasing => "increasing"
  | Decreasing => "decreasing"
  | Stable => "stable"
  end.

Definition confidence_phrase (c : confidence) : string :=
  match c with
  | Reliable => "Trend analysis is highly reliable"
  | Cautious => "Trend analysis should be interpreted cautiously"
  end.

(** The classifier in the words of the specification. *)
Definition classify_direction (slope : Q) : direction :=
  if Qlt_le_dec (Qabs slope) 0.01 then Stable
  else if Qlt_le_dec 0 slope then Increasing
  else Decreasing.

Definition classify_confidence (r_squared : Q) : confidence :=
  if Qlt_le_dec 0.7 r_squared then Reliable else Cautious.




(** The kernel [np.ones(window) / window] of the moving average. *)
Definition kernel (window : Z) : list Q :=
  repeat (1 / inject_Z window) (Z.to_nat window).

(** The mean of the [w] elements of [l] from position [i] on. *)
Definition window_mean (l : list Q) (i w : nat) : Q :=
  np.sum (firstn w (skipn i l)) / inject_Z (Z.of_nat w).

(** Element-wise equality of two arrays as numbers. *)
Definition array_eq (a b : list Q) : Prop := Forall2 Qeq a b.

(** The closed-form least-squares estimates over the sums of the data,
    for [n] points. *)
Definition sum_xy (x y : list Q) : Q := np.dot x y.

Definition n_of (x : list Q) : Q := inject_Z (Z.of_nat (length x)).

Definition Sxx (x : list Q) : Q :=
  n_of x * sum_xy x x - np.sum x * np.sum x.

Definition Sxy (x y : list Q) : Q :=
  n_of x * sum_xy x y - np.sum x * np.sum y.

Definition ols_slope (x y : list Q) : Q := Sxy x y / Sxx x.

Definition ols_intercept (x y : list Q) : Q :=
  (np.sum y - ols_slope x y * np.sum x) / n_of x.

(** The square of the Pearson correlation coefficient, taken as 0 for
    a constant [y]. *)
Definition pearson_squared (x y : list Q) : Q :=
  if Qeq_bool (Sxx y) 0 then 0
  else Sxy x y * Sxy x y / (Sxx x * Sxx y).

(** All elements of [x] are the same number: zero variance. *)
Definition constant (x : list Q) : Prop :=
  forall a b, In a x -> In b x -> a == b.

(** A drawing call that, like matplotlib's, refuses arguments of
    different lengths and does nothing else that matters here. *)
Definition plot_same_length (xs : list string) (ys : list np.float64)
  : Py.result unit :=
  if (length xs =? length ys)%nat then Py.Ok tt
  else Py.Raise (Py.ValueError "x and y must have same first dimension").

(** The dict that the generator writes under 'data' (lines 62 to 68),
    given as its items. *)
Definition items (d : sensor_data) : list (string * Q) :=
  [ ("temperature", temperature d);
    ("humidity", inject_Z (humidity d));
    ("soil_moisture", inject_Z (soil_moisture d));
    ("light_level", inject_Z (light_level d));
    ("co2_level", inject_Z (co2_level d)) ].

(** A reading as the collection returns it: both keys present, the
    instant written in ISO text, the five metrics under their keys. *)
Definition reading (dt : datetime.t) (d : sensor_data) : mongo_doc :=
  mk_mongo_doc (Some (iso_text dt)) (Some (dict (items d))).

(** Three stored readings, half an hour apart, with rising humidity. *)
Definition three_readings : list mongo_doc :=
  [ reading (datetime.make 2025 1 21 0 0 0) (mk_data 25.1 61 65 0 800);
    reading (datetime.make 2025 1 21 0 30 0) (mk_data 25.3 75 66 120 790);
    reading (datetime.make 2025 1 21 1 0 0) (mk_data 26.0 89 64 80 815) ].

(** Claims of the specification that the program does not satisfy as
    stated, for reference in their refutations. *)
Definition smoother_fails_exactly_on_bad_window : Prop :=
  forall (data : list Q) (window : Z),
    Py.is_ok (Visualization.calculate_moving_average data window) = false
    <-> (Z.of_nat (length data) < window \/ window < 1)%Z.

Definition fitter_fails_exactly_on_degenerate_series : Prop :=
  forall (x y : list Q),
    length x = length y ->
    (Py.is_ok (Visualization.predict_trend x y) = false
     <-> ((length x < 2)%nat \/ constant x)).

End AnalysisSpec.

(** ** Vocabulary for further properties *)

From Stdlib Require Import Sorted.

Module ExtraSpec.

Local Open Scope string_scope.

(** The keys of [trend_descriptions]. *)
Definition supported : list string :=
  ["temperature"; "humidity"; "soil_moisture"; "light_level"; "co2_level"].

(** ['data' in doc]. *)
Definition has_data (doc : mongo_doc) : bool :=
  match doc_data doc with Some _ => true | None => false end.

(** The first of the five metric keys, in the order the loop reads
    them, that the dict [data] lacks. *)
Definition first_missing (data : list (string * Q)) : option string :=
  find (fun key => negb (existsb (String.eqb key) (map fst data))) supported.

(** What stops the loop of [create_visualization] at a document, if
    anything does: a document without 'data' is skipped; one with 'data'
    needs a 'timestamp', which must be text in ISO format, and then a
    dict under 'data' with the five metrics. *)
Definition defect (doc : mongo_doc) : option Py.exn :=
  match doc_data doc with
  | None => None
  | Some data =>
      match doc_timestamp doc with
      | None => Some (Py.KeyError "timestamp")
      | Some (other_text s) =>
          Some (Py.ValueError ("Invalid isoformat string: " ++ s))
      | Some not_text =>
          Some (Py.TypeError "fromisoformat: argument must be str")
      | Some (iso_text _) =>
          match data with
          | dict items => option_map Py.KeyError (first_missing items)
          | not_dict => Some (Py.TypeError "object is not subscriptable")
          end
      end
  end.

(** A document that the loop passes. *)
Definition complete (doc : mongo_doc) : bool :=
  match defect doc with None => true | Some _ => false end.

(** The six lists of a [series] all have length [n]. *)
Definition aligned (n : nat) (s : Visualization.series) : Prop :=
  length (Visualization.timestamps s) = n /\
  length (Visualization.temperatures s) = n /\
  length (Visualization.humidities s) = n /\
  length (Visualization.soil_moistures s) = n /\
  length (Visualization.light_levels s) = n /\
  length (Visualization.co2_levels s) = n.

(** A generated document as the collection returns it: both keys
    present, the five metrics under 'data'.  The text form of the
    timestamp between the two programs is not modelled: what [isoformat]
    writes is text in ISO format for the same instant. *)
Definition stored (d : doc) : mongo_doc :=
  AnalysisSpec.reading (timestamp d) (data d).

(** A series that never falls, and one that never rises. *)
Definition nondecreasing (l : list Q) : Prop := StronglySorted Qle l.
Definition nonincreasing (l : list Q) : Prop :=
  StronglySorted (fun a b => b <= a) l.

(** The axis labels of one day sampled every half hour. *)
Definition half_hour_labels : list string :=
  map (fun k => Visualization.two_digits (k / 2) ++ ":"
                ++ Visualization.two_digits (30 * (k mod 2)))%Z
    (Py.range 48).

Section Unclamped.

Variable np_sin : Q -> Q.
Variable np_pi : Q.
Variable gauss : nat -> Q.

(** The reading at clock hour [hour] in generator state [s] with the
    upper and lower limits of lines 53 to 57 left out, except the floor
    of the light level at 0. *)
Definition unclamped (hour : Z) (s : nat) : sensor_data :=
  {| temperature :=
       Py.round (25.0 + Generator.temp_cycle np_sin np_pi hour
                 + (0 + 0.3 * gauss s)) 1;
     humidity := Py.int (75 + (0 + 2 * gauss (1 + s)));
     soil_moisture := Py.int (65 + (0 + 1 * gauss (2 + s)));
     light_level :=
       Py.maxZ (Py.int (0 + Generator.light_cycle np_sin np_pi hour
                        + (0 + 1000 * gauss (3 + s)))) 0;
     co2_level :=
       Py.int (800 + Generator.co2_cycle np_sin np_pi hour
               + (0 + 50 * gauss (4 + s))) |}.

End Unclamped.

(** One stored reading, and a document without data beside it. *)
Definition one_reading : list mongo_doc :=
  [ mk_mongo_doc None None;
    AnalysisSpec.reading (datetime.make 2025 1 21 0 0 0)
      (mk_data 25.1 61 65 0 800) ].

(** Three documents of which the second lacks its humidity and the
    third its timestamp. *)
Definition humidity_missing : list mongo_doc :=
  [ AnalysisSpec.reading (datetime.make 2025 1 21 0 0 0)
      (mk_data 25.1 61 65 0 800);
    mk_mongo_doc (Some (iso_text (datetime.make 2025 1 21 0 30 0)))
      (Some (dict [ ("temperature", 25.3); ("soil_moisture", 66);
                    ("light_level", 120); ("co2_level", 790) ]));
    mk_mongo_doc None (Some (dict [])) ].

End ExtraSpec.

(** ** Facts about the builtins *)

Module PyFacts.

Lemma max_cases (a b : Q) :
  (a < b /\ Py.max a b = b) \/ (b <= a /\ Py.max a b = a).
Proof. unfold Py.max; destruct (Qlt_le_dec a b); auto. Qed.

Lemma min_cases (a b : Q) :
  (b < a /\ Py.min a b = b) \/ (a <= b /\ Py.min a b = a).
Proof. unfold Py.min; destruct (Qlt_le_dec b a); auto. Qed.

Lemma max_min_bounds (lower upper v : Q) :
  lower <= upper ->
  lower <= Py.max (Py.min v upper) lower <= upper.
Proof.
  intros Hlu.
  destruct (min_cases v upper) as [[H1 E1]|[H1 E1]]; rewrite E1;
    destruct (max_cases upper lower) as [[H2 E2]|[H2 E2]];
    destruct (max_cases v lower) as [[H3 E3]|[H3 E3]];
    try rewrite E2; try rewrite E3; split; lra.
Qed.

Lemma min_max_bounds (lower upper v : Q) :
  lower <= upper ->
  lower <= Py.min (Py.max v lower) upper <= upper.
Proof.
  intros Hlu.
  destruct (max_cases v lower) as [[H1 E1]|[H1 E1]]; rewrite E1;
    destruct (min_cases lower upper) as [[H2 E2]|[H2 E2]];
    destruct (min_cases v upper) as [[H3 E3]|[H3 E3]];
    try rewrite E2; try rewrite E3; split; lra.
Qed.

(** Clamping from below first or from above first gives the same number. *)
Lemma min_max_swap (lower upper v : Q) :
  lower <= upper ->
  Py.min (Py.max v lower) upper == Py.max (Py.min v upper) lower.
Proof.
  intros Hlu.
  destruct (max_cases v lower) as [[H1 E1]|[H1 E1]]; rewrite E1;
    destruct (min_cases v upper) as [[H2 E2]|[H2 E2]]; rewrite E2;
    destruct (min_cases lower upper) as [[H3 E3]|[H3 E3]];
    destruct (max_cases upper lower) as [[H4 E4]|[H4 E4]];
    destruct (max_cases v lower) as [[H5 E5]|[H5 E5]];
    destruct (min_cases v upper) as [[H6 E6]|[H6 E6]];
    try rewrite E3; try rewrite E4; try rewrite E5; try rewrite E6; lra.
Qed.

Lemma maxZ_max (a b : Z) : Py.maxZ a b = Z.max a b.
Proof. unfold Py.maxZ; destruct (Z.ltb_spec a b); lia. Qed.

Lemma Qle_num (n : Z) (x : Q) :
  inject_Z n <= x <-> (n * Zpos (Qden x) <= Qnum x)%Z.
Proof. unfold Qle; simpl; lia. Qed.

Lemma Qge_num (n : Z) (x : Q) :
  x <= inject_Z n <-> (Qnum x <= n * Zpos (Qden x))%Z.
Proof. unfold Qle; simpl; lia. Qed.

Lemma int_ge (n : Z) (x : Q) : (0 <= n)%Z -> inject_Z n <= x -> (n <= Py.int x)%Z.
Proof.
  intros Hn H; apply Qle_num in H; unfold Py.int.
  apply Z.quot_le_lower_bound; lia.
Qed.

Lemma int_le (n : Z) (x : Q) : (0 <= n)%Z -> x <= inject_Z n -> (Py.int x <= n)%Z.
Proof.
  intros Hn H; apply Qge_num in H; unfold Py.int.
  destruct (Z.le_gt_cases 0 (Qnum x)) as [Hx|Hx].
  - apply Z.quot_le_upper_bound; lia.
  - pose proof (Z.quot_opp_l (- Qnum x) (Zpos (Qden x)) ltac:(lia)) as E.
    rewrite Z.opp_involutive in E; rewrite E.
    pose proof (Z.quot_pos (- Qnum x) (Zpos (Qden x)) ltac:(lia) ltac:(lia)).
    lia.
Qed.

Lemma int_floor (x : Q) :
  Py.int x = if (0 <=? Qnum x)%Z then Qfloor x else (- Qfloor (- x))%Z.
Proof.
  destruct x as [n d]; unfold Py.int; simpl.
  destruct (Z.leb_spec 0 n).
  - apply Z.quot_div_nonneg; lia.
  - rewrite <- (Z.opp_involutive n) at 1.
    rewrite Z.quot_opp_l by lia. f_equal.
    apply Z.quot_div_nonneg; lia.
Qed.

Lemma int_compat (x y : Q) : x == y -> Py.int x = Py.int y.
Proof.
  intros E. rewrite !int_floor.
  assert (Hs : (0 <=? Qnum x)%Z = (0 <=? Qnum y)%Z).
  { unfold Qeq in E.
    destruct (Z.leb_spec 0 (Qnum x)), (Z.leb_spec 0 (Qnum y)); try reflexivity; nia. }
  rewrite Hs. destruct (0 <=? Qnum y)%Z; rewrite E; reflexivity.
Qed.

Lemma round_half_even_floor (x : Q) :
  (Qfloor x <= Py.round_half_even x <= Qfloor x + 1)%Z.
Proof.
  unfold Py.round_half_even.
  destruct (Qcompare (x - inject_Z (Qfloor x)) (1 # 2));
    try destruct (Z.even (Qfloor x)); lia.
Qed.

Lemma round_half_even_ge (n : Z) (x : Q) :
  inject_Z n <= x -> (n <= Py.round_half_even x)%Z.
Proof.
  intros H. apply Qfloor_resp_le in H. rewrite Qfloor_Z in H.
  pose proof (round_half_even_floor x). lia.
Qed.

Lemma round_half_even_le (n : Z) (x : Q) :
  x <= inject_Z n -> (Py.round_half_even x <= n)%Z.
Proof.
  intros H.
  pose proof (round_half_even_floor x) as Hf.
  pose proof (Qfloor_resp_le _ _ H) as Hfl. rewrite Qfloor_Z in Hfl.
  destruct (Z.eq_dec (Qfloor x) n) as [E|NE]; [|lia].
  unfold Py.round_half_even.
  assert (Hx : x - inject_Z (Qfloor x) <= 0) by (rewrite E; lra).
  destruct (Qcompare_spec (x - inject_Z (Qfloor x)) (1 # 2)); try lra; lia.
Qed.

Lemma round_bounds (lower upper : Z) (x : Q) (ndigits : nat) :
  inject_Z lower <= x <= inject_Z upper ->
  inject_Z lower <= Py.round x ndigits <= inject_Z upper.
Proof.
  intros [Hl Hu]. unfold Py.round.
  set (p := (10 ^ Z.of_nat ndigits)%Z).
  assert (Hp : (0 < p)%Z) by (apply Z.pow_pos_nonneg; lia).
  assert (HpQ : 0 < inject_Z p) by (change 0 with (inject_Z 0); rewrite <- Zlt_Qlt; exact Hp).
  assert (H1 : (lower * p <= Py.round_half_even (x * inject_Z p))%Z).
  { apply round_half_even_ge. rewrite inject_Z_mult. nra. }
  assert (H2 : (Py.round_half_even (x * inject_Z p) <= upper * p)%Z).
  { apply round_half_even_le. rewrite inject_Z_mult. nra. }
  rewrite Zle_Qle, inject_Z_mult in H1, H2.
  split.
  - apply Qle_shift_div_l; [exact HpQ | exact H1].
  - apply Qle_shift_div_r; [exact HpQ | exact H2].
Qed.

End PyFacts.

(** ** Facts about [datetime] arithmetic *)

Module datetimeFacts.

Local Open Scope Z_scope.

Lemma after_minutes_ok (start : datetime.t) (m : Z) :
  datetime.valid start ->
  0 <= m ->
  datetime.to_seconds start + 60 * m < (datetime.MAXORDINAL + 1) * 86400 ->
  exists t,
    datetime.after_minutes start m = Py.Ok t /\
    datetime.to_seconds t = datetime.to_seconds start + 60 * m /\
    datetime.valid t.
Proof.
  unfold datetime.valid, datetime.to_seconds, datetime.after_minutes,
    datetime.of_minutes, datetime.MAXORDINAL.
  intros [[Ho1 Ho2] [Hs1 Hs2]] Hm Hlim.
  destruct (Z.ltb_spec 999999999 (Z.abs (m * 60 / 86400))) as [Hbig|_].
  { exfalso. Z.div_mod_to_equations. lia. }
  cbn [Py.bind]. unfold datetime.add, datetime.MAXORDINAL.
  cbn [datetime.days datetime.seconds].
  set (s := datetime.day_second start + (m * 60) mod 86400).
  set (d := datetime.ordinal start + m * 60 / 86400 + s / 86400).
  assert (Hd : d * 86400 + s mod 86400
               = datetime.ordinal start * 86400 + datetime.day_second start + 60 * m).
  { subst d s. Z.div_mod_to_equations. lia. }
  assert (Hr : 0 <= s mod 86400 < 86400) by (apply Z.mod_pos_bound; lia).
  assert (Hd1 : 0 < d) by (subst d s; Z.div_mod_to_equations; lia).
  assert (Hd2 : d <= 3652059) by lia.
  destruct (Z.ltb_spec 0 d); [|lia].
  destruct (Z.leb_spec d 3652059); [|lia].
  cbn [andb]. eexists; split; [reflexivity|].
  cbn [datetime.ordinal datetime.day_second]. lia.
Qed.

Lemma start_valid : datetime.valid Generator.start_time.
Proof. unfold datetime.valid; vm_compute; intuition discriminate. Qed.

End datetimeFacts.

(** ** Facts about the generation loop *)

Module GeneratorFacts.
Section Facts.

Variable np_sin : Q -> Q.
Variable np_pi : Q.
Variable gauss : nat -> Q.

Local Abbreviation temp_cycle := (Generator.temp_cycle np_sin np_pi).
Local Abbreviation light_cycle := (Generator.light_cycle np_sin np_pi).
Local Abbreviation co2_cycle := (Generator.co2_cycle np_sin np_pi).
Local Abbreviation loop_body := (Generator.loop_body np_sin np_pi gauss).
Local Abbreviation for_each := (Generator.for_each np_sin np_pi gauss).
Local Abbreviation generate := (Generator.generate np_sin np_pi gauss).
Local Abbreviation generate_data := (Generator.generate_data np_sin np_pi gauss).
Local Abbreviation after_minutes := datetime.after_minutes.
Local Abbreviation sample := (GeneratorSpec.sample np_sin np_pi gauss).
Local Abbreviation clamped_at := (GeneratorSpec.clamped_at np_sin np_pi gauss).
Local Abbreviation docs_at := (GeneratorSpec.docs_at np_sin np_pi gauss).
Local Abbreviation within_bounds := GeneratorSpec.within_bounds.
Local Abbreviation clamp := GeneratorSpec.clamp.

Lemma loop_body_eq (start : datetime.t) (step i : Z) (t : datetime.t) (s : nat) :
after_minutes start (step * i) = Py.Ok t ->
loop_body start step i s
= Py.Ok ({| timestamp := t; data := sample (datetime.hour t) s |}, (5 + s)%nat).
Proof.
unfold datetime.after_minutes, Generator.loop_body, Generator.bind,
Generator.lift.
destruct (datetime.of_minutes (step * i)) as [delta|e]; cbn [Py.bind];
[|discriminate].
intros ->. reflexivity.
Qed.

Lemma sample_within_bounds (hour : Z) (s : nat) : within_bounds (sample hour s).
Proof.
unfold within_bounds, sample; cbn [temperature humidity soil_moisture
light_level co2_level].
rewrite !PyFacts.maxZ_max.
repeat split; try lia;
first [ apply (PyFacts.round_bounds 15 35), PyFacts.max_min_bounds
      | apply PyFacts.int_ge; [lia|]; apply PyFacts.min_max_bounds
      | apply PyFacts.int_le; [lia|]; apply PyFacts.min_max_bounds ];
apply Qle_bool_imp_le; reflexivity.
Qed.

Lemma sample_clamped (hour : Z) (s : nat) : clamped_at hour s (sample hour s).
Proof.
unfold GeneratorSpec.clamped_at, GeneratorSpec.variation, sample, clamp;
cbn [temperature humidity soil_moisture light_level co2_level Nat.add].
rewrite !PyFacts.maxZ_max.
repeat split; apply PyFacts.int_compat, PyFacts.min_max_swap;
apply Qle_bool_imp_le; reflexivity.
Qed.

Lemma for_each_ok (start : datetime.t) (step : Z) (indices : list Z) :
(forall i, In i indices -> exists t, after_minutes start (step * i) = Py.Ok t) ->
forall documents s,
exists docs,
for_each start step indices documents s
= Py.Ok (documents ++ docs, (5 * length indices + s)%nat) /\
docs_at start step indices s docs.
Proof.
induction indices as [|i indices IH]; intros Hok documents s.
- exists []. rewrite app_nil_r. split; reflexivity.
- destruct (Hok i (or_introl eq_refl)) as [t Ht].
destruct (IH (fun j Hj => Hok j (or_intror Hj))
            (documents ++ [{| timestamp := t; data := sample (datetime.hour t) s |}])
            (5 + s)%nat) as [docs [E D]].
exists ({| timestamp := t; data := sample (datetime.hour t) s |} :: docs).
split.
+ cbn [Generator.for_each]. unfold Generator.bind.
  rewrite (loop_body_eq _ _ _ _ _ Ht), E, <- app_assoc.
  cbn [app length]. do 2 f_equal. lia.
+ cbn [docs_at timestamp data]. auto.
Qed.

Lemma docs_at_length start step indices :
forall s docs, docs_at start step indices s docs -> length docs = length indices.
Proof.
induction indices as [|i indices IH]; intros s [|d docs] H;
cbn in H; try contradiction; [reflexivity|].
cbn [length]. f_equal. apply (IH (5 + s)%nat). apply H.
Qed.

Lemma docs_at_nth start step indices :
forall s docs k i d,
docs_at start step indices s docs ->
nth_error indices k = Some i ->
nth_error docs k = Some d ->
after_minutes start (step * i) = Py.Ok (timestamp d) /\
data d = sample (datetime.hour (timestamp d)) (5 * k + s)%nat.
Proof.
induction indices as [|j indices IH]; intros s [|d0 docs] k i d H Hi Hd;
cbn in H; try contradiction.
- destruct k; discriminate.
- destruct H as [H1 [H2 H3]]. destruct k as [|k]; cbn in Hi, Hd.
+ injection Hi as <-. injection Hd as <-. auto.
+ replace (5 * S k + s)%nat with (5 * k + (5 + s))%nat by lia.
  eapply IH; eauto.
Qed.

Lemma range_nth (n k : nat) :
(k < n)%nat -> nth_error (Py.range n) k = Some (Z.of_nat k).
Proof.
intros H. unfold Py.range.
rewrite nth_error_map, nth_error_seq.
destruct (Nat.ltb_spec k n); [reflexivity|lia].
Qed.

Lemma range_In (n : nat) (i : Z) :
In i (Py.range n) -> (0 <= i < Z.of_nat n)%Z.
Proof.
unfold Py.range. rewrite in_map_iff. intros [k [<- Hk]].
apply in_seq in Hk. lia.
Qed.

Lemma generate_ok (start : datetime.t) (step : Z) (count : nat) (s : nat) :
datetime.valid start ->
(0 <= step)%Z ->
(datetime.to_seconds start + 60 * step * (Z.of_nat count - 1)
 < (datetime.MAXORDINAL + 1) * 86400)%Z ->
exists docs,
generate start step count s = Py.Ok (docs, (5 * count + s)%nat) /\
length docs = count /\
forall k d, nth_error docs k = Some d ->
  after_minutes start (step * Z.of_nat k) = Py.Ok (timestamp d) /\
  datetime.to_seconds (timestamp d)
  = (datetime.to_seconds start + 60 * step * Z.of_nat k)%Z /\
  datetime.valid (timestamp d) /\
  data d = sample (datetime.hour (timestamp d)) (5 * k + s)%nat.
Proof.
intros Hv Hstep Hlim.
assert (Hall : forall i, (0 <= i < Z.of_nat count)%Z ->
        exists t, after_minutes start (step * i) = Py.Ok t /\
          datetime.to_seconds t = (datetime.to_seconds start + 60 * (step * i))%Z /\
          datetime.valid t).
{ intros i Hi. apply datetimeFacts.after_minutes_ok; [exact Hv|nia|nia]. }
destruct (for_each_ok start step (Py.range count)) with (documents := @nil doc) (s := s)
as [docs [E D]].
{ intros i Hi. apply range_In in Hi. destruct (Hall i Hi) as [t [Ht _]]. eauto. }
exists docs. cbn [app] in E.
assert (Hlen : length docs = count).
{ rewrite (docs_at_length _ _ _ _ _ D). unfold Py.range.
rewrite length_map, length_seq. reflexivity. }
split; [|split; [exact Hlen|]].
- unfold Generator.generate. rewrite E. do 2 f_equal.
unfold Py.range. rewrite length_map, length_seq. reflexivity.
- intros k d Hk.
assert (Hlt : (k < count)%nat).
{ rewrite <- Hlen. apply nth_error_Some. congruence. }
destruct (docs_at_nth _ _ _ _ _ _ _ _ D (range_nth count k Hlt) Hk) as [Ht Hd].
destruct (Hall (Z.of_nat k) ltac:(lia)) as [t [Ht' [Hsec Hval]]].
rewrite Ht in Ht'. injection Ht' as <-.
repeat split; try assumption; try apply Hval. lia.
Qed.

(** The run of the program: 48 documents, document [k] stamped
[1800 * k] seconds into 21 January 2025. *)
Lemma generate_data_ok (s : nat) :
exists docs,
generate_data s = Py.Ok (docs, (240 + s)%nat) /\
length docs = 48%nat /\
forall k d, nth_error docs k = Some d ->
  datetime.ordinal (timestamp d) = datetime.ymd2ord 2025 1 21 /\
  datetime.day_second (timestamp d) = (1800 * Z.of_nat k)%Z /\
  data d = sample (datetime.hour (timestamp d)) (5 * k + s)%nat.
Proof.
destruct (generate_ok Generator.start_time 30 48 s datetimeFacts.start_valid)
as [docs [E [Hlen Hnth]]]; [lia | vm_compute; reflexivity |].
exists docs. split; [exact E|]. split; [exact Hlen|].
intros k d Hk.
assert (Hlt : (k < 48)%nat).
{ rewrite <- Hlen. apply nth_error_Some. congruence. }
destruct (Hnth k d Hk) as [_ [Hsec [[Ho Hs] Hd]]].
unfold datetime.to_seconds in Hsec.
change (datetime.ordinal Generator.start_time) with 739272%Z in Hsec.
change (datetime.day_second Generator.start_time) with 0%Z in Hsec.
change (datetime.ymd2ord 2025 1 21) with 739272%Z.
repeat split; try exact Hd; lia.
Qed.

End Facts.
End GeneratorFacts.

(** ** Facts about the NumPy operations *)

Module npFacts.

Lemma Qlt_bool_iff (a b : Q) : np.Qlt_bool a b = true <-> a < b.
Proof.
  unfold np.Qlt_bool. rewrite negb_true_iff.
  split; intros H.
  - apply Qnot_le_lt. intros Hle. apply Qle_bool_iff in Hle. congruence.
  - destruct (Qle_bool b a) eqn:E; [|reflexivity].
    apply Qle_bool_iff in E. exfalso. apply (Qlt_not_le _ _ H E).
Qed.

Lemma Qlt_bool_false (a b : Q) : np.Qlt_bool a b = false <-> b <= a.
Proof.
  unfold np.Qlt_bool. rewrite negb_false_iff. apply Qle_bool_iff.
Qed.

Lemma Qlt_bool_dec (a b : Q) :
  np.Qlt_bool a b = if Qlt_le_dec a b then true else false.
Proof.
  destruct (Qlt_le_dec a b) as [H|H].
  - apply Qlt_bool_iff, H.
  - apply Qlt_bool_false, H.
Qed.

Lemma sum_cons (x : Q) (l : list Q) : np.sum (x :: l) = x + np.sum l.
Proof. reflexivity. Qed.

(** A constant kernel takes the sum of the window under it. *)
Lemma dot_repeat (l : list Q) :
  forall (n : nat) (c : Q), np.dot l (repeat c n) == c * np.sum (firstn n l).
Proof.
  induction l as [|x l IH]; intros [|n] c; cbn [np.dot repeat firstn];
    try (unfold np.sum; cbn [fold_right]; ring).
  rewrite sum_cons, IH. ring.
Qed.

Lemma correlate_valid_length (a v : list Q) :
  length (np.correlate_valid a v) = (length a - length v + 1)%nat.
Proof. unfold np.correlate_valid. rewrite length_map, length_seq. reflexivity. Qed.

Lemma correlate_valid_nth (a v : list Q) (i : nat) (o : Q) :
  nth_error (np.correlate_valid a v) i = Some o ->
  (i < length a - length v + 1)%nat /\ o = np.dot (skipn i a) v.
Proof.
  unfold np.correlate_valid. rewrite nth_error_map, nth_error_seq.
  destruct (Nat.ltb_spec i (length a - length v + 1)); cbn; [|discriminate].
  intros [= <-]. split; [assumption|reflexivity].
Qed.

Lemma length_zero_nil {A} (l : list A) : (length l =? 0)%nat = true <-> l = [].
Proof.
  destruct l; cbn; split; intros; try reflexivity; discriminate.
Qed.

Lemma convolve_valid_ok (a v : list Q) :
  a <> [] -> v <> [] ->
  np.convolve_valid a v
  = Py.Ok (if (length a <? length v)%nat
           then np.correlate_valid v (rev a)
           else np.correlate_valid a (rev v)).
Proof.
  intros Ha Hv. unfold np.convolve_valid.
  destruct (length a <? length v)%nat.
  - destruct (length v =? 0)%nat eqn:E1;
      [apply length_zero_nil in E1; contradiction|].
    destruct (length a =? 0)%nat eqn:E2;
      [apply length_zero_nil in E2; contradiction|].
    reflexivity.
  - destruct (length a =? 0)%nat eqn:E1;
      [apply length_zero_nil in E1; contradiction|].
    destruct (length v =? 0)%nat eqn:E2;
      [apply length_zero_nil in E2; contradiction|].
    reflexivity.
Qed.

Lemma convolve_valid_empty (a v : list Q) :
  a = [] \/ v = [] -> Py.is_ok (np.convolve_valid a v) = false.
Proof.
  intros H. unfold np.convolve_valid.
  destruct (length a <? length v)%nat;
    destruct (length a =? 0)%nat eqn:E1; destruct (length v =? 0)%nat eqn:E2;
    try reflexivity;
    destruct H as [->| ->]; discriminate.
Qed.

Lemma convolve_valid_raises (a v : list Q) :
  Py.is_ok (np.convolve_valid a v) = false ->
  Py.is_value_error (np.convolve_valid a v) = true.
Proof.
  unfold np.convolve_valid.
  destruct (length a <? length v)%nat;
    destruct (length a =? 0)%nat; destruct (length v =? 0)%nat;
    cbn; intros H; try reflexivity; discriminate H.
Qed.

Lemma Forall2_nth_error {A B} (R : A -> B -> Prop) (a : list A) :
  forall b : list B,
    length a = length b ->
    (forall i x y, nth_error a i = Some x -> nth_error b i = Some y -> R x y) ->
    Forall2 R a b.
Proof.
  induction a as [|x a IH]; intros [|y b] Hlen H; try discriminate; constructor.
  - apply (H 0%nat); reflexivity.
  - apply IH; [cbn in Hlen; congruence|].
    intros i x' y' Hx Hy. apply (H (S i)); assumption.
Qed.

End npFacts.

(** ** Facts about the analysis functions *)

Module VisualizationFacts.

Lemma trend_of_direction (slope : np.float64) :
  exists d, Visualization.trend_of slope = AnalysisSpec.direction_key d.
Proof.
  unfold Visualization.trend_of.
  destruct (np.less (np.absolute slope) (np.Fin 0.01));
    [exists AnalysisSpec.Stable; reflexivity|].
  destruct (np.greater slope (np.Fin 0));
    [exists AnalysisSpec.Increasing | exists AnalysisSpec.Decreasing];
    reflexivity.
Qed.

Lemma confidence_note_phrase (r2 : np.float64) :
  exists c, Visualization.confidence_note r2 = AnalysisSpec.confidence_phrase c.
Proof.
  unfold Visualization.confidence_note.
  destruct (np.greater r2 (np.Fin 0.7));
    [exists AnalysisSpec.Reliable | exists AnalysisSpec.Cautious]; reflexivity.
Qed.






(** The table answers for every supported metric and every direction. *)
Lemma table_total (m : AnalysisSpec.metric) (d : AnalysisSpec.direction) :
  exists row description,
    Visualization.getitem Visualization.trend_descriptions
      (AnalysisSpec.metric_key m) = Py.Ok row /\
    Visualization.getitem row (AnalysisSpec.direction_key d) = Py.Ok description.
Proof.
  destruct m, d; eexists; eexists; split; vm_compute; reflexivity.
Qed.

Lemma narrative_eq (m : AnalysisSpec.metric) (slope r2 : np.float64)
    (row : list (string * string)) (description : string) :
  Visualization.getitem Visualization.trend_descriptions
    (AnalysisSpec.metric_key m) = Py.Ok row ->
  Visualization.getitem row (Visualization.trend_of slope) = Py.Ok description ->
  Visualization.generate_trend_narrative (AnalysisSpec.metric_key m) slope r2
  = Py.Ok (description ++ " " ++ Visualization.confidence_note r2
           ++ ", statistical fit R² = " ++ Visualization.format_2f r2 ++ ".")%string.
Proof.
  intros Hrow Hdesc. unfold Visualization.generate_trend_narrative.
  rewrite Hrow. cbn [Py.bind]. rewrite Hdesc. reflexivity.
Qed.

(** A successful computation bound to a continuation: peel one step. *)
Ltac bind_step H :=
  match type of H with
  | Py.bind ?m _ = Py.Ok _ =>
      let E := fresh "E" in
      destruct m as [?|?] eqn:E; cbn [Py.bind] in H; [|discriminate H]
  | match ?p with pair _ _ => _ end = Py.Ok _ => destruct p
  end.

Lemma panel_fit (ax_plot : list string -> list np.float64 -> Py.result unit)
    (timestamps : list string) (x values : list Q) (slope r2 : np.float64) :
  Visualization.panel ax_plot timestamps x values = Py.Ok (slope, r2) ->
  exists intercept,
    Visualization.predict_trend x values = Py.Ok (slope, intercept, r2).
Proof.
  unfold Visualization.panel. intros H.
  repeat bind_step H.
  injection H as <- <-. eexists. reflexivity.
Qed.

Local Abbreviation kernel := AnalysisSpec.kernel.

Lemma moving_average_unfold (data : list Q) (window : Z) :
  (0 <= window)%Z ->
  Visualization.calculate_moving_average data window
  = np.convolve_valid data (kernel window).
Proof.
  intros Hw. unfold Visualization.calculate_moving_average, np.ones, AnalysisSpec.kernel.
  destruct (Z.ltb_spec window 0); [lia|].
  cbn [Py.bind]. rewrite map_repeat. reflexivity.
Qed.

Lemma kernel_length (window : Z) : length (kernel window) = Z.to_nat window.
Proof. apply repeat_length. Qed.

Lemma kernel_nonempty (window : Z) : (1 <= window)%Z -> kernel window <> [].
Proof.
  intros Hw E. apply (f_equal (@length Q)) in E.
  rewrite kernel_length in E. cbn in E. lia.
Qed.

Lemma kernel_window_mean (data : list Q) (window : Z) (i : nat) :
  (1 <= window)%Z ->
  np.dot (skipn i data) (kernel window)
  == AnalysisSpec.window_mean data i (Z.to_nat window).
Proof.
  intros Hw. unfold AnalysisSpec.kernel, AnalysisSpec.window_mean.
  rewrite npFacts.dot_repeat, Z2Nat.id by lia.
  field. intros E. unfold Qeq in E. cbn in E. lia.
Qed.

Lemma moving_average_inside (data : list Q) (window : Z) :
  (1 <= window <= Z.of_nat (length data))%Z ->
  Visualization.calculate_moving_average data window
  = Py.Ok (np.correlate_valid data (kernel window)).
Proof.
  intros Hw. rewrite moving_average_unfold by lia.
  rewrite npFacts.convolve_valid_ok.
  - rewrite kernel_length.
    destruct (Nat.ltb_spec (length data) (Z.to_nat window)); [lia|].
    unfold AnalysisSpec.kernel. rewrite rev_repeat. reflexivity.
  - destruct data; [cbn in Hw; lia|discriminate].
  - apply kernel_nonempty. lia.
Qed.

Lemma moving_average_longer (data : list Q) (window : Z) :
  data <> [] ->
  (Z.of_nat (length data) < window)%Z ->
  Visualization.calculate_moving_average data window
  = Py.Ok (np.correlate_valid (kernel window) (rev data)).
Proof.
  intros Hd Hw. rewrite moving_average_unfold by lia.
  rewrite npFacts.convolve_valid_ok; [|assumption|apply kernel_nonempty; lia].
  rewrite kernel_length.
  destruct (Nat.ltb_spec (length data) (Z.to_nat window)); [reflexivity|lia].
Qed.

Lemma moving_average_fails (data : list Q) (window : Z) :
  Py.is_ok (Visualization.calculate_moving_average data window) = false
  <-> ((window < 1)%Z \/ data = []).
Proof.
  destruct (Z.ltb_spec window 0) as [Hneg|Hnn].
  { unfold Visualization.calculate_moving_average, np.ones.
    destruct (Z.ltb_spec window 0); [|lia]. cbn. split; [left; lia|reflexivity]. }
  rewrite moving_average_unfold by assumption.
  destruct (Z.eq_dec window 0) as [->|Hnz].
  { split; [left; lia|]. intros _. apply npFacts.convolve_valid_empty.
    right. reflexivity. }
  destruct data as [|x data].
  { split; [right; reflexivity|]. intros _. apply npFacts.convolve_valid_empty.
    left. reflexivity. }
  rewrite npFacts.convolve_valid_ok; [|discriminate|apply kernel_nonempty; lia].
  cbn [Py.is_ok]. split; [discriminate|]. intros [H|H]; [lia|discriminate].
Qed.

Lemma moving_average_raises (data : list Q) (window : Z) :
  Py.is_ok (Visualization.calculate_moving_average data window) = false ->
  Py.is_value_error (Visualization.calculate_moving_average data window) = true.
Proof.
  destruct (Z.ltb_spec window 0) as [Hneg|Hnn].
  - unfold Visualization.calculate_moving_average, np.ones.
    destruct (Z.ltb_spec window 0); [|lia]. reflexivity.
  - rewrite moving_average_unfold by assumption.
    apply npFacts.convolve_valid_raises.
Qed.

End VisualizationFacts.

(** ** Facts about sums, covariances and the regression *)

Module statsFacts.

Local Abbreviation n_of := AnalysisSpec.n_of.
Local Abbreviation Sxx := AnalysisSpec.Sxx.
Local Abbreviation Sxy := AnalysisSpec.Sxy.

Lemma n_of_cons (a : Q) (x : list Q) : n_of (a :: x) == n_of x + 1.
Proof.
  unfold AnalysisSpec.n_of. cbn [length]. rewrite Nat2Z.inj_succ.
  unfold Z.succ. rewrite inject_Z_plus. reflexivity.
Qed.

Lemma n_of_nonneg (x : list Q) : 0 <= n_of x.
Proof.
  unfold AnalysisSpec.n_of. change 0 with (inject_Z 0).
  rewrite <- Zle_Qle. lia.
Qed.

Lemma n_of_pos (x : list Q) : x <> [] -> 0 < n_of x.
Proof.
  destruct x as [|a x]; [congruence|]. intros _.
  rewrite n_of_cons. pose proof (n_of_nonneg x). lra.
Qed.

Lemma n_of_length (x y : list Q) : length x = length y -> n_of x = n_of y.
Proof. unfold AnalysisSpec.n_of. intros ->. reflexivity. Qed.

(** Products of deviations, expanded. *)
Lemma dot_deviations (x : list Q) :
  forall (y : list Q) (mx my : Q),
    length x = length y ->
    np.dot (map (fun a => a - mx) x) (map (fun b => b - my) y)
    == np.dot x y - mx * np.sum y - my * np.sum x + n_of x * mx * my.
Proof.
  induction x as [|a x IH]; intros [|b y] mx my Hlen; try discriminate.
  - unfold np.sum, AnalysisSpec.n_of; cbn. ring.
  - cbn [map np.dot]. rewrite IH by (cbn in Hlen; congruence).
    rewrite !npFacts.sum_cons, n_of_cons. ring.
Qed.

Lemma square_nonneg (z : Q) : 0 <= z * z.
Proof. unfold Qle; cbn. nia. Qed.

(** The sum of squares of [p * a_i + q * b_i]. *)
Lemma dot_combination (a : list Q) :
  forall (b : list Q) (p q : Q),
    length a = length b ->
    0 <= p * p * np.dot a a + 2 * p * q * np.dot a b + q * q * np.dot b b.
Proof.
  induction a as [|x a IH]; intros [|y b] p q Hlen; try discriminate.
  - cbn. lra.
  - cbn [np.dot].
    pose proof (IH b p q ltac:(cbn in Hlen; congruence)) as H.
    pose proof (square_nonneg (p * x + q * y)) as Hsq.
    nra.
Qed.

Lemma dot_self_nonneg (a : list Q) : 0 <= np.dot a a.
Proof.
  induction a as [|x a IH]; cbn [np.dot]; [lra|].
  pose proof (square_nonneg x). lra.
Qed.

(** Cauchy-Schwarz. *)
Lemma dot_cauchy_schwarz (a b : list Q) :
  length a = length b ->
  np.dot a b * np.dot a b <= np.dot a a * np.dot b b.
Proof.
  intros Hlen.
  pose proof (dot_self_nonneg a) as Ha.
  pose proof (dot_self_nonneg b) as Hb.
  destruct (Qlt_le_dec 0 (np.dot a a)) as [Hpos|Hzero].
  - pose proof (dot_combination a b (- np.dot a b) (np.dot a a) Hlen) as H.
    nra.
  - assert (Ha0 : np.dot a a == 0) by lra.
    pose proof (dot_combination a b 1 (np.dot a b) Hlen) as H1.
    pose proof (dot_combination a b 1 (- np.dot a b) Hlen) as H2.
    pose proof (dot_combination a b (np.dot b b + 1) (np.dot a b) Hlen) as H3.
    pose proof (dot_combination a b (np.dot b b + 1) (- np.dot a b) Hlen) as H4.
    rewrite Ha0 in *. nra.
Qed.

Lemma n_mean (x : list Q) : x <> [] -> n_of x * np.mean x == np.sum x.
Proof.
  intros Hx. pose proof (n_of_pos x Hx). unfold np.mean.
  change (inject_Z (Z.of_nat (length x))) with (n_of x). field. lra.
Qed.

(** The deviation products of [np.cov], over the plain sums. *)
Lemma n_dot_deviations (x y : list Q) :
  x <> [] -> length x = length y ->
  n_of x * np.dot (map (fun a => a - np.mean x) x) (map (fun b => b - np.mean y) y)
  == Sxy x y.
Proof.
  intros Hx Hlen.
  assert (Hy : y <> []) by (destruct x, y; try discriminate; congruence).
  rewrite dot_deviations by exact Hlen.
  pose proof (n_mean x Hx) as Mx. pose proof (n_mean y Hy) as My.
  rewrite <- (n_of_length x y Hlen) in My.
  unfold AnalysisSpec.Sxy, AnalysisSpec.sum_xy. rewrite <- Mx, <- My. ring.
Qed.

Lemma dot_self_zero (a : list Q) :
  np.dot a a == 0 -> forall z, In z a -> z == 0.
Proof.
  induction a as [|x a IH]; intros H z Hz; [contradiction|].
  cbn [np.dot] in H.
  pose proof (square_nonneg x) as Hx. pose proof (dot_self_nonneg a) as Ha.
  destruct Hz as [<-|Hz].
  - assert (E : x * x == 0) by lra.
    destruct (Qmult_integral _ _ E); assumption.
  - apply IH; [lra|exact Hz].
Qed.

Lemma constant_sums (x : list Q) (c : Q) :
  (forall a, In a x -> a == c) ->
  np.sum x == n_of x * c /\ np.dot x x == n_of x * c * c.
Proof.
  induction x as [|a x IH]; intros H.
  - unfold np.sum, AnalysisSpec.n_of; cbn. split; ring.
  - destruct IH as [IH1 IH2]; [intros b Hb; apply H; right; exact Hb|].
    rewrite npFacts.sum_cons, n_of_cons. cbn [np.dot].
    rewrite IH1, IH2, (H a (or_introl eq_refl)). split; ring.
Qed.

(** Zero variance is constancy. *)
Lemma Sxx_zero_constant (x : list Q) :
  x <> [] -> (Sxx x == 0 <-> AnalysisSpec.constant x).
Proof.
  intros Hx. pose proof (n_of_pos x Hx) as Hn. split.
  - intros H a b Ha Hb.
    pose proof (n_dot_deviations x x Hx eq_refl) as E.
    change (Sxy x x) with (Sxx x) in E. rewrite H in E.
    assert (E0 : np.dot (map (fun a => a - np.mean x) x)
                   (map (fun b => b - np.mean x) x) == 0).
    { destruct (Qmult_integral _ _ E) as [E1|E1]; [lra|exact E1]. }
    pose proof (dot_self_zero _ E0 (a - np.mean x)
                  (in_map (fun a => a - np.mean x) x a Ha)) as Da.
    pose proof (dot_self_zero _ E0 (b - np.mean x)
                  (in_map (fun a => a - np.mean x) x b Hb)) as Db.
    lra.
  - intros H. destruct x as [|c x]; [congruence|].
    destruct (constant_sums (c :: x) c) as [E1 E2].
    { intros a Ha. apply H; [exact Ha|left; reflexivity]. }
    unfold AnalysisSpec.Sxx, AnalysisSpec.sum_xy. rewrite E1, E2. ring.
Qed.

Lemma fold_left_Qmax_ge (l : list Q) :
  forall init,
    init <= fold_left Qmax l init /\
    forall a, In a l -> a <= fold_left Qmax l init.
Proof.
  induction l as [|x l IH]; intros init; cbn [fold_left].
  - split; [apply Qle_refl|contradiction].
  - destruct (IH (Qmax init x)) as [H1 H2].
    pose proof (Q.le_max_l init x). pose proof (Q.le_max_r init x).
    split; [lra|]. intros a [<-|Ha]; [lra|apply H2, Ha].
Qed.

Lemma fold_left_Qmin_le (l : list Q) :
  forall init,
    fold_left Qmin l init <= init /\
    forall a, In a l -> fold_left Qmin l init <= a.
Proof.
  induction l as [|x l IH]; intros init; cbn [fold_left].
  - split; [apply Qle_refl|contradiction].
  - destruct (IH (Qmin init x)) as [H1 H2].
    pose proof (Q.le_min_l init x). pose proof (Q.le_min_r init x).
    split; [lra|]. intros a [<-|Ha]; [lra|apply H2, Ha].
Qed.

Lemma fold_left_Qmax_in (l : list Q) :
  forall init, In (fold_left Qmax l init) (init :: l).
Proof.
  induction l as [|x l IH]; intros init; cbn [fold_left].
  - left. reflexivity.
  - destruct (IH (Qmax init x)) as [E|Hin]; [|right; right; exact Hin].
    rewrite <- E. unfold Qmax, GenericMinMax.gmax.
    destruct (Qcompare init x); [left|right; left|left]; reflexivity.
Qed.

Lemma fold_left_Qmin_in (l : list Q) :
  forall init, In (fold_left Qmin l init) (init :: l).
Proof.
  induction l as [|x l IH]; intros init; cbn [fold_left].
  - left. reflexivity.
  - destruct (IH (Qmin init x)) as [E|Hin]; [|right; right; exact Hin].
    rewrite <- E. unfold Qmin, GenericMinMax.gmin.
    destruct (Qcompare init x); [left|left|right; left]; reflexivity.
Qed.

(** The test [np.amax(x) == np.amin(x)] is the test for a constant [x]. *)
Lemma amax_amin_constant (x : list Q) :
  x <> [] -> (np.amax x == np.amin x <-> AnalysisSpec.constant x).
Proof.
  destruct x as [|c x]; [congruence|]. intros _. cbn [np.amax np.amin].
  destruct (fold_left_Qmax_ge x c) as [M1 M2].
  destruct (fold_left_Qmin_le x c) as [N1 N2].
  split.
  - intros E a b Ha Hb.
    assert (Hbound : forall z, In z (c :: x) ->
              fold_left Qmin x c <= z <= fold_left Qmax x c).
    { intros z [<-|Hz]; split; auto. }
    pose proof (Hbound a Ha). pose proof (Hbound b Hb). lra.
  - intros H. apply H; [apply fold_left_Qmax_in|apply fold_left_Qmin_in].
Qed.

Lemma Qeq_bool_false (a b : Q) : Qeq_bool a b = false <-> ~ a == b.
Proof.
  split.
  - intros H E. apply Qeq_bool_iff in E. congruence.
  - intros H. destruct (Qeq_bool a b) eqn:E; [|reflexivity].
    apply Qeq_bool_iff in E. contradiction.
Qed.

(** The entries of [np.cov] over the plain sums, with [n] the number of
    points. *)
Lemma cov_spec (x y : list Q) :
  x <> [] -> length x = length y ->
  let '(ssxm, ssxym, ssym) := np.cov x y in
  ssxm * (n_of x * n_of x) == Sxx x /\
  ssxym * (n_of x * n_of x) == Sxy x y /\
  ssym * (n_of x * n_of x) == Sxx y /\
  ssxym * ssxym <= ssxm * ssym /\
  0 <= ssxm /\ 0 <= ssym.
Proof.
  intros Hx Hlen.
  assert (Hy : y <> []) by (destruct x, y; try discriminate; congruence).
  pose proof (n_of_pos x Hx) as Hn.
  unfold np.cov.
  change (inject_Z (Z.of_nat (length x))) with (n_of x).
  set (dx := map (fun a => a - np.mean x) x).
  set (dy := map (fun b => b - np.mean y) y).
  pose proof (n_dot_deviations x x Hx eq_refl) as Exx.
  pose proof (n_dot_deviations x y Hx Hlen) as Exy.
  pose proof (n_dot_deviations y y Hy eq_refl) as Eyy.
  rewrite <- (n_of_length x y Hlen) in Eyy.
  change (Sxy x x) with (Sxx x) in Exx. change (Sxy y y) with (Sxx y) in Eyy.
  fold dx in Exx, Exy. fold dy in Exy, Eyy.
  assert (Hdlen : length dx = length dy)
    by (unfold dx, dy; rewrite !length_map; exact Hlen).
  pose proof (dot_cauchy_schwarz dx dy Hdlen) as CS.
  assert (Hinv : 0 < 1 / n_of x).
  { apply Qlt_shift_div_l; [exact Hn|lra]. }
  repeat split.
  - rewrite <- Exx. field. lra.
  - rewrite <- Exy. field. lra.
  - rewrite <- Eyy. field. lra.
  - pose proof (square_nonneg (1 / n_of x)) as Hsq.
    nra.
  - pose proof (dot_self_nonneg dx). nra.
  - pose proof (dot_self_nonneg dy). nra.
Qed.

Lemma linregress_ok (x y : list Q) :
  x <> [] -> length x = length y ->
  ((2 <= length x)%nat -> ~ AnalysisSpec.constant x) ->
  stats.linregress x y = Py.Ok (stats.estimate x y).
Proof.
  intros Hx Hlen Hnc. unfold stats.linregress.
  destruct x as [|a x]; [congruence|]. destruct y as [|b y]; [discriminate|].
  cbn [length Nat.eqb orb].
  destruct (Qeq_bool (np.amax (a :: x)) (np.amin (a :: x))) eqn:E1.
  - apply Qeq_bool_iff, amax_amin_constant in E1; [|discriminate].
    destruct (Nat.ltb_spec 1 (S (length x))) as [H2|H2].
    + exfalso. apply Hnc; [cbn; lia|exact E1].
    + cbn [andb].
      cbn in Hlen. injection Hlen as Hlen. rewrite Hlen, Nat.eqb_refl. reflexivity.
  - cbn [andb].
    cbn in Hlen. injection Hlen as Hlen. rewrite Hlen, Nat.eqb_refl. reflexivity.
Qed.

Lemma linregress_raises (x y : list Q) :
  x = [] \/ ((2 <= length x)%nat /\ AnalysisSpec.constant x) ->
  Py.is_ok (stats.linregress x y) = false.
Proof.
  intros [->|[H2 Hc]]; [reflexivity|].
  unfold stats.linregress.
  destruct ((length x =? 0) || (length y =? 0))%nat; [reflexivity|].
  assert (Hx : x <> []) by (destruct x; [cbn in H2; lia|discriminate]).
  apply (amax_amin_constant x Hx), Qeq_bool_iff in Hc. rewrite Hc.
  destruct (Nat.ltb_spec 1 (length x)); [reflexivity|lia].
Qed.

(** The estimates on a series whose [x] is not constant: the closed
    forms of least squares, no clamp of the correlation taking effect. *)
Lemma estimate_regular (x y : list Q) :
  x <> [] -> length x = length y -> ~ AnalysisSpec.constant x ->
  exists sl ic r,
    stats.estimate x y
    = {| stats.slope := np.Fin sl; stats.intercept := np.Fin ic; stats.rvalue := r |} /\
    sl == AnalysisSpec.ols_slope x y /\
    ic == AnalysisSpec.ols_intercept x y /\
    stats.square r == AnalysisSpec.pearson_squared x y /\
    0 <= stats.square r <= 1.
Proof.
  intros Hx Hlen Hnc.
  pose proof (cov_spec x y Hx Hlen) as C.
  pose proof (n_of_pos x Hx) as Hn.
  unfold stats.estimate.
  destruct (np.cov x y) as [[ssxm ssxym] ssym].
  destruct C as [Cxx [Cxy [Cyy [CS [Pxx Pyy]]]]].
  assert (Hsxx : ~ Sxx x == 0).
  { intros E. apply Hnc, (Sxx_zero_constant x Hx), E. }
  assert (Hssxm : ~ ssxm == 0).
  { intros E. apply Hsxx. rewrite <- Cxx, E. ring. }
  pose proof (proj2 (Qeq_bool_false ssxm 0) Hssxm) as Bx.
  unfold np.true_divide. rewrite Bx. cbn [orb np.multiply np.subtract np.negative np.add].
  eexists _, _, _. split; [reflexivity|].
  assert (Hsl : ssxym / ssxm == AnalysisSpec.ols_slope x y).
  { unfold AnalysisSpec.ols_slope. rewrite <- Cxx, <- Cxy. field. split; lra. }
  split; [exact Hsl|]. split.
  - rewrite Hsl. unfold AnalysisSpec.ols_intercept, np.mean.
    rewrite <- Hlen. change (inject_Z (Z.of_nat (length x))) with (n_of x).
    field. lra.
  - destruct (Qeq_bool ssym 0) eqn:By.
    + apply Qeq_bool_iff in By.
      assert (Hsyy : Sxx y == 0) by (rewrite <- Cyy, By; ring).
      unfold AnalysisSpec.pearson_squared.
      apply Qeq_bool_iff in Hsyy. rewrite Hsyy.
      cbn. split; [reflexivity|split; discriminate].
    + apply Qeq_bool_false in By.
      assert (Hsyy : ~ Sxx y == 0).
      { intros E. apply By.
        assert (E' : ssym * (n_of x * n_of x) == 0) by (rewrite Cyy; exact E).
        destruct (Qmult_integral _ _ E') as [E1|E1]; [exact E1|nra]. }
      assert (Hprod : 0 < ssxm * ssym) by nra.
      assert (Hsq : ssxym * ssxym / (ssxm * ssym) <= 1).
      { apply Qle_shift_div_r; [exact Hprod|lra]. }
      assert (Hsq0 : 0 <= ssxym * ssxym / (ssxm * ssym)).
      { apply Qle_shift_div_l; [exact Hprod|]. pose proof (square_nonneg ssxym). lra. }
      unfold stats.above_one, stats.below_minus_one, stats.root_of_quotient.
      cbn [stats.square stats.sign].
      rewrite (proj2 (npFacts.Qlt_bool_false 1 _) Hsq), !andb_false_r.
      cbn [stats.square]. split; [|split; assumption].
      unfold AnalysisSpec.pearson_squared.
      rewrite (proj2 (Qeq_bool_false (Sxx y) 0) Hsyy).
      rewrite <- Cxx, <- Cxy, <- Cyy. field. repeat split; lra.
Qed.

Lemma dot_constant_l (x : list Q) (c : Q) :
  (forall a, In a x -> a == c) ->
  forall y, length x = length y -> np.dot x y == c * np.sum y.
Proof.
  induction x as [|a x IH]; intros H [|b y] Hlen; try discriminate.
  - unfold np.sum; cbn. ring.
  - cbn [np.dot]. rewrite npFacts.sum_cons.
    rewrite IH; [|intros z Hz; apply H; right; exact Hz|cbn in Hlen; congruence].
    rewrite (H a (or_introl eq_refl)). ring.
Qed.

(** The estimates on a constant [x] (a single point, for one): the
    slope is the quotient [0 / 0]. *)
Lemma estimate_constant_x (x y : list Q) :
  x <> [] -> length x = length y -> AnalysisSpec.constant x ->
  stats.estimate x y
  = {| stats.slope := np.NaN; stats.intercept := np.NaN;
       stats.rvalue := stats.root_const 0 |}.
Proof.
  intros Hx Hlen Hc.
  pose proof (cov_spec x y Hx Hlen) as C.
  pose proof (n_of_pos x Hx) as Hn.
  unfold stats.estimate.
  destruct (np.cov x y) as [[ssxm ssxym] ssym].
  destruct C as [Cxx [Cxy [Cyy [CS [Pxx Pyy]]]]].
  assert (Hsxx : Sxx x == 0) by (apply (Sxx_zero_constant x Hx), Hc).
  assert (Hssxm : ssxm == 0).
  { assert (E' : ssxm * (n_of x * n_of x) == 0) by (rewrite Cxx; exact Hsxx).
    destruct (Qmult_integral _ _ E') as [E1|E1]; [exact E1|nra]. }
  assert (Hssxym : ssxym == 0).
  { assert (E : ssxym * ssxym <= 0) by (rewrite Hssxm in CS; lra).
    pose proof (square_nonneg ssxym).
    assert (E2 : ssxym * ssxym == 0) by lra.
    destruct (Qmult_integral _ _ E2); assumption. }
  apply Qeq_bool_iff in Hssxm, Hssxym.
  unfold np.true_divide. rewrite Hssxm, Hssxym. reflexivity.
Qed.

Lemma arange_length (n : nat) : length (np.arange n) = n.
Proof. unfold np.arange, Py.range. rewrite !length_map, length_seq. reflexivity. Qed.

Lemma arange_In (n k : nat) : (k < n)%nat -> In (inject_Z (Z.of_nat k)) (np.arange n).
Proof.
  intros H. unfold np.arange, Py.range. apply in_map, in_map, in_seq. lia.
Qed.

(** Positions 0 and 1 differ: an index axis of two or more points has
    variance. *)
Lemma arange_not_constant (n : nat) :
  (2 <= n)%nat -> ~ AnalysisSpec.constant (np.arange n).
Proof.
  intros Hn Hc.
  pose proof (Hc _ _ (arange_In n 0 ltac:(lia)) (arange_In n 1 ltac:(lia))) as E.
  discriminate E.
Qed.

Lemma sum_repeat (c : Q) (n : nat) :
  np.sum (repeat c n) == inject_Z (Z.of_nat n) * c.
Proof.
  induction n as [|n IH].
  - unfold np.sum; cbn. ring.
  - cbn [repeat]. rewrite npFacts.sum_cons, IH, Nat2Z.inj_succ.
    unfold Z.succ. rewrite inject_Z_plus. ring.
Qed.

Lemma predict_trend_unfold (x y : list Q) :
  Visualization.predict_trend x y
  = match stats.linregress x y with
    | Py.Ok res =>
        Py.Ok (stats.slope res, stats.intercept res,
               np.Fin (stats.square (stats.rvalue res)))
    | Py.Raise e => Py.Raise e
    end.
Proof. reflexivity. Qed.

Lemma predict_trend_raises (x y : list Q) :
  Py.is_ok (Visualization.predict_trend x y) = false ->
  Py.is_value_error (Visualization.predict_trend x y) = true.
Proof.
  rewrite predict_trend_unfold. unfold stats.linregress.
  destruct ((length x =? 0) || (length y =? 0))%nat; [reflexivity|].
  destruct (Qeq_bool (np.amax x) (np.amin x) && (1 <? length x)%nat);
    [reflexivity|].
  destruct (negb (length x =? length y)%nat); [reflexivity|].
  intros H. discriminate H.
Qed.

End statsFacts.

(** ** Facts for the further properties *)

Module ExtraFacts.

Lemma getitem_missing {A} (d : list (string * A)) (key : string) :
  ~ In key (map fst d) ->
  Visualization.getitem d key = Py.Raise (Py.KeyError key).
Proof.
  induction d as [|[k v] d IH]; intros H; cbn [Visualization.getitem];
    [reflexivity|].
  destruct (String.eqb_spec k key) as [E|NE].
  - exfalso. apply H. left. exact E.
  - apply IH. intros Hin. apply H. right. exact Hin.
Qed.

Lemma narrative_ok (m : AnalysisSpec.metric) (slope r2 : np.float64) :
  exists sentence,
    Visualization.generate_trend_narrative (AnalysisSpec.metric_key m) slope r2
    = Py.Ok sentence.
Proof.
  destruct (VisualizationFacts.trend_of_direction slope) as [d Ed].
  destruct (VisualizationFacts.table_total m d) as [row [description [Hrow Hdesc]]].
  eexists.
  apply (VisualizationFacts.narrative_eq m slope r2 row description Hrow).
  rewrite Ed. exact Hdesc.
Qed.

Lemma supported_metric (parameter : string) :
  In parameter ExtraSpec.supported ->
  exists m, parameter = AnalysisSpec.metric_key m.
Proof.
  intros [<-|[<-|[<-|[<-|[<-|[]]]]]].
  - exists AnalysisSpec.Temperature. reflexivity.
  - exists AnalysisSpec.Humidity. reflexivity.
  - exists AnalysisSpec.SoilMoisture. reflexivity.
  - exists AnalysisSpec.LightLevel. reflexivity.
  - exists AnalysisSpec.Co2Level. reflexivity.
Qed.

Lemma getitem_present {A} (d : list (string * A)) (key : string) :
  match Visualization.getitem d key with
  | Py.Ok _ => existsb (String.eqb key) (map fst d) = true
  | Py.Raise e =>
      e = Py.KeyError key /\ existsb (String.eqb key) (map fst d) = false
  end.
Proof.
  induction d as [|[k v] d IH]; cbn [Visualization.getitem map fst existsb].
  - split; reflexivity.
  - rewrite (String.eqb_sym key k).
    destruct (String.eqb k key); cbn [orb]; [reflexivity|exact IH].
Qed.

(** One turn of the loop on a document with 'data'. *)
Lemma append_reading_spec (doc : mongo_doc) (data : data_value)
    (acc : Visualization.series) :
  doc_data doc = Some data ->
  match Visualization.append_reading doc data acc with
  | Py.Ok acc' =>
      ExtraSpec.defect doc = None /\
      forall n, ExtraSpec.aligned n acc -> ExtraSpec.aligned (S n) acc'
  | Py.Raise e => ExtraSpec.defect doc = Some e
  end.
Proof.
  intros Hdata.
  unfold Visualization.append_reading, Visualization.timestamp_of,
    ExtraSpec.defect.
  rewrite Hdata.
  destruct (doc_timestamp doc) as [[dt|s|]|];
    cbn [Py.bind Visualization.fromisoformat]; try reflexivity.
  destruct data as [data|]; cbn [Visualization.data_getitem Py.bind];
    [|reflexivity].
  unfold ExtraSpec.first_missing, ExtraSpec.supported. cbn [find].
  pose proof (getitem_present data "temperature") as G1.
  pose proof (getitem_present data "humidity") as G2.
  pose proof (getitem_present data "soil_moisture") as G3.
  pose proof (getitem_present data "light_level") as G4.
  pose proof (getitem_present data "co2_level") as G5.
  destruct (Visualization.getitem data "temperature") as [v1|e1];
    [rewrite G1|destruct G1 as [-> ->]; reflexivity].
  destruct (Visualization.getitem data "humidity") as [v2|e2];
    [rewrite G2|destruct G2 as [-> ->]; reflexivity].
  destruct (Visualization.getitem data "soil_moisture") as [v3|e3];
    [rewrite G3|destruct G3 as [-> ->]; reflexivity].
  destruct (Visualization.getitem data "light_level") as [v4|e4];
    [rewrite G4|destruct G4 as [-> ->]; reflexivity].
  destruct (Visualization.getitem data "co2_level") as [v5|e5];
    [rewrite G5|destruct G5 as [-> ->]; reflexivity].
  cbn [Py.bind negb option_map]. split; [reflexivity|].
  intros n [H1 [H2 [H3 [H4 [H5 H6]]]]].
  unfold ExtraSpec.aligned.
  cbn [Visualization.timestamps Visualization.temperatures
       Visualization.humidities Visualization.soil_moistures
       Visualization.light_levels Visualization.co2_levels].
  rewrite !length_app. cbn [length].
  repeat split; lia.
Qed.

(** The loop over the documents, from any accumulator: it passes
    exactly the lists of complete documents, and otherwise raises what
    the first document with a defect raises. *)
Lemma collect_spec (documents : list mongo_doc) :
  forall (acc : Visualization.series) (n : nat),
    ExtraSpec.aligned n acc ->
    match Visualization.collect documents acc with
    | Py.Ok s =>
        forallb ExtraSpec.complete documents = true /\
        ExtraSpec.aligned (n + length (filter ExtraSpec.has_data documents)) s
    | Py.Raise e =>
        exists before doc after,
          documents = before ++ doc :: after /\
          forallb ExtraSpec.complete before = true /\
          ExtraSpec.defect doc = Some e
    end.
Proof.
  induction documents as [|d documents IH]; intros acc n Hacc.
  - cbn. split; [reflexivity|]. rewrite Nat.add_0_r. exact Hacc.
  - cbn [Visualization.collect filter forallb length].
    unfold ExtraSpec.has_data at 1. unfold ExtraSpec.complete at 1.
    destruct (doc_data d) as [data|] eqn:Hdata.
    + pose proof (append_reading_spec d data acc Hdata) as A.
      destruct (Visualization.append_reading d data acc) as [acc'|e];
        cbn [Py.bind].
      * destruct A as [Hdef Hal]. rewrite Hdef.
        specialize (IH acc' (S n) (Hal n Hacc)).
        destruct (Visualization.collect documents acc') as [s|e].
        -- destruct IH as [Hall Hs]. split; [exact Hall|].
           cbn [length].
           replace (n + S (length (filter ExtraSpec.has_data documents)))%nat
             with (S n + length (filter ExtraSpec.has_data documents))%nat
             by lia.
           exact Hs.
        -- destruct IH as [before [doc [after [E [Hb Hd]]]]].
           exists (d :: before), doc, after.
           split; [rewrite E; reflexivity|]. split; [|exact Hd].
           cbn [forallb]. unfold ExtraSpec.complete at 1. rewrite Hdef.
           exact Hb.
      * exists [], d, documents. repeat split. exact A.
    + assert (Hdef : ExtraSpec.defect d = None)
        by (unfold ExtraSpec.defect; rewrite Hdata; reflexivity).
      rewrite Hdef. cbn [andb].
      specialize (IH acc n Hacc).
      destruct (Visualization.collect documents acc) as [s|e].
      * exact IH.
      * destruct IH as [before [doc [after [E [Hb Hd]]]]].
        exists (d :: before), doc, after.
        split; [rewrite E; reflexivity|]. split; [|exact Hd].
        cbn [forallb]. unfold ExtraSpec.complete at 1. rewrite Hdef.
        exact Hb.
Qed.

Lemma filter_nil_forallb {A} (f : A -> bool) (l : list A) :
  filter f l = [] <-> forallb (fun a => negb (f a)) l = true.
Proof.
  induction l as [|a l IH]; cbn; [tauto|].
  destruct (f a); cbn; [split; discriminate|exact IH].
Qed.

Lemma collect_no_data (documents : list mongo_doc) :
  filter ExtraSpec.has_data documents = [] ->
  forall acc, Visualization.collect documents acc = Py.Ok acc.
Proof.
  induction documents as [|d documents IH]; intros H acc; [reflexivity|].
  cbn [filter] in H. cbn [Visualization.collect].
  unfold ExtraSpec.has_data in H at 1.
  destruct (doc_data d); [discriminate H|]. apply IH, H.
Qed.

(** The moving average with the program's window, 3. *)
Lemma moving_average_3 (values : list Q) :
  values <> [] ->
  exists ma,
    Visualization.calculate_moving_average values 3 = Py.Ok ma /\
    length ma = (if (length values <? 3)%nat
                 then 3 - length values + 1
                 else length values - 3 + 1)%nat.
Proof.
  intros Hv.
  destruct (Nat.ltb_spec (length values) 3) as [Hlt|Hge].
  - eexists. split.
    + apply VisualizationFacts.moving_average_longer; [exact Hv|lia].
    + rewrite npFacts.correlate_valid_length, VisualizationFacts.kernel_length,
        length_rev.
      reflexivity.
  - eexists. split.
    + apply VisualizationFacts.moving_average_inside. lia.
    + rewrite npFacts.correlate_valid_length, VisualizationFacts.kernel_length.
      reflexivity.
Qed.

Lemma slice_from_length {A} (l : list A) (start : Z) :
  length (Visualization.slice_from l start)
  = (if (start <? 0)%Z
     then length l - Z.to_nat (Z.max (start + Z.of_nat (length l)) 0)
     else length l - Z.to_nat start)%nat.
Proof.
  unfold Visualization.slice_from.
  destruct (start <? 0)%Z; apply length_skipn.
Qed.

(** The time axis cut to the moving average, lines 107, 111, 134, 147
    and 160. *)
Lemma tail_slice_length (ts : list string) (values ma : list Q) :
  (1 <= length values)%nat ->
  length ts = length values ->
  length ma = (if (length values <? 3)%nat
               then 3 - length values + 1
               else length values - 3 + 1)%nat ->
  length (Visualization.slice_from ts
            (Z.of_nat (length ts) - Z.of_nat (length ma)))
  = (if (length values =? 1)%nat then 1 else length ma)%nat.
Proof.
  intros Hpos Hts Hma. rewrite slice_from_length, Hma, Hts.
  destruct (Nat.ltb_spec (length values) 3) as [Hlt|Hge].
  - destruct (length values) as [|[|[|n]]]; try lia; reflexivity.
  - destruct (Nat.eqb_spec (length values) 1); [lia|].
    destruct (Z.ltb_spec (Z.of_nat (length values)
                          - Z.of_nat (length values - 3 + 1)) 0); lia.
Qed.

Lemma predict_trend_ok (n : nat) (values : list Q) :
  (2 <= n)%nat -> length values = n ->
  exists slope intercept r2,
    Visualization.predict_trend (np.arange n) values
    = Py.Ok (slope, intercept, r2).
Proof.
  intros Hn Hlen.
  rewrite statsFacts.predict_trend_unfold, statsFacts.linregress_ok.
  - eexists _, _, _. reflexivity.
  - intros E. apply (f_equal (@length Q)) in E.
    rewrite statsFacts.arange_length in E. cbn in E. lia.
  - rewrite statsFacts.arange_length. congruence.
  - intros _. apply statsFacts.arange_not_constant, Hn.
Qed.

Lemma trend_line_length (slope intercept : np.float64) (x : list Q) :
  length (Visualization.trend_line slope intercept x) = length x.
Proof. apply length_map. Qed.

Lemma In_firstn {A} (n : nat) :
  forall (l : list A) (x : A), In x (firstn n l) -> In x l.
Proof.
  induction n as [|n IH]; intros [|a l] x H; cbn in H; try contradiction.
  destruct H as [<-|H]; [left; reflexivity|right; apply IH, H].
Qed.

Lemma In_skipn {A} (n : nat) :
  forall (l : list A) (x : A), In x (skipn n l) -> In x l.
Proof.
  induction n as [|n IH]; intros [|a l] x H; cbn in H; try contradiction;
    [exact H|right; apply IH, H].
Qed.

Lemma skipn_repeat {A} (c : A) (i : nat) :
  forall n, skipn i (repeat c n) = repeat c (n - i).
Proof.
  induction i as [|i IH]; intros [|n]; cbn; try reflexivity. apply IH.
Qed.

Lemma sum_app (l1 l2 : list Q) : np.sum (l1 ++ l2) == np.sum l1 + np.sum l2.
Proof.
  induction l1 as [|a l1 IH]; cbn [app].
  - change (np.sum []) with 0. ring.
  - rewrite !npFacts.sum_cons, IH. ring.
Qed.

Lemma sum_rev (l : list Q) : np.sum (rev l) == np.sum l.
Proof.
  induction l as [|a l IH]; cbn [rev]; [reflexivity|].
  rewrite sum_app, IH, !npFacts.sum_cons.
  change (np.sum []) with 0. ring.
Qed.

(** A constant signal under any shorter kernel: the constant times the
    sum of the kernel. *)
Lemma dot_repeat_l (l : list Q) :
  forall (n : nat) (c : Q),
    (length l <= n)%nat -> np.dot (repeat c n) l == c * np.sum l.
Proof.
  induction l as [|a l IH]; intros n c Hn.
  - destruct n; unfold np.sum; cbn; ring.
  - destruct n as [|n]; [cbn in Hn; lia|].
    cbn [repeat np.dot]. rewrite npFacts.sum_cons, IH by (cbn in Hn; lia). ring.
Qed.

Lemma sum_bounds (l : list Q) (lo hi : Q) :
  (forall v, In v l -> lo <= v <= hi) ->
  AnalysisSpec.n_of l * lo <= np.sum l <= AnalysisSpec.n_of l * hi.
Proof.
  induction l as [|a l IH]; intros H.
  - change (AnalysisSpec.n_of []) with 0. change (np.sum []) with 0. lra.
  - rewrite npFacts.sum_cons, statsFacts.n_of_cons.
    pose proof (H a (or_introl eq_refl)).
    pose proof (IH (fun v Hv => H v (or_intror Hv))).
    lra.
Qed.

Lemma sum_affine (l : list Q) (a b : Q) :
  np.sum (map (fun v => a * v + b) l)
  == a * np.sum l + AnalysisSpec.n_of l * b.
Proof.
  induction l as [|x l IH]; cbn [map].
  - change (AnalysisSpec.n_of []) with 0. change (np.sum []) with 0. ring.
  - rewrite !npFacts.sum_cons, statsFacts.n_of_cons, IH. ring.
Qed.

(** A full window: [w] elements of the input. *)
Lemma window_full (data : list Q) (i w : nat) :
  (i + w <= length data)%nat ->
  length (firstn w (skipn i data)) = w.
Proof.
  intros H. rewrite length_firstn, length_skipn. lia.
Qed.

Lemma window_mean_bounds (data : list Q) (i w : nat) (lo hi : Q) :
  (1 <= w)%nat -> (i + w <= length data)%nat ->
  (forall v, In v data -> lo <= v <= hi) ->
  lo <= AnalysisSpec.window_mean data i w <= hi.
Proof.
  intros Hw Hi Hb. unfold AnalysisSpec.window_mean.
  pose proof (sum_bounds (firstn w (skipn i data)) lo hi) as S.
  unfold AnalysisSpec.n_of in S. rewrite (window_full data i w Hi) in S.
  destruct S as [S1 S2].
  { intros v Hv. apply Hb. apply (In_skipn i), (In_firstn w). exact Hv. }
  assert (Hpos : 0 < inject_Z (Z.of_nat w)).
  { change 0 with (inject_Z 0). rewrite <- Zlt_Qlt. lia. }
  split.
  - apply Qle_shift_div_l; [exact Hpos|lra].
  - apply Qle_shift_div_r; [exact Hpos|lra].
Qed.

Lemma window_mean_affine (data : list Q) (i w : nat) (a b : Q) :
  (1 <= w)%nat -> (i + w <= length data)%nat ->
  AnalysisSpec.window_mean (map (fun v => a * v + b) data) i w
  == a * AnalysisSpec.window_mean data i w + b.
Proof.
  intros Hw Hi. unfold AnalysisSpec.window_mean.
  rewrite skipn_map, firstn_map, sum_affine.
  unfold AnalysisSpec.n_of. rewrite (window_full data i w Hi).
  assert (Hpos : 0 < inject_Z (Z.of_nat w)).
  { change 0 with (inject_Z 0). rewrite <- Zlt_Qlt. lia. }
  field. lra.
Qed.

(** The outputs of the moving average when the window fits. *)
Lemma moving_average_nth (data : list Q) (window : Z) (i : nat) (o : Q) :
  (1 <= window <= Z.of_nat (length data))%Z ->
  nth_error (np.correlate_valid data (AnalysisSpec.kernel window)) i = Some o ->
  (i + Z.to_nat window <= length data)%nat /\
  o == AnalysisSpec.window_mean data i (Z.to_nat window).
Proof.
  intros Hw H. apply npFacts.correlate_valid_nth in H. destruct H as [Hi ->].
  rewrite VisualizationFacts.kernel_length in Hi.
  split; [lia|]. apply VisualizationFacts.kernel_window_mean. lia.
Qed.

Lemma predict_trend_regular (x y : list Q) :
  x <> [] -> length x = length y -> ~ AnalysisSpec.constant x ->
  exists slope intercept r2,
    Visualization.predict_trend x y
    = Py.Ok (np.Fin slope, np.Fin intercept, np.Fin r2) /\
    slope == AnalysisSpec.ols_slope x y /\
    intercept == AnalysisSpec.ols_intercept x y /\
    r2 == AnalysisSpec.pearson_squared x y.
Proof.
  intros Hx Hlen Hnc.
  destruct (statsFacts.estimate_regular x y Hx Hlen Hnc)
    as [sl [ic [r [E [Hsl [Hic [Hr _]]]]]]].
  exists sl, ic, (stats.square r).
  rewrite statsFacts.predict_trend_unfold,
    (statsFacts.linregress_ok x y Hx Hlen (fun _ => Hnc)), E.
  repeat split; assumption.
Qed.

Lemma dot_affine_r (x : list Q) (a b : Q) :
  forall y, length x = length y ->
    np.dot x (map (fun v => a * v + b) y) == a * np.dot x y + b * np.sum x.
Proof.
  induction x as [|u x IH]; intros [|v y] Hlen; try discriminate.
  - change (np.sum []) with 0. cbn. ring.
  - cbn [map np.dot]. rewrite npFacts.sum_cons, IH by (cbn in Hlen; congruence).
    ring.
Qed.

Lemma dot_affine_both (y : list Q) (a b : Q) :
  np.dot (map (fun v => a * v + b) y) (map (fun v => a * v + b) y)
  == a * a * np.dot y y + 2 * a * b * np.sum y + AnalysisSpec.n_of y * b * b.
Proof.
  induction y as [|v y IH]; cbn [map np.dot].
  - change (np.sum []) with 0. change (AnalysisSpec.n_of []) with 0. ring.
  - rewrite npFacts.sum_cons, statsFacts.n_of_cons, IH. ring.
Qed.

(** The sums of least squares after a change of unit of [y]. *)
Lemma Sxy_affine (x y : list Q) (a b : Q) :
  length x = length y ->
  AnalysisSpec.Sxy x (map (fun v => a * v + b) y) == a * AnalysisSpec.Sxy x y.
Proof.
  intros Hlen. unfold AnalysisSpec.Sxy, AnalysisSpec.sum_xy.
  rewrite dot_affine_r by exact Hlen. rewrite sum_affine.
  rewrite <- (statsFacts.n_of_length x y Hlen). ring.
Qed.

Lemma Sxx_affine (y : list Q) (a b : Q) :
  AnalysisSpec.Sxx (map (fun v => a * v + b) y) == a * a * AnalysisSpec.Sxx y.
Proof.
  unfold AnalysisSpec.Sxx, AnalysisSpec.sum_xy.
  rewrite dot_affine_both, sum_affine.
  assert (E : AnalysisSpec.n_of (map (fun v => a * v + b) y) = AnalysisSpec.n_of y)
    by (unfold AnalysisSpec.n_of; rewrite length_map; reflexivity).
  rewrite E. ring.
Qed.

Lemma round_half_even_compat (x y : Q) :
  x == y -> Py.round_half_even x = Py.round_half_even y.
Proof.
  intros E. unfold Py.round_half_even.
  rewrite (Qfloor_comp x y E).
  assert (Ec : Qcompare (x - inject_Z (Qfloor y)) (1 # 2)
               = Qcompare (y - inject_Z (Qfloor y)) (1 # 2))
    by (rewrite E; reflexivity).
  rewrite Ec. reflexivity.
Qed.

Lemma Qlt_bool_compat (a a' b b' : Q) :
  a == a' -> b == b' -> np.Qlt_bool a b = np.Qlt_bool a' b'.
Proof.
  intros Ea Eb. rewrite !npFacts.Qlt_bool_dec.
  destruct (Qlt_le_dec a b), (Qlt_le_dec a' b'); try reflexivity;
    exfalso; rewrite Ea, Eb in *; lra.
Qed.

(** Numbers that are equal are printed, classified and qualified alike,
    whatever fractions represent them. *)
Lemma format_2f_compat (q q' : Q) :
  q == q' ->
  Visualization.format_2f (np.Fin q) = Visualization.format_2f (np.Fin q').
Proof.
  intros E. unfold Visualization.format_2f.
  rewrite (Qlt_bool_compat q q' 0 0 E (Qeq_refl 0)).
  rewrite (round_half_even_compat (Qabs q * 100) (Qabs q' * 100))
    by (rewrite E; reflexivity).
  reflexivity.
Qed.

Lemma trend_of_compat (q q' : Q) :
  q == q' -> Visualization.trend_of (np.Fin q) = Visualization.trend_of (np.Fin q').
Proof.
  intros E. unfold Visualization.trend_of.
  cbn [np.absolute np.less np.greater].
  rewrite (Qlt_bool_compat (Qabs q) (Qabs q') 0.01 0.01)
    by (try rewrite E; reflexivity).
  rewrite (Qlt_bool_compat 0 0 q q' (Qeq_refl 0) E). reflexivity.
Qed.

Lemma confidence_note_compat (q q' : Q) :
  q == q' ->
  Visualization.confidence_note (np.Fin q)
  = Visualization.confidence_note (np.Fin q').
Proof.
  intros E. unfold Visualization.confidence_note. cbn [np.less np.greater].
  rewrite (Qlt_bool_compat 0.7 0.7 q q' (Qeq_refl _) E). reflexivity.
Qed.

Lemma dot_comm (x : list Q) : forall y, np.dot x y == np.dot y x.
Proof.
  induction x as [|u x IH]; intros [|v y]; cbn [np.dot]; try reflexivity.
  rewrite IH. ring.
Qed.

(** The fit of a constant series over an [x] that is not constant. *)
Lemma predict_trend_flat (x y : list Q) :
  x <> [] -> length x = length y ->
  ~ AnalysisSpec.constant x -> AnalysisSpec.constant y ->
  exists slope intercept r2,
    Visualization.predict_trend x y
    = Py.Ok (np.Fin slope, np.Fin intercept, np.Fin r2) /\
    slope == 0 /\ r2 == 0.
Proof.
  intros Hx Hlen Hnc Hc.
  destruct (predict_trend_regular x y Hx Hlen Hnc)
    as [sl [ic [r [E [Hsl [_ Hr]]]]]].
  exists sl, ic, r. split; [exact E|].
  assert (Hy : y <> []) by (destruct x, y; try discriminate; congruence).
  assert (Hsxx : ~ AnalysisSpec.Sxx x == 0).
  { intros E0. apply Hnc, (statsFacts.Sxx_zero_constant x Hx), E0. }
  destruct y as [|c y]; [congruence|].
  assert (Hall : forall v, In v (c :: y) -> v == c)
    by (intros v Hv; apply Hc; [exact Hv|left; reflexivity]).
  destruct (statsFacts.constant_sums (c :: y) c Hall) as [Esum _].
  assert (Edot : np.dot x (c :: y) == c * np.sum x).
  { rewrite dot_comm. apply statsFacts.dot_constant_l; [exact Hall|congruence]. }
  assert (Esxy : AnalysisSpec.Sxy x (c :: y) == 0).
  { unfold AnalysisSpec.Sxy, AnalysisSpec.sum_xy.
    rewrite Edot, Esum, <- (statsFacts.n_of_length x (c :: y) Hlen). ring. }
  split.
  - rewrite Hsl. unfold AnalysisSpec.ols_slope. rewrite Esxy. field. exact Hsxx.
  - rewrite Hr. unfold AnalysisSpec.pearson_squared.
    pose proof (proj2 (statsFacts.Sxx_zero_constant (c :: y) Hy) Hc) as Esyy.
    apply Qeq_bool_iff in Esyy. rewrite Esyy. reflexivity.
Qed.

Lemma dot_nonneg (a : list Q) :
  forall b, Forall (Qle 0) a -> Forall (Qle 0) b -> 0 <= np.dot a b.
Proof.
  induction a as [|u a IH]; intros [|v b] Ha Hb; cbn [np.dot]; try lra.
  inversion Ha; inversion Hb; subst.
  pose proof (IH b ltac:(assumption) ltac:(assumption)). nra.
Qed.

(** One more point in front: the covariance sum grows by the products
    of the distances to that point. *)
Lemma Sxy_cons (a b : Q) (x y : list Q) :
  length x = length y ->
  AnalysisSpec.Sxy (a :: x) (b :: y)
  == AnalysisSpec.Sxy x y
     + np.dot (map (fun u => u - a) x) (map (fun v => v - b) y).
Proof.
  intros Hlen. rewrite statsFacts.dot_deviations by exact Hlen.
  unfold AnalysisSpec.Sxy, AnalysisSpec.sum_xy. cbn [np.dot].
  rewrite !npFacts.sum_cons, statsFacts.n_of_cons. ring.
Qed.

(** Chebyshev's sum inequality: two series that rise together have a
    covariance sum that is not negative. *)
Lemma Sxy_nondecreasing (x : list Q) :
  ExtraSpec.nondecreasing x ->
  forall y, ExtraSpec.nondecreasing y -> length x = length y ->
    0 <= AnalysisSpec.Sxy x y.
Proof.
  unfold ExtraSpec.nondecreasing.
  induction 1 as [|a x Hx IH Ha]; intros y Hy Hlen.
  - destruct y; [|discriminate].
    unfold AnalysisSpec.Sxy, AnalysisSpec.sum_xy, AnalysisSpec.n_of, np.sum.
    cbn. lra.
  - destruct y as [|b y]; [discriminate|].
    apply StronglySorted_inv in Hy. destruct Hy as [Hy Hb].
    cbn in Hlen. injection Hlen as Hlen.
    rewrite Sxy_cons by exact Hlen.
    pose proof (IH y Hy Hlen).
    assert (0 <= np.dot (map (fun u => u - a) x) (map (fun v => v - b) y)).
    { apply dot_nonneg; apply Forall_map.
      - eapply Forall_impl; [|exact Ha]. cbn. intros u Hu. lra.
      - eapply Forall_impl; [|exact Hb]. cbn. intros v Hv. lra. }
    lra.
Qed.

Lemma seq_sorted (n : nat) :
  forall start,
    StronglySorted Qle (map inject_Z (map Z.of_nat (seq start n))).
Proof.
  induction n as [|n IH]; intros start; cbn [seq map]; constructor.
  - apply IH.
  - apply Forall_map, Forall_map, Forall_forall. intros k Hk.
    apply in_seq in Hk. rewrite <- Zle_Qle. lia.
Qed.

Lemma arange_nondecreasing (n : nat) : ExtraSpec.nondecreasing (np.arange n).
Proof. apply seq_sorted. Qed.

Lemma Sxx_pos (x : list Q) :
  x <> [] -> ~ AnalysisSpec.constant x -> 0 < AnalysisSpec.Sxx x.
Proof.
  intros Hx Hnc.
  pose proof (statsFacts.n_dot_deviations x x Hx eq_refl) as E.
  change (AnalysisSpec.Sxy x x) with (AnalysisSpec.Sxx x) in E.
  pose proof (statsFacts.n_of_pos x Hx).
  pose proof (statsFacts.dot_self_nonneg (map (fun a => a - np.mean x) x)).
  assert (Hnz : ~ AnalysisSpec.Sxx x == 0).
  { intros E0. apply Hnc, (statsFacts.Sxx_zero_constant x Hx), E0. }
  nra.
Qed.

Lemma map_opp_nondecreasing (l : list Q) :
  ExtraSpec.nonincreasing l -> ExtraSpec.nondecreasing (map Qopp l).
Proof.
  unfold ExtraSpec.nonincreasing, ExtraSpec.nondecreasing.
  induction 1 as [|a l Hl IH Ha]; cbn [map]; constructor; [exact IH|].
  apply Forall_map. eapply Forall_impl; [|exact Ha]. cbn. intros b Hb. lra.
Qed.

Lemma sum_opp (y : list Q) : np.sum (map Qopp y) == - np.sum y.
Proof.
  induction y as [|v y IH]; cbn [map].
  - change (np.sum []) with 0. ring.
  - rewrite !npFacts.sum_cons, IH. ring.
Qed.

Lemma dot_opp_r (x : list Q) :
  forall y, np.dot x (map Qopp y) == - np.dot x y.
Proof.
  induction x as [|u x IH]; intros [|v y]; cbn [map np.dot]; try ring.
  rewrite IH. ring.
Qed.

Lemma Sxy_opp (x y : list Q) :
  AnalysisSpec.Sxy x (map Qopp y) == - AnalysisSpec.Sxy x y.
Proof.
  unfold AnalysisSpec.Sxy, AnalysisSpec.sum_xy.
  rewrite dot_opp_r, sum_opp. ring.
Qed.

Lemma trend_of_nonneg (slope : Q) :
  0 <= slope -> Visualization.trend_of (np.Fin slope) <> "decreasing"%string.
Proof.
  intros H. unfold Visualization.trend_of.
  cbn [np.absolute np.less np.greater]. rewrite !npFacts.Qlt_bool_dec.
  destruct (Qlt_le_dec (Qabs slope) 0.01) as [Hs|Hs]; [discriminate|].
  destruct (Qlt_le_dec 0 slope) as [Hp|Hp]; [discriminate|].
  exfalso. rewrite (Qabs_pos slope H) in Hs.
  assert (E : 0.01 <= 0) by lra. apply Qle_bool_iff in E. discriminate E.
Qed.

Lemma trend_of_nonpos (slope : Q) :
  slope <= 0 -> Visualization.trend_of (np.Fin slope) <> "increasing"%string.
Proof.
  intros H. unfold Visualization.trend_of.
  cbn [np.absolute np.less np.greater]. rewrite !npFacts.Qlt_bool_dec.
  destruct (Qlt_le_dec (Qabs slope) 0.01) as [Hs|Hs]; [discriminate|].
  destruct (Qlt_le_dec 0 slope) as [Hp|Hp]; [lra|discriminate].
Qed.

(** Sliding the window by one position drops its first element and
    takes in the next one. *)
Lemma window_slide_head (w : nat) :
  forall (a : Q) (l : list Q),
    (w <= length l)%nat ->
    np.sum (firstn w (a :: l)) + nth w (a :: l) 0 == a + np.sum (firstn w l).
Proof.
  induction w as [|w IH]; intros a l Hw.
  - cbn [firstn nth]. change (np.sum []) with 0. ring.
  - destruct l as [|b l]; [cbn in Hw; lia|].
    pose proof (IH b l ltac:(cbn in Hw; lia)) as E.
    change (firstn (S w) (a :: b :: l)) with (a :: firstn w (b :: l)).
    change (nth (S w) (a :: b :: l) 0) with (nth w (b :: l) 0).
    change (firstn (S w) (b :: l)) with (b :: firstn w l).
    rewrite !npFacts.sum_cons. lra.
Qed.

Lemma window_slide (l : list Q) :
  forall (i w : nat),
    (i + w < length l)%nat ->
    np.sum (firstn w (skipn i l)) + nth (i + w) l 0
    == nth i l 0 + np.sum (firstn w (skipn (S i) l)).
Proof.
  induction l as [|a l IH]; intros i w H; [cbn in H; lia|].
  destruct i as [|i].
  - cbn [skipn Nat.add]. change (nth 0 (a :: l) 0) with a.
    apply window_slide_head. cbn in H. lia.
  - change (skipn (S i) (a :: l)) with (skipn i l).
    change (skipn (S (S i)) (a :: l)) with (skipn (S i) l).
    change (nth (S i + w) (a :: l) 0) with (nth (i + w) l 0).
    change (nth (S i) (a :: l) 0) with (nth i l 0).
    apply IH. cbn in H. lia.
Qed.

Lemma nondecreasing_nth (l : list Q) :
  ExtraSpec.nondecreasing l ->
  forall i j, (i <= j < length l)%nat -> nth i l 0 <= nth j l 0.
Proof.
  unfold ExtraSpec.nondecreasing.
  induction 1 as [|a l Hl IH Ha]; intros i j Hij; [cbn in Hij; lia|].
  destruct i as [|i], j as [|j]; cbn [nth]; try lia.
  - apply Qle_refl.
  - rewrite Forall_forall in Ha. apply Ha, nth_In. cbn in Hij. lia.
  - apply IH. cbn in Hij. lia.
Qed.

Lemma window_mean_rises (l : list Q) (i w : nat) :
  (1 <= w)%nat -> (S i + w <= length l)%nat ->
  ExtraSpec.nondecreasing l ->
  AnalysisSpec.window_mean l i w <= AnalysisSpec.window_mean l (S i) w.
Proof.
  intros Hw Hi Hl. unfold AnalysisSpec.window_mean.
  pose proof (window_slide l i w ltac:(lia)) as E.
  pose proof (nondecreasing_nth l Hl i (i + w) ltac:(lia)) as Hn.
  assert (Hpos : 0 < inject_Z (Z.of_nat w)).
  { change 0 with (inject_Z 0). rewrite <- Zlt_Qlt. lia. }
  apply Qle_shift_div_l; [exact Hpos|].
  assert (Ediv : np.sum (firstn w (skipn i l)) / inject_Z (Z.of_nat w)
                 * inject_Z (Z.of_nat w)
                 == np.sum (firstn w (skipn i l))) by (field; lra).
  rewrite Ediv. lra.
Qed.

Lemma sorted_of_adjacent (out : list Q) :
  (forall i a b, nth_error out i = Some a -> nth_error out (S i) = Some b ->
     a <= b) ->
  ExtraSpec.nondecreasing out.
Proof.
  intros H. apply Sorted_StronglySorted.
  - intros a b c Hab Hbc. apply (Qle_trans _ _ _ Hab Hbc).
  - induction out as [|a out IH]; constructor.
    + apply IH. intros i u v Hu Hv. apply (H (S i)); assumption.
    + destruct out as [|b out]; constructor.
      apply (H 0%nat); reflexivity.
Qed.

Section Plot.

Variable ax_plot : list string -> list np.float64 -> Py.result unit.

(** A drawing call that accepts every pair of equally long arguments. *)
Hypothesis plot_accepts :
  forall xs ys, length xs = length ys -> ax_plot xs ys = Py.Ok tt.

Lemma tail_plot_ok (ts : list string) (values ma : list Q) :
  (2 <= length values)%nat ->
  length ts = length values ->
  length ma = (if (length values <? 3)%nat
               then 3 - length values + 1
               else length values - 3 + 1)%nat ->
  ax_plot (Visualization.slice_from ts
             (Z.of_nat (length ts) - Z.of_nat (length ma)))
    (map np.Fin ma) = Py.Ok tt.
Proof.
  intros H2 Hts Hma. apply plot_accepts.
  rewrite (tail_slice_length ts values ma) by (try assumption; lia).
  rewrite length_map.
  destruct (Nat.eqb_spec (length values) 1); [lia|reflexivity].
Qed.

Lemma panel_ok (ts : list string) (n : nat) (values : list Q) :
  (2 <= n)%nat -> length ts = n -> length values = n ->
  exists slope r2,
    Visualization.panel ax_plot ts (np.arange n) values = Py.Ok (slope, r2).
Proof.
  intros Hn Hts Hv. unfold Visualization.panel.
  destruct (moving_average_3 values) as [ma [Ema Lma]].
  { intros E. rewrite E in Hv. cbn in Hv. lia. }
  destruct (predict_trend_ok n values Hn Hv) as [slope [intercept [r2 Efit]]].
  rewrite Ema. cbn [Py.bind]. rewrite Efit. cbn [Py.bind].
  rewrite plot_accepts by (rewrite length_map; congruence). cbn [Py.bind].
  rewrite (tail_plot_ok ts values ma) by (try assumption; congruence).
  cbn [Py.bind].
  rewrite plot_accepts
    by (rewrite trend_line_length, statsFacts.arange_length; exact Hts).
  cbn [Py.bind]. eexists _, _. reflexivity.
Qed.

End Plot.

(** The run on two or more readable documents. *)
Lemma run_completes
    (ax_plot : list string -> list np.float64 -> Py.result unit)
    (documents : list mongo_doc) :
  (forall xs ys, length xs = length ys -> ax_plot xs ys = Py.Ok tt) ->
  forallb ExtraSpec.complete documents = true ->
  (2 <= length (filter ExtraSpec.has_data documents))%nat ->
  exists narratives,
    Visualization.create_visualization ax_plot documents
    = Py.Ok (Some narratives) /\
    map fst narratives = ExtraSpec.supported.
Proof.
  intros Hplot Hread Hcount.
  set (n := length (filter ExtraSpec.has_data documents)) in *.
  pose proof (ExtraFacts.collect_spec documents Visualization.empty_series 0) as C.
  unfold Visualization.create_visualization.
  destruct (Visualization.collect documents Visualization.empty_series)
    as [s|e].
  2: { destruct C as [before [doc [after [E [_ Hd]]]]]; [repeat split|].
       exfalso. rewrite forallb_forall in Hread.
       specialize (Hread doc). unfold ExtraSpec.complete in Hread.
       rewrite Hd in Hread. discriminate Hread.
       rewrite E. apply in_elt. }
  destruct C as [_ [Hts [Htemp [Hhum [Hsoil [Hlight Hco2]]]]]]; [repeat split|].
  cbn [Nat.add] in *. fold n in Hts, Htemp, Hhum, Hsoil, Hlight, Hco2.
  cbn [Py.bind].
  destruct (Visualization.timestamps s) as [|t ts] eqn:Ets;
    [cbn in Hts; lia|].
  destruct (ExtraFacts.moving_average_3 (Visualization.temperatures s))
    as [temp_ma [E1 L1]].
  { intros E. rewrite E in Htemp. cbn in Htemp. lia. }
  destruct (ExtraFacts.moving_average_3 (Visualization.humidities s))
    as [hum_ma [E2 L2]].
  { intros E. rewrite E in Hhum. cbn in Hhum. lia. }
  rewrite E1. cbn [Py.bind]. rewrite E2. cbn [Py.bind].
  rewrite Hplot by (rewrite length_map; congruence). cbn [Py.bind].
  rewrite (ExtraFacts.tail_plot_ok ax_plot Hplot (t :: ts)
             (Visualization.temperatures s) temp_ma)
    by (try assumption; congruence).
  cbn [Py.bind].
  rewrite Hplot by (rewrite length_map; congruence). cbn [Py.bind].
  rewrite (ExtraFacts.tail_plot_ok ax_plot Hplot (t :: ts)
             (Visualization.humidities s) hum_ma)
    by (try assumption; congruence).
  cbn [Py.bind].
  rewrite Hts.
  destruct (ExtraFacts.predict_trend_ok n (Visualization.temperatures s)
              Hcount Htemp) as [sl [ic [r2 Efit]]].
  rewrite Efit. cbn [Py.bind].
  rewrite Hplot
    by (rewrite ExtraFacts.trend_line_length, statsFacts.arange_length;
        exact Hts).
  cbn [Py.bind].
  destruct (ExtraFacts.panel_ok ax_plot Hplot (t :: ts) n
              (Visualization.soil_moistures s) Hcount Hts Hsoil)
    as [sl1 [r21 P1]].
  destruct (ExtraFacts.panel_ok ax_plot Hplot (t :: ts) n
              (Visualization.light_levels s) Hcount Hts Hlight)
    as [sl2 [r22 P2]].
  destruct (ExtraFacts.panel_ok ax_plot Hplot (t :: ts) n
              (Visualization.co2_levels s) Hcount Hts Hco2)
    as [sl3 [r23 P3]].
  rewrite P1. cbn [Py.bind]. rewrite P2. cbn [Py.bind].
  rewrite P3. cbn [Py.bind].
  destruct (ExtraFacts.narrative_ok AnalysisSpec.Temperature sl r2) as [n1 N1].
  destruct (ExtraFacts.narrative_ok AnalysisSpec.Humidity (np.Fin 0) (np.Fin 0))
    as [n2 N2].
  destruct (ExtraFacts.narrative_ok AnalysisSpec.SoilMoisture sl1 r21) as [n3 N3].
  destruct (ExtraFacts.narrative_ok AnalysisSpec.LightLevel sl2 r22) as [n4 N4].
  destruct (ExtraFacts.narrative_ok AnalysisSpec.Co2Level sl3 r23) as [n5 N5].
  cbn [AnalysisSpec.metric_key] in N1, N2, N3, N4, N5.
  rewrite N1. cbn [Py.bind]. rewrite N2. cbn [Py.bind].
  rewrite N3. cbn [Py.bind]. rewrite N4. cbn [Py.bind].
  rewrite N5. cbn [Py.bind].
  eexists. split; reflexivity.
Qed.

(** Two noise streams that agree on the five variates of a reading give
    the same reading. *)
Lemma sample_ext (np_sin : Q -> Q) (np_pi : Q) (gauss gauss' : nat -> Q)
    (hour : Z) (s : nat) :
  (forall i, (i < 5)%nat -> gauss (i + s)%nat = gauss' (i + s)%nat) ->
  GeneratorSpec.sample np_sin np_pi gauss hour s
  = GeneratorSpec.sample np_sin np_pi gauss' hour s.
Proof.
  intros H. unfold GeneratorSpec.sample.
  assert (H0 : gauss s = gauss' s) by (apply (H 0%nat); lia).
  assert (H1 : gauss (1 + s)%nat = gauss' (1 + s)%nat) by (apply (H 1%nat); lia).
  assert (H2 : gauss (2 + s)%nat = gauss' (2 + s)%nat) by (apply (H 2%nat); lia).
  assert (H3 : gauss (3 + s)%nat = gauss' (3 + s)%nat) by (apply (H 3%nat); lia).
  assert (H4 : gauss (4 + s)%nat = gauss' (4 + s)%nat) by (apply (H 4%nat); lia).
  rewrite H0, H1, H2, H3, H4. reflexivity.
Qed.

Lemma doc_eq (d d' : doc) :
  datetime.ordinal (timestamp d) = datetime.ordinal (timestamp d') ->
  datetime.day_second (timestamp d) = datetime.day_second (timestamp d') ->
  data d = data d' ->
  d = d'.
Proof.
  destruct d as [[o t] dat], d' as [[o' t'] dat']. cbn.
  intros -> -> ->. reflexivity.
Qed.

Lemma min_inactive (v upper : Q) : v <= upper -> Py.min v upper = v.
Proof.
  intros H. unfold Py.min. destruct (Qlt_le_dec upper v); [lra|reflexivity].
Qed.

Lemma max_inactive (v lower : Q) : lower <= v -> Py.max v lower = v.
Proof.
  intros H. unfold Py.max. destruct (Qlt_le_dec v lower); [lra|reflexivity].
Qed.

Lemma maxZ_inactive (a lower : Z) : (lower <= a)%Z -> Py.maxZ a lower = a.
Proof.
  intros H. unfold Py.maxZ. destruct (Z.ltb_spec a lower); [lia|reflexivity].
Qed.

(** Within four standard deviations, and with a sine between -1 and 1,
    only the floor of the light level is ever active. *)
Lemma sample_unclamped (np_sin : Q -> Q) (np_pi : Q) (gauss : nat -> Q)
    (hour : Z) (s : nat) :
  (forall t, -1 <= np_sin t <= 1) ->
  (forall i, (i < 5)%nat -> -4 <= gauss (i + s)%nat <= 4) ->
  GeneratorSpec.sample np_sin np_pi gauss hour s
  = ExtraSpec.unclamped np_sin np_pi gauss hour s.
Proof.
  intros Hsin Hg.
  pose proof (Hsin (inject_Z (hour - 6) * np_pi / 12)) as Hs.
  pose proof (Hg 0%nat ltac:(lia)) as G0. pose proof (Hg 1%nat ltac:(lia)) as G1.
  pose proof (Hg 2%nat ltac:(lia)) as G2. pose proof (Hg 4%nat ltac:(lia)) as G4.
  cbn [Nat.add] in G0, G1, G2, G4.
  unfold GeneratorSpec.sample, ExtraSpec.unclamped,
    Generator.temp_cycle, Generator.co2_cycle.
  f_equal.
  - rewrite min_inactive by lra. rewrite max_inactive by lra. reflexivity.
  - change (1 + s)%nat with (S s).
    rewrite max_inactive by lra. rewrite min_inactive by lra. reflexivity.
  - change (2 + s)%nat with (S (S s)).
    rewrite max_inactive by lra. rewrite min_inactive by lra. reflexivity.
  - apply maxZ_inactive. apply PyFacts.int_ge; [lia|].
    change (4 + s)%nat with (S (S (S (S s)))).
    change (inject_Z 400) with 400. lra.
Qed.

Lemma append_reading_stored (d : doc) (acc : Visualization.series) :
  Visualization.append_reading (ExtraSpec.stored d)
    (dict (AnalysisSpec.items (data d))) acc
  = Py.Ok
      {| Visualization.timestamps :=
           Visualization.timestamps acc
           ++ [Visualization.strftime_HM (timestamp d)];
         Visualization.temperatures :=
           Visualization.temperatures acc ++ [temperature (data d)];
         Visualization.humidities :=
           Visualization.humidities acc ++ [inject_Z (humidity (data d))];
         Visualization.soil_moistures :=
           Visualization.soil_moistures acc
           ++ [inject_Z (soil_moisture (data d))];
         Visualization.light_levels :=
           Visualization.light_levels acc
           ++ [inject_Z (light_level (data d))];
         Visualization.co2_levels :=
           Visualization.co2_levels acc ++ [inject_Z (co2_level (data d))] |}.
Proof. reflexivity. Qed.

Lemma collect_stored (docs : list doc) :
  forall acc,
    Visualization.collect (map ExtraSpec.stored docs) acc
    = Py.Ok
        {| Visualization.timestamps :=
             Visualization.timestamps acc
             ++ map (fun d => Visualization.strftime_HM (timestamp d)) docs;
           Visualization.temperatures :=
             Visualization.temperatures acc
             ++ map (fun d => temperature (data d)) docs;
           Visualization.humidities :=
             Visualization.humidities acc
             ++ map (fun d => inject_Z (humidity (data d))) docs;
           Visualization.soil_moistures :=
             Visualization.soil_moistures acc
             ++ map (fun d => inject_Z (soil_moisture (data d))) docs;
           Visualization.light_levels :=
             Visualization.light_levels acc
             ++ map (fun d => inject_Z (light_level (data d))) docs;
           Visualization.co2_levels :=
             Visualization.co2_levels acc
             ++ map (fun d => inject_Z (co2_level (data d))) docs |}.
Proof.
  induction docs as [|d docs IH]; intros acc.
  - cbn. rewrite !app_nil_r. destruct acc; reflexivity.
  - cbn [map Visualization.collect ExtraSpec.stored AnalysisSpec.reading
         doc_data doc_timestamp].
    rewrite append_reading_stored.
    cbn [Py.bind]. rewrite IH.
    cbn [Visualization.timestamps Visualization.temperatures
         Visualization.humidities Visualization.soil_moistures
         Visualization.light_levels Visualization.co2_levels].
    rewrite <- !app_assoc. reflexivity.
Qed.

Lemma stored_readable (docs : list doc) :
  forallb ExtraSpec.complete (map ExtraSpec.stored docs) = true /\
  length (filter ExtraSpec.has_data (map ExtraSpec.stored docs)) = length docs.
Proof.
  induction docs as [|d docs [IH1 IH2]]; [split; reflexivity|].
  cbn [map forallb filter].
  change (ExtraSpec.complete (ExtraSpec.stored d)) with true.
  change (ExtraSpec.has_data (ExtraSpec.stored d)) with true.
  cbn [andb length]. split; [exact IH1|f_equal; exact IH2].
Qed.

(** The label of an instant depends on its second of the day only. *)
Lemma label_of_half_hour (t : datetime.t) (k : nat) :
  (k < 48)%nat ->
  datetime.day_second t = (1800 * Z.of_nat k)%Z ->
  nth_error ExtraSpec.half_hour_labels k = Some (Visualization.strftime_HM t).
Proof.
  intros Hk Hs. unfold ExtraSpec.half_hour_labels.
  rewrite nth_error_map, (GeneratorFacts.range_nth 48 k Hk). cbn [option_map].
  unfold Visualization.strftime_HM, datetime.hour, datetime.minute.
  rewrite Hs.
  assert (Eh : (1800 * Z.of_nat k / 3600 = Z.of_nat k / 2)%Z)
    by (Z.div_mod_to_equations; lia).
  assert (Em : ((1800 * Z.of_nat k) mod 3600 / 60 = 30 * (Z.of_nat k mod 2))%Z)
    by (Z.div_mod_to_equations; lia).
  rewrite Eh, Em. reflexivity.
Qed.

End ExtraFacts.

(** * Properties of the generator *)

(** C1.  Every one of the 48 readings of a generation run is within the
    declared ranges:
    temperature in [15, 35], humidity in [60, 90], soil moisture in
    [50, 80], light level at least 0 and CO2 level at least 400.  Reading
    k is the one computed at its own clock hour from the five variates
    drawn for it, variates 5k to 5k+4 of the run: each value is the clamp
    max(min(value, upper), lower) of base + cycle + that noise (one-sided
    for light and CO2), rounded to one decimal or truncated. *)
Theorem C1_readings_within_bounds
    (np_sin : Q -> Q) (np_pi : Q) (gauss : nat -> Q) (s : nat) :
  exists docs s',
    Generator.generate_data np_sin np_pi gauss s = Py.Ok (docs, s') /\
    length docs = 48%nat /\
    forall k d, nth_error docs k = Some d ->
      GeneratorSpec.within_bounds (data d) /\
      data d = GeneratorSpec.sample np_sin np_pi gauss
                 (datetime.hour (timestamp d)) (5 * k + s) /\
      GeneratorSpec.clamped_at np_sin np_pi gauss
        (datetime.hour (timestamp d)) (5 * k + s) (data d).
Proof.
  destruct (GeneratorFacts.generate_data_ok np_sin np_pi gauss s)
    as [docs [E [Hlen Hnth]]].
  exists docs, (240 + s)%nat. split; [exact E|]. split; [exact Hlen|].
  intros k d Hk.
  destruct (Hnth k d Hk) as [_ [_ Hd]].
  split; [|split].
  - rewrite Hd. apply GeneratorFacts.sample_within_bounds.
  - exact Hd.
  - rewrite Hd. apply GeneratorFacts.sample_clamped.
Qed.

(** C8.  For every sample count N >= 1 and positive interval (with the
    last instant still a representable date), the generation loop returns
    exactly N readings, reading k stamped start + k * interval, so the
    stamps increase strictly with uniform spacing; the program's own run,
    48 samples 30 minutes apart, returns exactly 48 readings that cover
    21 January 2025 from 00:00:00 in steps of 1800 seconds. *)
Theorem C8_series_length_and_timestamps
    (np_sin : Q -> Q) (np_pi : Q) (gauss : nat -> Q)
    (start : datetime.t) (step : Z) (count : nat) (s : nat) :
  datetime.valid start ->
  (1 <= count)%nat ->
  (0 < step)%Z ->
  (datetime.to_seconds start + 60 * step * (Z.of_nat count - 1)
   < (datetime.MAXORDINAL + 1) * 86400)%Z ->
  (exists docs s',
     Generator.generate np_sin np_pi gauss start step count s = Py.Ok (docs, s') /\
     length docs = count /\
     (forall k d, nth_error docs k = Some d ->
        Py.bind (datetime.of_minutes (step * Z.of_nat k)) (datetime.add start)
        = Py.Ok (timestamp d) /\
        datetime.to_seconds (timestamp d)
        = (datetime.to_seconds start + 60 * step * Z.of_nat k)%Z) /\
     (forall k d d', nth_error docs k = Some d -> nth_error docs (S k) = Some d' ->
        datetime.lt (timestamp d) (timestamp d') /\
        (datetime.to_seconds (timestamp d') - datetime.to_seconds (timestamp d)
         = 60 * step)%Z)) /\
  (Generator.generate_data np_sin np_pi gauss
   = Generator.generate np_sin np_pi gauss (datetime.make 2025 1 21 0 0 0) 30 48 /\
   exists docs s',
     Generator.generate_data np_sin np_pi gauss s = Py.Ok (docs, s') /\
     length docs = 48%nat /\
     forall k d, nth_error docs k = Some d ->
       datetime.ordinal (timestamp d) = datetime.ymd2ord 2025 1 21 /\
       datetime.day_second (timestamp d) = (1800 * Z.of_nat k)%Z).
Proof.
  intros Hv Hcount Hstep Hlim. split.
  - destruct (GeneratorFacts.generate_ok np_sin np_pi gauss start step count s Hv)
      as [docs [E [Hlen Hnth]]]; [lia | exact Hlim |].
    exists docs, (5 * count + s)%nat.
    split; [exact E|]. split; [exact Hlen|]. split.
    + intros k d Hk. destruct (Hnth k d Hk) as [H1 [H2 _]]. split; assumption.
    + intros k d d' Hk Hk'.
      destruct (Hnth k d Hk) as [_ [H1 _]].
      destruct (Hnth (S k) d' Hk') as [_ [H2 _]].
      unfold datetime.lt. rewrite H1, H2. lia.
  - split; [reflexivity|].
    destruct (GeneratorFacts.generate_data_ok np_sin np_pi gauss s)
      as [docs [E [Hlen Hnth]]].
    exists docs, (240 + s)%nat. split; [exact E|]. split; [exact Hlen|].
    intros k d Hk. destruct (Hnth k d Hk) as [H1 [H2 _]]. split; assumption.
Qed.

(** The reference run as an instance of C8: 48 samples, 30 minutes apart,
    from midnight of 21 January 2025. *)
Lemma C8_series_length_and_timestamps_witness :
  exists docs s',
    Generator.generate (fun _ => 0) 3 (fun _ => 0)
      Generator.start_time 30 48 0%nat = Py.Ok (docs, s') /\
    length docs = 48%nat.
Proof.
  destruct (C8_series_length_and_timestamps (fun _ => 0) 3 (fun _ => 0)
              Generator.start_time 30 48 0%nat)
    as [[docs [s' [E [Hlen _]]]] _].
  - unfold datetime.valid; vm_compute; intuition discriminate.
  - lia.
  - lia.
  - vm_compute; reflexivity.
  - exists docs, s'. split; assumption.
Defined.

(** C10.  The temperature, light and CO2 cycles are evaluated at the
    integer clock hour of the reading's instant, minutes discarded: for
    every k < 24 the readings 2k (at k:00) and 2k+1 (at k:30) both carry
    the cycle values of hour k and differ only through the variates drawn
    for them. *)
Theorem C10_cycles_use_clock_hour
    (np_sin : Q -> Q) (np_pi : Q) (gauss : nat -> Q) (s k : nat) :
  (k < 24)%nat ->
  exists docs s' d0 d1,
    Generator.generate_data np_sin np_pi gauss s = Py.Ok (docs, s') /\
    nth_error docs (2 * k) = Some d0 /\
    nth_error docs (2 * k + 1) = Some d1 /\
    datetime.hour (timestamp d0) = Z.of_nat k /\
    datetime.minute (timestamp d0) = 0%Z /\
    datetime.hour (timestamp d1) = Z.of_nat k /\
    datetime.minute (timestamp d1) = 30%Z /\
    data d0 = GeneratorSpec.sample np_sin np_pi gauss (Z.of_nat k) (5 * (2 * k) + s) /\
    data d1 = GeneratorSpec.sample np_sin np_pi gauss (Z.of_nat k) (5 * (2 * k + 1) + s) /\
    ((forall j, (j < 5)%nat ->
        gauss (j + (5 * (2 * k) + s))%nat = gauss (j + (5 * (2 * k + 1) + s))%nat) ->
     data d0 = data d1).
Proof.
  intros Hk.
  destruct (GeneratorFacts.generate_data_ok np_sin np_pi gauss s)
    as [docs [E [Hlen Hnth]]].
  destruct (nth_error docs (2 * k)) as [d0|] eqn:E0.
  2: { apply nth_error_None in E0. lia. }
  destruct (nth_error docs (2 * k + 1)) as [d1|] eqn:E1.
  2: { apply nth_error_None in E1. lia. }
  destruct (Hnth _ _ E0) as [_ [S0 D0]].
  destruct (Hnth _ _ E1) as [_ [S1 D1]].
  assert (H0 : datetime.hour (timestamp d0) = Z.of_nat k).
  { unfold datetime.hour. rewrite S0. Z.div_mod_to_equations. lia. }
  assert (H1 : datetime.hour (timestamp d1) = Z.of_nat k).
  { unfold datetime.hour. rewrite S1. Z.div_mod_to_equations. lia. }
  rewrite H0 in D0. rewrite H1 in D1.
  exists docs, (240 + s)%nat, d0, d1.
  repeat (split; [first [exact E | reflexivity | assumption] |]).
  split; [unfold datetime.minute; rewrite S0; Z.div_mod_to_equations; lia|].
  split; [exact H1|].
  split; [unfold datetime.minute; rewrite S1; Z.div_mod_to_equations; lia|].
  split; [exact D0|]. split; [exact D1|].
  intros G. rewrite D0, D1. unfold GeneratorSpec.sample.
  assert (G0 : gauss (5 * (2 * k) + s)%nat = gauss (5 * (2 * k + 1) + s)%nat)
    by (apply (G 0%nat); lia).
  assert (G1 : gauss (1 + (5 * (2 * k) + s))%nat = gauss (1 + (5 * (2 * k + 1) + s))%nat)
    by (apply (G 1%nat); lia).
  assert (G2 : gauss (2 + (5 * (2 * k) + s))%nat = gauss (2 + (5 * (2 * k + 1) + s))%nat)
    by (apply (G 2%nat); lia).
  assert (G3 : gauss (3 + (5 * (2 * k) + s))%nat = gauss (3 + (5 * (2 * k + 1) + s))%nat)
    by (apply (G 3%nat); lia).
  assert (G4 : gauss (4 + (5 * (2 * k) + s))%nat = gauss (4 + (5 * (2 * k + 1) + s))%nat)
    by (apply (G 4%nat); lia).
  rewrite G0, G1, G2, G3, G4. reflexivity.
Qed.

(** C10 at hour 3 of a run without noise. *)
Lemma C10_cycles_use_clock_hour_witness :
  (3 < 24)%nat /\
  exists docs s' d0 d1,
    Generator.generate_data (fun _ => 0) 3 (fun _ => 0) 0%nat = Py.Ok (docs, s') /\
    nth_error docs 6 = Some d0 /\
    nth_error docs 7 = Some d1 /\
    datetime.hour (timestamp d0) = 3%Z /\
    datetime.hour (timestamp d1) = 3%Z /\
    data d0 = data d1.
Proof.
  split; [lia|].
  destruct (C10_cycles_use_clock_hour (fun _ => 0) 3 (fun _ => 0) 0%nat 3%nat ltac:(lia))
    as [docs [s' [d0 [d1 [E [E0 [E1 [H0 [_ [H1 [_ [_ [_ G]]]]]]]]]]]]].
  exists docs, s', d0, d1.
  repeat (split; [assumption|]).
  apply G. reflexivity.
Defined.

(** * Properties of the trend narrative *)

(** C3.  The trend classifier is a total function of the slope and of
    r_squared: direction stable when |slope| < 0.01, increasing when the
    slope is positive, decreasing otherwise; confidence reliable when
    r_squared > 0.7 and cautious otherwise.  Slope 0.005 is stable, 0.02
    increasing, -0.5 decreasing. *)
Theorem C3_trend_classifier :
  (forall slope : Q,
     Visualization.trend_of (np.Fin slope)
     = AnalysisSpec.direction_key (AnalysisSpec.classify_direction slope)) /\
  (forall r_squared : Q,
     Visualization.confidence_note (np.Fin r_squared)
     = AnalysisSpec.confidence_phrase (AnalysisSpec.classify_confidence r_squared)) /\
  (forall slope r_squared : np.float64,
     exists d c,
       Visualization.trend_of slope = AnalysisSpec.direction_key d /\
       Visualization.confidence_note r_squared = AnalysisSpec.confidence_phrase c) /\
  Visualization.trend_of (np.Fin 0.005) = "stable"%string /\
  Visualization.trend_of (np.Fin 0.02) = "increasing"%string /\
  Visualization.trend_of (np.Fin (-0.5)) = "decreasing"%string.
Proof.
  repeat split; try reflexivity.
  - intros slope. unfold Visualization.trend_of, AnalysisSpec.classify_direction.
    cbn [np.absolute np.less np.greater]. rewrite !npFacts.Qlt_bool_dec.
    destruct (Qlt_le_dec (Qabs slope) 0.01); [reflexivity|].
    destruct (Qlt_le_dec 0 slope); reflexivity.
  - intros r2. unfold Visualization.confidence_note, AnalysisSpec.classify_confidence.
    cbn [np.less np.greater]. rewrite npFacts.Qlt_bool_dec.
    destruct (Qlt_le_dec 0.7 r2); reflexivity.
  - intros slope r2.
    destruct (VisualizationFacts.trend_of_direction slope) as [d Ed],
      (VisualizationFacts.confidence_note_phrase r2) as [c Ec].
    exists d, c. split; assumption.
Qed.


(** C5.  Whenever an analysis run reaches its narratives, the humidity
    narrative is the one computed from slope 0 and r_squared 0, whatever
    the humidity data: the stable humidity sentence, the cautious phrase
    and "R² = 0.00"; the narratives of temperature, soil moisture, light
    and CO2 are computed from the slope and r_squared fitted to their own
    series. *)
Theorem C5_humidity_narrative_is_constant
    (ax_plot : list string -> list np.float64 -> Py.result unit)
    (documents : list mongo_doc) (narratives : list (string * string)) :
  Visualization.create_visualization ax_plot documents = Py.Ok (Some narratives) ->
  Visualization.getitem narratives "humidity"
  = Visualization.generate_trend_narrative "humidity" (np.Fin 0) (np.Fin 0) /\
  Visualization.getitem narratives "humidity"
  = Py.Ok ("Humidity remains consistent. "
           ++ "Trend analysis should be interpreted cautiously, "
           ++ "statistical fit R² = 0.00.")%string /\
  exists s,
    Visualization.collect documents Visualization.empty_series = Py.Ok s /\
    forall key values,
      In (key, values)
        [ ("temperature"%string, Visualization.temperatures s);
          ("soil_moisture"%string, Visualization.soil_moistures s);
          ("light_level"%string, Visualization.light_levels s);
          ("co2_level"%string, Visualization.co2_levels s) ] ->
      exists slope intercept r_squared,
        Visualization.predict_trend
          (np.arange (length (Visualization.timestamps s))) values
        = Py.Ok (slope, intercept, r_squared) /\
        Visualization.getitem narratives key
        = Visualization.generate_trend_narrative key slope r_squared.
Proof.
  unfold Visualization.create_visualization. intros H.
  VisualizationFacts.bind_step H.
  destruct (Visualization.timestamps a) as [|t ts] eqn:Ets; [discriminate H|].
  repeat VisualizationFacts.bind_step H.
  injection H as <-.
  split; [|split].
  - reflexivity.
  - vm_compute in E12. injection E12 as <-. reflexivity.
  - exists a. split; [reflexivity|].
    intros key values Hin. rewrite Ets.
    cbn [In] in Hin.
    destruct Hin as [Hin|[Hin|[Hin|[Hin|[]]]]]; injection Hin as <- <-.
    + eexists _, _, _. split; [eassumption|]. rewrite E11. reflexivity.
    + match goal with
      | Hp : Visualization.panel _ _ _ (Visualization.soil_moistures a) = _ |- _ =>
          destruct (VisualizationFacts.panel_fit _ _ _ _ _ _ Hp) as [i Hi]
      end.
      eexists _, _, _. split; [exact Hi|]. rewrite E13. reflexivity.
    + match goal with
      | Hp : Visualization.panel _ _ _ (Visualization.light_levels a) = _ |- _ =>
          destruct (VisualizationFacts.panel_fit _ _ _ _ _ _ Hp) as [i Hi]
      end.
      eexists _, _, _. split; [exact Hi|]. rewrite E14. reflexivity.
    + match goal with
      | Hp : Visualization.panel _ _ _ (Visualization.co2_levels a) = _ |- _ =>
          destruct (VisualizationFacts.panel_fit _ _ _ _ _ _ Hp) as [i Hi]
      end.
      eexists _, _, _. split; [exact Hi|]. rewrite E15. reflexivity.
Qed.

(** C5 on three stored readings whose humidity rises from 61 to 89. *)
Lemma C5_humidity_narrative_is_constant_witness :
  exists narratives,
    Visualization.create_visualization AnalysisSpec.plot_same_length
      AnalysisSpec.three_readings = Py.Ok (Some narratives) /\
    Visualization.getitem narratives "humidity"
    = Py.Ok ("Humidity remains consistent. "
             ++ "Trend analysis should be interpreted cautiously, "
             ++ "statistical fit R² = 0.00.")%string.
Proof.
  eexists. split.
  - vm_compute. reflexivity.
  - refine (proj1 (proj2 (C5_humidity_narrative_is_constant
                            AnalysisSpec.plot_same_length
                            AnalysisSpec.three_readings _ _))).
    vm_compute. reflexivity.
Defined.

(** * Properties of the moving average *)

(** C2.  For an input of length L and a window w with 1 <= w <= L the
    moving average has length L - w + 1 and its element i is the mean of
    input[i..i+w-1]; for w = 1 the output is the input, for w = L it is
    the one-element sequence holding the mean of the whole input. *)
Theorem C2_moving_average (data : list Q) (window : Z) :
  (1 <= window <= Z.of_nat (length data))%Z ->
  exists out,
    Visualization.calculate_moving_average data window = Py.Ok out /\
    length out = (length data - Z.to_nat window + 1)%nat /\
    (forall i o, nth_error out i = Some o ->
       o == AnalysisSpec.window_mean data i (Z.to_nat window)) /\
    (window = 1%Z -> AnalysisSpec.array_eq out data) /\
    (window = Z.of_nat (length data) ->
       exists m, out = [m] /\ m == np.mean data).
Proof.
  intros Hw.
  exists (np.correlate_valid data (AnalysisSpec.kernel window)).
  assert (Hnth : forall i o,
            nth_error (np.correlate_valid data (AnalysisSpec.kernel window)) i = Some o ->
            o == AnalysisSpec.window_mean data i (Z.to_nat window)).
  { intros i o Hi. apply npFacts.correlate_valid_nth in Hi. destruct Hi as [_ ->].
    apply VisualizationFacts.kernel_window_mean. lia. }
  assert (Hlen : length (np.correlate_valid data (AnalysisSpec.kernel window))
                 = (length data - Z.to_nat window + 1)%nat).
  { rewrite npFacts.correlate_valid_length, VisualizationFacts.kernel_length.
    reflexivity. }
  split; [apply VisualizationFacts.moving_average_inside; exact Hw|].
  split; [exact Hlen|]. split; [exact Hnth|]. split.
  - intros ->. apply npFacts.Forall2_nth_error.
    + rewrite Hlen. cbn. lia.
    + intros i o x Ho Hx. rewrite (Hnth i o Ho).
      unfold AnalysisSpec.window_mean.
      destruct (nth_error_split data i Hx) as [l1 [l2 [-> Hl1]]].
      rewrite <- Hl1, skipn_app, skipn_all, Nat.sub_diag.
      change (Z.to_nat 1) with 1%nat.
      cbn [app skipn firstn]. unfold np.sum. cbn [fold_right Z.of_nat Pos.of_succ_nat].
      field.
  - intros E. subst window.
    rewrite Nat2Z.id, Nat.sub_diag in Hlen. cbn [Nat.add] in Hlen.
    rewrite Nat2Z.id in Hnth.
    destruct (np.correlate_valid data (AnalysisSpec.kernel (Z.of_nat (length data))))
      as [|m [|m' out]]; try discriminate Hlen.
    exists m. split; [reflexivity|].
    rewrite (Hnth 0%nat m eq_refl).
    unfold AnalysisSpec.window_mean, np.mean.
    cbn [skipn]. rewrite firstn_all. reflexivity.
Qed.

(** C2 on the four-element input 1, 2, 3, 4 with the program's window 3. *)
Lemma C2_moving_average_witness :
  exists out,
    Visualization.calculate_moving_average [1; 2; 3; 4] 3 = Py.Ok out /\
    length out = 2%nat.
Proof.
  destruct (C2_moving_average [1; 2; 3; 4] 3) as [out [E [Hlen _]]].
  - cbn. lia.
  - exists out. split; [exact E|exact Hlen].
Defined.

(** C6, as the specification states it, fails: a window longer than a
    non-empty input is not an error. *)
Lemma C6_window_longer_than_input_accepted :
  ~ AnalysisSpec.smoother_fails_exactly_on_bad_window.
Proof.
  intros H.
  destruct (H [1] 3%Z) as [_ Hfail].
  assert (Hok : Py.is_ok (Visualization.calculate_moving_average [1] 3) = true)
    by (vm_compute; reflexivity).
  rewrite Hfail in Hok; [discriminate|]. left. cbn. lia.
Qed.

(** C6, amended.  The moving average raises, and then a ValueError,
    exactly when the window is smaller than 1 or the input is empty; for
    1 <= w <= L it returns the L - w + 1 window means, and for a window
    longer than a non-empty input it returns w - L + 1 values instead of
    failing. *)
Theorem C6_moving_average_failures (data : list Q) (window : Z) :
  (Py.is_ok (Visualization.calculate_moving_average data window) = false
   <-> ((window < 1)%Z \/ data = [])) /\
  (Py.is_value_error (Visualization.calculate_moving_average data window)
   = negb (Py.is_ok (Visualization.calculate_moving_average data window))) /\
  ((1 <= window <= Z.of_nat (length data))%Z ->
   exists out,
     Visualization.calculate_moving_average data window = Py.Ok out /\
     length out = (length data - Z.to_nat window + 1)%nat /\
     forall i o, nth_error out i = Some o ->
       o == AnalysisSpec.window_mean data i (Z.to_nat window)) /\
  (data <> [] -> (Z.of_nat (length data) < window)%Z ->
   exists out,
     Visualization.calculate_moving_average data window = Py.Ok out /\
     length out = (Z.to_nat window - length data + 1)%nat).
Proof.
  split; [apply VisualizationFacts.moving_average_fails|]. split; [|split].
  - pose proof (VisualizationFacts.moving_average_raises data window) as H.
    destruct (Visualization.calculate_moving_average data window) as [out|e];
      [reflexivity|apply H; reflexivity].
  - intros Hw.
    exists (np.correlate_valid data (AnalysisSpec.kernel window)).
    split; [apply VisualizationFacts.moving_average_inside; exact Hw|].
    split.
    + rewrite npFacts.correlate_valid_length, VisualizationFacts.kernel_length.
      reflexivity.
    + intros i o Hi. apply npFacts.correlate_valid_nth in Hi. destruct Hi as [_ ->].
      apply VisualizationFacts.kernel_window_mean. lia.
  - intros Hd Hw.
    exists (np.correlate_valid (AnalysisSpec.kernel window) (rev data)).
    split; [apply VisualizationFacts.moving_average_longer; assumption|].
    rewrite npFacts.correlate_valid_length, VisualizationFacts.kernel_length,
      length_rev.
    reflexivity.
Qed.

(** * Properties of the trend fit *)

(** C4.  On a constant series of length L >= 2 over the positions
    0..L-1 the fit returns slope 0 and an r_squared that is a number,
    not NaN, and equals 0. *)
Theorem C4_constant_series (c : Q) (L : nat) :
  (2 <= L)%nat ->
  exists slope intercept r_squared,
    Visualization.predict_trend (np.arange L) (repeat c L)
    = Py.Ok (np.Fin slope, np.Fin intercept, np.Fin r_squared) /\
    slope == 0 /\ intercept == c /\ r_squared == 0.
Proof.
  intros HL.
  set (x := np.arange L). set (y := repeat c L).
  assert (Hlx : length x = L) by apply statsFacts.arange_length.
  assert (Hly : length y = L) by apply repeat_length.
  assert (Hnc : ~ AnalysisSpec.constant x)
    by exact (statsFacts.arange_not_constant L HL).
  assert (Hsum : np.sum y == inject_Z (Z.of_nat L) * c)
    by apply statsFacts.sum_repeat.
  assert (Hdot : forall l, np.dot l y == c * np.sum (firstn L l))
    by (intros l; apply npFacts.dot_repeat).
  assert (Hyc : AnalysisSpec.constant y).
  { intros a b Ha Hb. apply repeat_spec in Ha, Hb. rewrite Ha, Hb. reflexivity. }
  clearbody x y.
  assert (Hx : x <> []) by (intros E; rewrite E in Hlx; cbn in Hlx; lia).
  assert (Hy : y <> []) by (intros E; rewrite E in Hly; cbn in Hly; lia).
  assert (Hlen : length x = length y) by congruence.
  destruct (statsFacts.estimate_regular x y Hx Hlen Hnc)
    as [sl [ic [r [E [Hsl [Hic [Hr _]]]]]]].
  exists sl, ic, (stats.square r).
  rewrite statsFacts.predict_trend_unfold,
    (statsFacts.linregress_ok x y Hx Hlen (fun _ => Hnc)), E.
  split; [reflexivity|].
  pose proof (statsFacts.n_of_pos x Hx) as Hn.
  assert (Hn_of : AnalysisSpec.n_of x = inject_Z (Z.of_nat L))
    by (unfold AnalysisSpec.n_of; rewrite Hlx; reflexivity).
  assert (Hsxy : AnalysisSpec.Sxy x y == 0).
  { unfold AnalysisSpec.Sxy, AnalysisSpec.sum_xy.
    rewrite Hdot, Hsum, Hn_of, <- Hlx, firstn_all. ring. }
  assert (Hsxx : ~ AnalysisSpec.Sxx x == 0).
  { intros E0. apply Hnc, (statsFacts.Sxx_zero_constant x Hx), E0. }
  assert (Hslope : AnalysisSpec.ols_slope x y == 0).
  { unfold AnalysisSpec.ols_slope. rewrite Hsxy. field. exact Hsxx. }
  split; [rewrite Hsl; exact Hslope|]. split.
  - rewrite Hic. unfold AnalysisSpec.ols_intercept.
    rewrite Hslope, Hsum, <- Hn_of. field. lra.
  - rewrite Hr. unfold AnalysisSpec.pearson_squared.
    pose proof (proj2 (statsFacts.Sxx_zero_constant y Hy) Hyc) as Hsyy.
    apply Qeq_bool_iff in Hsyy. rewrite Hsyy. reflexivity.
Qed.

(** C4 on y = 5, 5, 5, 5. *)
Lemma C4_constant_series_witness :
  exists slope intercept r_squared,
    Visualization.predict_trend [0; 1; 2; 3] [5; 5; 5; 5]
    = Py.Ok (np.Fin slope, np.Fin intercept, np.Fin r_squared) /\
    slope == 0 /\ r_squared == 0.
Proof.
  destruct (C4_constant_series 5 4 ltac:(lia))
    as [slope [intercept [r2 [E [Hs [_ Hr]]]]]].
  exists slope, intercept, r2. split; [exact E|]. split; assumption.
Defined.

(** C7, as the specification states it, fails: a single point has
    length below 2 and zero variance in x, and the fit of a single point
    does not fail. *)
Lemma C7_single_point_accepted :
  ~ AnalysisSpec.fitter_fails_exactly_on_degenerate_series.
Proof.
  intros H.
  destruct (H [0] [5] eq_refl) as [_ Hfail].
  assert (Hok : Py.is_ok (Visualization.predict_trend [0] [5]) = true)
    by (vm_compute; reflexivity).
  rewrite Hfail in Hok; [discriminate|]. left. cbn. lia.
Qed.

(** C7, amended.  For x and y of equal length the fit raises, and then
    a ValueError, exactly when the series is empty or x is constant (has
    zero variance) over two or more points; a
    single point is accepted and yields NaN for slope and intercept with
    r_squared 0; otherwise the result is the closed-form least-squares
    slope and intercept and the squared Pearson correlation, which lies
    in [0, 1]. *)
Theorem C7_trend_fitter (x y : list Q) :
  length x = length y ->
  (Py.is_ok (Visualization.predict_trend x y) = false
   <-> (x = [] \/ ((2 <= length x)%nat /\ AnalysisSpec.constant x))) /\
  (Py.is_value_error (Visualization.predict_trend x y)
   = negb (Py.is_ok (Visualization.predict_trend x y))) /\
  (x <> [] -> (AnalysisSpec.constant x <-> AnalysisSpec.Sxx x == 0)) /\
  (length x = 1%nat ->
   exists r_squared,
     Visualization.predict_trend x y = Py.Ok (np.NaN, np.NaN, np.Fin r_squared) /\
     r_squared == 0) /\
  ((2 <= length x)%nat -> ~ AnalysisSpec.constant x ->
   exists slope intercept r_squared,
     Visualization.predict_trend x y
     = Py.Ok (np.Fin slope, np.Fin intercept, np.Fin r_squared) /\
     slope == AnalysisSpec.ols_slope x y /\
     intercept == AnalysisSpec.ols_intercept x y /\
     r_squared == AnalysisSpec.pearson_squared x y /\
     0 <= r_squared <= 1).
Proof.
  intros Hlen. split; [|split; [|split; [|split]]].
  2: { pose proof (statsFacts.predict_trend_raises x y) as H.
       destruct (Visualization.predict_trend x y) as [res|e];
         [reflexivity|apply H; reflexivity]. }
  2: { intros Hx. symmetry. apply statsFacts.Sxx_zero_constant, Hx. }
  - split.
    + intros Hfail.
      destruct x as [|a x]; [left; reflexivity|right].
      destruct (Nat.le_gt_cases 2 (length (a :: x))) as [H2|H1].
      * split; [exact H2|].
        destruct (Qeq_bool (np.amax (a :: x)) (np.amin (a :: x))) eqn:E.
        -- apply Qeq_bool_iff, statsFacts.amax_amin_constant in E;
             [exact E|discriminate].
        -- exfalso.
           rewrite statsFacts.predict_trend_unfold, statsFacts.linregress_ok
             in Hfail; [discriminate Hfail|discriminate|exact Hlen|].
           intros _ Hc.
           apply (statsFacts.amax_amin_constant (a :: x)), Qeq_bool_iff in Hc;
             [congruence|discriminate].
      * exfalso.
        rewrite statsFacts.predict_trend_unfold, statsFacts.linregress_ok
          in Hfail; [discriminate Hfail|discriminate|exact Hlen|].
        intros H2. lia.
    + intros H. rewrite statsFacts.predict_trend_unfold.
      pose proof (statsFacts.linregress_raises x y H) as Hr.
      destruct (stats.linregress x y); [discriminate Hr|reflexivity].
  - intros H1.
    assert (Hx : x <> []) by (intros E; rewrite E in H1; discriminate).
    assert (Hc : AnalysisSpec.constant x).
    { destruct x as [|a [|b x]]; try discriminate.
      intros p q [<-|[]] [<-|[]]. reflexivity. }
    exists (stats.square (stats.root_const 0)).
    rewrite statsFacts.predict_trend_unfold, statsFacts.linregress_ok,
      (statsFacts.estimate_constant_x x y Hx Hlen Hc);
      [split; reflexivity|exact Hx|exact Hlen|].
    intros H2. lia.
  - intros H2 Hnc.
    assert (Hx : x <> []) by (intros E; rewrite E in H2; cbn in H2; lia).
    destruct (statsFacts.estimate_regular x y Hx Hlen Hnc)
      as [sl [ic [r [E [Hsl [Hic [Hr Hb]]]]]]].
    exists sl, ic, (stats.square r).
    rewrite statsFacts.predict_trend_unfold,
      (statsFacts.linregress_ok x y Hx Hlen (fun _ => Hnc)), E.
    repeat split; try assumption; apply Hb.
Qed.

(** C7 on the exactly linear series y = 3 x + 2. *)
Lemma C7_trend_fitter_witness :
  exists slope intercept r_squared,
    Visualization.predict_trend [0; 1; 2; 3] [2; 5; 8; 11]
    = Py.Ok (np.Fin slope, np.Fin intercept, np.Fin r_squared) /\
    slope == 3 /\ intercept == 2 /\ r_squared == 1.
Proof.
  destruct (C7_trend_fitter [0; 1; 2; 3] [2; 5; 8; 11] eq_refl) as [_ [_ [_ [_ H]]]].
  destruct H as [slope [intercept [r2 [E [Hs [Hi [Hr _]]]]]]].
  - cbn. lia.
  - intros Hc. discriminate (Hc 0 1 (or_introl eq_refl) (or_intror (or_introl eq_refl))).
  - exists slope, intercept, r2. split; [exact E|].
    rewrite Hs, Hi, Hr. repeat split; vm_compute; reflexivity.
Defined.

(** * Further properties of the analysis *)

(** X1.  A narrative is produced exactly for the five keys of the table:
    for one of them the call returns a sentence whatever the slope and
    R², for any other parameter it raises KeyError with that parameter. *)
Theorem X1_narrative_unknown_parameter
    (parameter : string) (slope r2 : np.float64) :
  map fst Visualization.trend_descriptions = ExtraSpec.supported /\
  (In parameter ExtraSpec.supported ->
   exists sentence,
     Visualization.generate_trend_narrative parameter slope r2 = Py.Ok sentence) /\
  (~ In parameter ExtraSpec.supported ->
   Visualization.generate_trend_narrative parameter slope r2
   = Py.Raise (Py.KeyError parameter)).
Proof.
  split; [reflexivity|]. split.
  - intros H. destruct (ExtraFacts.supported_metric parameter H) as [m ->].
    apply ExtraFacts.narrative_ok.
  - intros H. unfold Visualization.generate_trend_narrative.
    rewrite ExtraFacts.getitem_missing; [reflexivity|exact H].
Qed.

(** X2.  The loop over the documents skips those without 'data' and
    appends one entry to each of the six lists for every other one.  It
    passes exactly when every document with 'data' has a 'timestamp' that
    is text in ISO format and, under 'data', a dict with all five
    metrics; the six lists then have the same length, the number of
    documents with 'data'.  Otherwise it raises what the first document
    with a defect raises: KeyError 'timestamp', the ValueError or
    TypeError of fromisoformat, the TypeError of a 'data' that is not a
    dict, or the KeyError of the first metric that is missing, as
    KeyError 'humidity' for a document that lacks its humidity only. *)
Theorem X2_collect_keeps_lists_aligned (documents : list mongo_doc) :
  match Visualization.collect documents Visualization.empty_series with
  | Py.Ok s =>
      forallb ExtraSpec.complete documents = true /\
      ExtraSpec.aligned (length (filter ExtraSpec.has_data documents)) s
  | Py.Raise e =>
      exists before doc after,
        documents = before ++ doc :: after /\
        forallb ExtraSpec.complete before = true /\
        ExtraSpec.defect doc = Some e
  end /\
  (forallb ExtraSpec.complete documents = true ->
   Py.is_ok (Visualization.collect documents Visualization.empty_series)
   = true) /\
  Visualization.collect ExtraSpec.humidity_missing Visualization.empty_series
  = Py.Raise (Py.KeyError "humidity").
Proof.
  pose proof (ExtraFacts.collect_spec documents Visualization.empty_series 0) as C.
  split; [|split].
  - apply C. repeat split.
  - intros Hall.
    destruct (Visualization.collect documents Visualization.empty_series)
      as [s|e]; [reflexivity|].
    destruct C as [before [doc [after [E [_ Hd]]]]]; [repeat split|].
    rewrite forallb_forall in Hall. specialize (Hall doc).
    unfold ExtraSpec.complete in Hall. rewrite Hd in Hall.
    apply Hall. rewrite E. apply in_elt.
  - reflexivity.
Qed.

(** X3.  The run reports "no data" (returns without narratives and
    without an error) exactly when no document carries 'data'; no drawing
    call is made then, whatever the drawing library would do. *)
Theorem X3_no_data_no_plot
    (ax_plot : list string -> list np.float64 -> Py.result unit)
    (documents : list mongo_doc) :
  Visualization.create_visualization ax_plot documents = Py.Ok None
  <-> filter ExtraSpec.has_data documents = [].
Proof.
  unfold Visualization.create_visualization. split.
  - intros H.
    pose proof (ExtraFacts.collect_spec documents Visualization.empty_series 0) as C.
    destruct (Visualization.collect documents Visualization.empty_series)
      as [s|e]; [|discriminate H].
    destruct C as [_ [Hts _]]; [repeat split|].
    cbn [Py.bind] in H.
    destruct (Visualization.timestamps s) as [|t ts].
    + cbn in Hts. apply length_zero_iff_nil. congruence.
    + exfalso. repeat VisualizationFacts.bind_step H. discriminate H.
  - intros H. rewrite (ExtraFacts.collect_no_data documents H). reflexivity.
Qed.

(** X4.  When every document with 'data' has a 'timestamp' that is text
    in ISO format and, under 'data', a dict with all five metrics, two or
    more documents carry 'data', and the drawing library accepts equally
    long arguments, the
    run completes and returns the five narratives, keyed temperature,
    humidity, soil_moisture, light_level, co2_level in this order. *)
Theorem X4_run_completes
    (ax_plot : list string -> list np.float64 -> Py.result unit)
    (documents : list mongo_doc) :
  (forall xs ys, length xs = length ys -> ax_plot xs ys = Py.Ok tt) ->
  forallb ExtraSpec.complete documents = true ->
  (2 <= length (filter ExtraSpec.has_data documents))%nat ->
  exists narratives,
    Visualization.create_visualization ax_plot documents
    = Py.Ok (Some narratives) /\
    map fst narratives = ExtraSpec.supported.
Proof.
  intros Hplot Hread Hcount.
  destruct (ExtraFacts.run_completes ax_plot documents Hplot Hread Hcount)
    as [narratives [E K]].
  exists narratives. split; [exact E|exact K].
Qed.

(** X4 on three stored readings. *)
Lemma X4_run_completes_witness :
  exists narratives,
    Visualization.create_visualization AnalysisSpec.plot_same_length
      AnalysisSpec.three_readings = Py.Ok (Some narratives) /\
    map fst narratives = ExtraSpec.supported.
Proof.
  apply X4_run_completes.
  - intros xs ys H. unfold AnalysisSpec.plot_same_length.
    rewrite H, Nat.eqb_refl. reflexivity.
  - reflexivity.
  - cbn. lia.
Defined.

(** X5.  With exactly one document carrying data the run never reaches
    its narratives when the drawing library refuses arguments of
    different lengths: the moving average of the single value has three
    elements and is drawn against a time axis of one. *)
Theorem X5_single_reading_run_fails
    (ax_plot : list string -> list np.float64 -> Py.result unit)
    (documents : list mongo_doc) :
  (forall xs ys, length xs <> length ys -> Py.is_ok (ax_plot xs ys) = false) ->
  length (filter ExtraSpec.has_data documents) = 1%nat ->
  Py.is_ok (Visualization.create_visualization ax_plot documents) = false.
Proof.
  intros Hplot Hcount.
  pose proof (ExtraFacts.collect_spec documents Visualization.empty_series 0) as C.
  unfold Visualization.create_visualization.
  destruct (Visualization.collect documents Visualization.empty_series)
    as [s|e]; [|reflexivity].
  destruct C as [_ [Hts [Htemp _]]]; [repeat split|].
  cbn [Nat.add] in *. rewrite Hcount in Hts, Htemp.
  cbn [Py.bind].
  destruct (Visualization.timestamps s) as [|t ts] eqn:Ets;
    [cbn in Hts; lia|].
  destruct (ExtraFacts.moving_average_3 (Visualization.temperatures s))
    as [temp_ma [E1 L1]].
  { intros E. rewrite E in Htemp. cbn in Htemp. lia. }
  rewrite E1. cbn [Py.bind].
  destruct (Visualization.calculate_moving_average
              (Visualization.humidities s) 3); [|reflexivity].
  cbn [Py.bind].
  destruct (ax_plot (t :: ts) (map np.Fin (Visualization.temperatures s)));
    [|reflexivity].
  cbn [Py.bind].
  match goal with
  | |- Py.is_ok (Py.bind (ax_plot ?xs ?ys) _) = false =>
      assert (Hbad : Py.is_ok (ax_plot xs ys) = false)
  end.
  { apply Hplot.
    rewrite (ExtraFacts.tail_slice_length (t :: ts)
               (Visualization.temperatures s) temp_ma);
      [|lia|congruence|exact L1].
    rewrite length_map, L1, Htemp. cbn. lia. }
  match goal with
  | |- Py.is_ok (Py.bind ?m _) = false =>
      destruct m; [discriminate Hbad|reflexivity]
  end.
Qed.

(** X5 on one stored reading next to a document without data. *)
Lemma X5_single_reading_run_fails_witness :
  Py.is_ok (Visualization.create_visualization AnalysisSpec.plot_same_length
              ExtraSpec.one_reading) = false.
Proof.
  apply X5_single_reading_run_fails.
  - intros xs ys H. unfold AnalysisSpec.plot_same_length.
    destruct (Nat.eqb_spec (length xs) (length ys)); [contradiction|reflexivity].
  - reflexivity.
Defined.

(** * Further properties of the moving average *)

(** X6.  Smoothing never leaves the range of the data: when the window
    fits the input and every value lies in [lo, hi], so does every value
    of the moving average. *)
Theorem X6_moving_average_within_range
    (data : list Q) (window : Z) (lo hi : Q) :
  (1 <= window <= Z.of_nat (length data))%Z ->
  (forall v, In v data -> lo <= v <= hi) ->
  exists out,
    Visualization.calculate_moving_average data window = Py.Ok out /\
    forall o, In o out -> lo <= o <= hi.
Proof.
  intros Hw Hb. eexists. split.
  - apply VisualizationFacts.moving_average_inside. exact Hw.
  - intros o Ho. apply In_nth_error in Ho. destruct Ho as [i Hi].
    destruct (ExtraFacts.moving_average_nth data window i o Hw Hi) as [Hfit ->].
    apply ExtraFacts.window_mean_bounds; [lia|exact Hfit|exact Hb].
Qed.

(** X6 on humidity-like values between 60 and 90. *)
Lemma X6_moving_average_within_range_witness :
  exists out,
    Visualization.calculate_moving_average [61; 75; 89; 70] 3 = Py.Ok out /\
    forall o, In o out -> 60 <= o <= 90.
Proof.
  apply X6_moving_average_within_range.
  - cbn. lia.
  - intros v [<-|[<-|[<-|[<-|[]]]]]; split; apply Qle_bool_imp_le; reflexivity.
Defined.

(** X7.  A window longer than a non-empty input does not give means:
    each of the w - L + 1 values returned is the sum of the whole input
    divided by the window, the mean scaled down by L / w. *)
Theorem X7_moving_average_of_short_input (data : list Q) (window : Z) :
  data <> [] ->
  (Z.of_nat (length data) < window)%Z ->
  exists out,
    Visualization.calculate_moving_average data window = Py.Ok out /\
    length out = (Z.to_nat window - length data + 1)%nat /\
    forall o, In o out -> o == np.sum data / inject_Z window.
Proof.
  intros Hd Hw. eexists. split; [|split].
  - apply VisualizationFacts.moving_average_longer; assumption.
  - rewrite npFacts.correlate_valid_length, VisualizationFacts.kernel_length,
      length_rev.
    reflexivity.
  - intros o Ho. apply In_nth_error in Ho. destruct Ho as [i Hi].
    apply npFacts.correlate_valid_nth in Hi. destruct Hi as [Hi ->].
    rewrite VisualizationFacts.kernel_length, length_rev in Hi.
    unfold AnalysisSpec.kernel. rewrite ExtraFacts.skipn_repeat.
    rewrite ExtraFacts.dot_repeat_l by (rewrite length_rev; lia).
    rewrite ExtraFacts.sum_rev. field.
    intros E. unfold Qeq in E. cbn in E. lia.
Qed.

(** X7 on two values under the program's window of 3. *)
Lemma X7_moving_average_of_short_input_witness :
  exists out,
    Visualization.calculate_moving_average [3; 6] 3 = Py.Ok out /\
    length out = 2%nat /\
    forall o, In o out -> o == 3.
Proof.
  destruct (X7_moving_average_of_short_input [3; 6] 3) as [out [E [L H]]].
  - discriminate.
  - cbn. lia.
  - exists out. split; [exact E|]. split; [exact L|].
    intros o Ho. rewrite (H o Ho). reflexivity.
Defined.

(** X8.  Smoothing commutes with a change of unit: the moving average of
    a * v + b is a * m + b for the moving average m of v, value by
    value. *)
Theorem X8_moving_average_affine
    (data : list Q) (window : Z) (a b : Q) :
  (1 <= window <= Z.of_nat (length data))%Z ->
  exists out out',
    Visualization.calculate_moving_average data window = Py.Ok out /\
    Visualization.calculate_moving_average (map (fun v => a * v + b) data) window
    = Py.Ok out' /\
    Forall2 (fun o o' => o' == a * o + b) out out'.
Proof.
  intros Hw.
  assert (Hw' : (1 <= window
                 <= Z.of_nat (length (map (fun v => (a * v + b)%Q) data)))%Z)
    by (rewrite length_map; exact Hw).
  eexists _, _. split; [|split].
  - apply VisualizationFacts.moving_average_inside. exact Hw.
  - apply VisualizationFacts.moving_average_inside. exact Hw'.
  - apply npFacts.Forall2_nth_error.
    + rewrite !npFacts.correlate_valid_length, length_map. reflexivity.
    + intros i o o' Ho Ho'.
      destruct (ExtraFacts.moving_average_nth _ _ _ _ Hw Ho) as [Hfit E].
      destruct (ExtraFacts.moving_average_nth _ _ _ _ Hw' Ho') as [_ E'].
      rewrite E', E. apply ExtraFacts.window_mean_affine; [lia|exact Hfit].
Qed.

(** X8 on a conversion from Celsius to Fahrenheit. *)
Lemma X8_moving_average_affine_witness :
  exists out out',
    Visualization.calculate_moving_average [20; 25; 30] 3 = Py.Ok out /\
    Visualization.calculate_moving_average
      (map (fun v => (9 # 5) * v + 32) [20; 25; 30]) 3 = Py.Ok out' /\
    Forall2 (fun o o' => o' == (9 # 5) * o + 32) out out'.
Proof.
  apply X8_moving_average_affine. cbn. lia.
Defined.

(** X19.  Smoothing keeps a rising series rising: when the window fits
    the input and the input never falls, the moving average never falls
    either. *)
Theorem X19_moving_average_keeps_order (data : list Q) (window : Z) :
  (1 <= window <= Z.of_nat (length data))%Z ->
  ExtraSpec.nondecreasing data ->
  exists out,
    Visualization.calculate_moving_average data window = Py.Ok out /\
    ExtraSpec.nondecreasing out.
Proof.
  intros Hw Hup. eexists. split.
  - apply VisualizationFacts.moving_average_inside. exact Hw.
  - apply ExtraFacts.sorted_of_adjacent. intros i a b Ha Hb.
    destruct (ExtraFacts.moving_average_nth data window i a Hw Ha) as [_ Ea].
    destruct (ExtraFacts.moving_average_nth data window (S i) b Hw Hb)
      as [Hfit Eb].
    rewrite Ea, Eb.
    apply ExtraFacts.window_mean_rises; [lia|exact Hfit|exact Hup].
Qed.

(** X19 on soil moisture that rises in steps. *)
Lemma X19_moving_average_keeps_order_witness :
  exists out,
    Visualization.calculate_moving_average [64; 65; 65; 68; 70] 3 = Py.Ok out /\
    ExtraSpec.nondecreasing out.
Proof.
  apply X19_moving_average_keeps_order.
  - cbn. lia.
  - unfold ExtraSpec.nondecreasing.
    repeat constructor; apply Qle_bool_imp_le; reflexivity.
Defined.

(** * Further properties of the trend fit *)

(** X9.  A change of unit of the fitted values, y' = a * y + b with a
    not 0, scales the slope by a, maps the intercept to a * intercept + b
    and leaves R² unchanged. *)
Theorem X9_trend_under_change_of_unit (x y : list Q) (a b : Q) :
  (2 <= length x)%nat -> length x = length y ->
  ~ AnalysisSpec.constant x -> ~ a == 0 ->
  exists slope intercept r2 slope' intercept' r2',
    Visualization.predict_trend x y
    = Py.Ok (np.Fin slope, np.Fin intercept, np.Fin r2) /\
    Visualization.predict_trend x (map (fun v => a * v + b) y)
    = Py.Ok (np.Fin slope', np.Fin intercept', np.Fin r2') /\
    slope' == a * slope /\
    intercept' == a * intercept + b /\
    r2' == r2.
Proof.
  intros H2 Hlen Hnc Ha.
  assert (Hx : x <> []) by (intros E; rewrite E in H2; cbn in H2; lia).
  assert (Hlen' : length x = length (map (fun v => a * v + b) y))
    by (rewrite length_map; exact Hlen).
  destruct (ExtraFacts.predict_trend_regular x y Hx Hlen Hnc)
    as [sl [ic [r [E [Hsl [Hic Hr]]]]]].
  destruct (ExtraFacts.predict_trend_regular x _ Hx Hlen' Hnc)
    as [sl' [ic' [r' [E' [Hsl' [Hic' Hr']]]]]].
  exists sl, ic, r, sl', ic', r'.
  split; [exact E|]. split; [exact E'|].
  pose proof (statsFacts.n_of_pos x Hx) as Hn.
  assert (Hsxx : ~ AnalysisSpec.Sxx x == 0).
  { intros E0. apply Hnc, (statsFacts.Sxx_zero_constant x Hx), E0. }
  pose proof (ExtraFacts.Sxy_affine x y a b Hlen) as Exy.
  pose proof (ExtraFacts.Sxx_affine y a b) as Eyy.
  assert (Hslope : sl' == a * sl).
  { rewrite Hsl', Hsl. unfold AnalysisSpec.ols_slope. rewrite Exy.
    field. exact Hsxx. }
  split; [exact Hslope|]. split.
  - rewrite Hic', Hic. unfold AnalysisSpec.ols_intercept.
    rewrite <- Hsl', <- Hsl, Hslope, ExtraFacts.sum_affine.
    rewrite <- (statsFacts.n_of_length x y Hlen). field. lra.
  - rewrite Hr', Hr. unfold AnalysisSpec.pearson_squared.
    destruct (Qeq_bool (AnalysisSpec.Sxx y) 0) eqn:By.
    + apply Qeq_bool_iff in By.
      assert (By' : AnalysisSpec.Sxx (map (fun v => a * v + b) y) == 0)
        by (rewrite Eyy, By; ring).
      apply Qeq_bool_iff in By'. rewrite By'. reflexivity.
    + apply statsFacts.Qeq_bool_false in By.
      assert (By' : ~ AnalysisSpec.Sxx (map (fun v => a * v + b) y) == 0).
      { rewrite Eyy. intros E0.
        destruct (Qmult_integral _ _ E0) as [E1|E1]; [|contradiction].
        destruct (Qmult_integral _ _ E1); contradiction. }
      apply statsFacts.Qeq_bool_false in By'. rewrite By'.
      rewrite Exy, Eyy. field. repeat split; assumption.
Qed.

(** X9 on a conversion from Celsius to Fahrenheit. *)
Lemma X9_trend_under_change_of_unit_witness :
  exists slope intercept r2 slope' intercept' r2',
    Visualization.predict_trend [0; 1; 2] [20; 26; 23]
    = Py.Ok (np.Fin slope, np.Fin intercept, np.Fin r2) /\
    Visualization.predict_trend [0; 1; 2]
      (map (fun v => (9 # 5) * v + 32) [20; 26; 23])
    = Py.Ok (np.Fin slope', np.Fin intercept', np.Fin r2') /\
    slope' == (9 # 5) * slope /\
    intercept' == (9 # 5) * intercept + 32 /\
    r2' == r2.
Proof.
  apply X9_trend_under_change_of_unit.
  - cbn. lia.
  - reflexivity.
  - intros Hc.
    discriminate (Hc 0 1 (or_introl eq_refl) (or_intror (or_introl eq_refl))).
  - discriminate.
Defined.

(** X10.  Values that lie exactly on a line, y = a * x + b over an x that
    is not constant, are fitted exactly: slope a, intercept b, and R² 1
    unless the line is flat, when R² is 0. *)
Theorem X10_exact_line_is_recovered (x : list Q) (a b : Q) :
  (2 <= length x)%nat -> ~ AnalysisSpec.constant x ->
  exists slope intercept r2,
    Visualization.predict_trend x (map (fun v => a * v + b) x)
    = Py.Ok (np.Fin slope, np.Fin intercept, np.Fin r2) /\
    slope == a /\ intercept == b /\
    (~ a == 0 -> r2 == 1) /\ (a == 0 -> r2 == 0).
Proof.
  intros H2 Hnc.
  assert (Hx : x <> []) by (intros E; rewrite E in H2; cbn in H2; lia).
  assert (Hlen : length x = length (map (fun v => a * v + b) x))
    by (rewrite length_map; reflexivity).
  destruct (ExtraFacts.predict_trend_regular x _ Hx Hlen Hnc)
    as [sl [ic [r [E [Hsl [Hic Hr]]]]]].
  exists sl, ic, r. split; [exact E|].
  pose proof (statsFacts.n_of_pos x Hx) as Hn.
  assert (Hsxx : ~ AnalysisSpec.Sxx x == 0).
  { intros E0. apply Hnc, (statsFacts.Sxx_zero_constant x Hx), E0. }
  pose proof (ExtraFacts.Sxy_affine x x a b eq_refl) as Exy.
  change (AnalysisSpec.Sxy x x) with (AnalysisSpec.Sxx x) in Exy.
  pose proof (ExtraFacts.Sxx_affine x a b) as Eyy.
  assert (Hslope : sl == a).
  { rewrite Hsl. unfold AnalysisSpec.ols_slope. rewrite Exy. field. exact Hsxx. }
  split; [exact Hslope|]. split.
  - rewrite Hic. unfold AnalysisSpec.ols_intercept.
    rewrite <- Hsl, Hslope, ExtraFacts.sum_affine. field. lra.
  - rewrite Hr. unfold AnalysisSpec.pearson_squared. split.
    + intros Ha.
      assert (By : ~ AnalysisSpec.Sxx (map (fun v => a * v + b) x) == 0).
      { rewrite Eyy. intros E0.
        destruct (Qmult_integral _ _ E0) as [E1|E1]; [|contradiction].
        destruct (Qmult_integral _ _ E1); contradiction. }
      apply statsFacts.Qeq_bool_false in By. rewrite By.
      rewrite Exy, Eyy. field. split; assumption.
    + intros Ha.
      assert (By : AnalysisSpec.Sxx (map (fun v => a * v + b) x) == 0)
        by (rewrite Eyy, Ha; ring).
      apply Qeq_bool_iff in By. rewrite By. reflexivity.
Qed.

(** X10 on y = 3 x + 2 over four positions. *)
Lemma X10_exact_line_is_recovered_witness :
  exists slope intercept r2,
    Visualization.predict_trend (np.arange 4)
      (map (fun v => 3 * v + 2) (np.arange 4))
    = Py.Ok (np.Fin slope, np.Fin intercept, np.Fin r2) /\
    slope == 3 /\ intercept == 2 /\ r2 == 1.
Proof.
  destruct (X10_exact_line_is_recovered (np.arange 4) 3 2)
    as [slope [intercept [r2 [E [Hs [Hi [Hr _]]]]]]].
  - cbn. lia.
  - apply statsFacts.arange_not_constant. lia.
  - exists slope, intercept, r2. repeat split; try assumption.
    apply Hr. discriminate.
Defined.

(** X11.  A series whose readings are all the same number, over two or
    more positions, is narrated as stable with the cautious qualifier and
    "R² = 0.00", whichever of the five metrics it is. *)
Theorem X11_flat_series_narrative
    (m : AnalysisSpec.metric) (n : nat) (values : list Q) :
  (2 <= n)%nat -> length values = n -> AnalysisSpec.constant values ->
  exists slope intercept r2 row description,
    Visualization.predict_trend (np.arange n) values
    = Py.Ok (slope, intercept, r2) /\
    Visualization.getitem Visualization.trend_descriptions
      (AnalysisSpec.metric_key m) = Py.Ok row /\
    Visualization.getitem row "stable" = Py.Ok description /\
    Visualization.generate_trend_narrative (AnalysisSpec.metric_key m) slope r2
    = Py.Ok (description
             ++ " Trend analysis should be interpreted cautiously, "
             ++ "statistical fit R² = 0.00.")%string.
Proof.
  intros Hn Hlen Hc.
  destruct (ExtraFacts.predict_trend_flat (np.arange n) values)
    as [sl [ic [r [E [Hsl Hr]]]]].
  - intros E. apply (f_equal (@length Q)) in E.
    rewrite statsFacts.arange_length in E. cbn in E. lia.
  - rewrite statsFacts.arange_length. congruence.
  - apply statsFacts.arange_not_constant, Hn.
  - exact Hc.
  - destruct (VisualizationFacts.table_total m AnalysisSpec.Stable)
      as [row [description [Hrow Hdesc]]].
    exists (np.Fin sl), (np.Fin ic), (np.Fin r), row, description.
    split; [exact E|]. split; [exact Hrow|]. split; [exact Hdesc|].
    rewrite (VisualizationFacts.narrative_eq m _ _ row description Hrow).
    + rewrite (ExtraFacts.confidence_note_compat r 0 Hr),
        (ExtraFacts.format_2f_compat r 0 Hr).
      reflexivity.
    + rewrite (ExtraFacts.trend_of_compat sl 0 Hsl). exact Hdesc.
Qed.

(** X11 on four equal humidity readings. *)
Lemma X11_flat_series_narrative_witness :
  exists slope intercept r2,
    Visualization.predict_trend (np.arange 4) [75; 75; 75; 75]
    = Py.Ok (slope, intercept, r2) /\
    Visualization.generate_trend_narrative "humidity" slope r2
    = Py.Ok ("Humidity remains consistent."
             ++ " Trend analysis should be interpreted cautiously, "
             ++ "statistical fit R² = 0.00.")%string.
Proof.
  destruct (X11_flat_series_narrative AnalysisSpec.Humidity 4 [75; 75; 75; 75])
    as [slope [intercept [r2 [row [description [E [Hrow [Hdesc N]]]]]]]].
  - lia.
  - reflexivity.
  - intros a b Ha Hb. cbn in Ha, Hb.
    repeat (destruct Ha as [<-|Ha]; [|]); try contradiction;
      repeat (destruct Hb as [<-|Hb]; [|]); try contradiction; reflexivity.
  - exists slope, intercept, r2. split; [exact E|].
    vm_compute in Hrow. injection Hrow as <-.
    vm_compute in Hdesc. injection Hdesc as <-.
    exact N.
Defined.

(** X12.  The classification of the direction is symmetric: negating the
    slope keeps stable and exchanges increasing with decreasing; the
    band of stable slopes is open, so that 0.01 itself is increasing and
    -0.01 decreasing. *)
Theorem X12_direction_is_symmetric (slope : Q) :
  (Visualization.trend_of (np.Fin slope) = "stable"%string
   <-> Visualization.trend_of (np.Fin (- slope)) = "stable"%string) /\
  (Visualization.trend_of (np.Fin slope) = "increasing"%string
   <-> Visualization.trend_of (np.Fin (- slope)) = "decreasing"%string) /\
  (Visualization.trend_of (np.Fin slope) = "decreasing"%string
   <-> Visualization.trend_of (np.Fin (- slope)) = "increasing"%string) /\
  Visualization.trend_of (np.Fin 0.01) = "increasing"%string /\
  Visualization.trend_of (np.Fin (-0.01)) = "decreasing"%string.
Proof.
  unfold Visualization.trend_of. cbn [np.absolute np.less np.greater].
  rewrite (ExtraFacts.Qlt_bool_compat (Qabs (- slope)) (Qabs slope) 0.01 0.01
             (Qabs_opp slope) (Qeq_refl _)).
  rewrite !npFacts.Qlt_bool_dec.
  destruct (Qlt_le_dec (Qabs slope) 0.01) as [Hs|Hs].
  - repeat split; intros; try reflexivity; discriminate.
  - assert (Hnz : ~ slope == 0).
    { intros E. rewrite E in Hs. apply Qle_bool_iff in Hs. discriminate Hs. }
    destruct (Qlt_le_dec 0 slope), (Qlt_le_dec 0 (- slope));
      repeat split; intros; try reflexivity; try discriminate;
      exfalso; lra.
Qed.

(** X18.  The direction never contradicts a monotone series: readings
    that never fall, over two or more positions, get a slope that is not
    negative and are never narrated as decreasing; readings that never
    rise get a slope that is not positive and are never narrated as
    increasing. *)
Theorem X18_monotone_series_direction (n : nat) (values : list Q) :
  (2 <= n)%nat -> length values = n ->
  exists slope intercept r2,
    Visualization.predict_trend (np.arange n) values
    = Py.Ok (np.Fin slope, np.Fin intercept, np.Fin r2) /\
    (ExtraSpec.nondecreasing values ->
     0 <= slope /\
     Visualization.trend_of (np.Fin slope) <> "decreasing"%string) /\
    (ExtraSpec.nonincreasing values ->
     slope <= 0 /\
     Visualization.trend_of (np.Fin slope) <> "increasing"%string).
Proof.
  intros Hn Hlen.
  set (x := np.arange n).
  assert (Hlx : length x = n) by apply statsFacts.arange_length.
  assert (Hnc : ~ AnalysisSpec.constant x)
    by exact (statsFacts.arange_not_constant n Hn).
  assert (Hsx : ExtraSpec.nondecreasing x)
    by exact (ExtraFacts.arange_nondecreasing n).
  clearbody x.
  assert (Hx : x <> []) by (intros E; rewrite E in Hlx; cbn in Hlx; lia).
  assert (Hxy : length x = length values) by congruence.
  destruct (ExtraFacts.predict_trend_regular x values Hx Hxy Hnc)
    as [sl [ic [r [E [Hsl _]]]]].
  exists sl, ic, r. split; [exact E|].
  pose proof (ExtraFacts.Sxx_pos x Hx Hnc) as Hpos.
  unfold AnalysisSpec.ols_slope in Hsl.
  split.
  - intros Hup.
    pose proof (ExtraFacts.Sxy_nondecreasing x Hsx values Hup Hxy) as Hcov.
    assert (Hs : 0 <= sl).
    { rewrite Hsl. apply Qle_shift_div_l; [exact Hpos|lra]. }
    split; [exact Hs|apply ExtraFacts.trend_of_nonneg, Hs].
  - intros Hdown.
    pose proof (ExtraFacts.Sxy_nondecreasing x Hsx (map Qopp values)
                  (ExtraFacts.map_opp_nondecreasing values Hdown)
                  ltac:(rewrite length_map; exact Hxy)) as Hcov.
    rewrite ExtraFacts.Sxy_opp in Hcov.
    assert (Hs : sl <= 0).
    { rewrite Hsl. apply Qle_shift_div_r; [exact Hpos|lra]. }
    split; [exact Hs|apply ExtraFacts.trend_of_nonpos, Hs].
Qed.

(** X18 on soil moisture that rises in steps. *)
Lemma X18_monotone_series_direction_witness :
  exists slope intercept r2,
    Visualization.predict_trend (np.arange 4) [64; 65; 65; 68]
    = Py.Ok (np.Fin slope, np.Fin intercept, np.Fin r2) /\
    0 <= slope.
Proof.
  destruct (X18_monotone_series_direction 4 [64; 65; 65; 68])
    as [slope [intercept [r2 [E [Hup _]]]]].
  - lia.
  - reflexivity.
  - exists slope, intercept, r2. split; [exact E|]. apply Hup.
    unfold ExtraSpec.nondecreasing.
    repeat constructor; apply Qle_bool_imp_le; reflexivity.
Defined.

(** * Further properties of the generator *)

(** X13.  A run draws exactly 240 variates, five per reading, and its
    documents depend on nothing else of the noise source: two sources
    that agree on the 240 variates from the current state on give the
    same 48 documents and leave the generator in the same state. *)
Theorem X13_run_reads_240_variates
    (np_sin : Q -> Q) (np_pi : Q) (gauss gauss' : nat -> Q) (s : nat) :
  (forall j, (j < 240)%nat -> gauss (j + s)%nat = gauss' (j + s)%nat) ->
  exists docs,
    Generator.generate_data np_sin np_pi gauss s = Py.Ok (docs, (240 + s)%nat) /\
    Generator.generate_data np_sin np_pi gauss' s = Py.Ok (docs, (240 + s)%nat).
Proof.
  intros H.
  destruct (GeneratorFacts.generate_data_ok np_sin np_pi gauss s)
    as [docs [E [Hlen Hnth]]].
  destruct (GeneratorFacts.generate_data_ok np_sin np_pi gauss' s)
    as [docs' [E' [Hlen' Hnth']]].
  exists docs. split; [exact E|]. rewrite E'. do 2 f_equal.
  apply nth_error_ext. intros k.
  destruct (nth_error docs k) as [d|] eqn:Ek.
  - assert (Hk : (k < 48)%nat)
      by (rewrite <- Hlen; apply nth_error_Some; congruence).
    destruct (nth_error docs' k) as [d'|] eqn:Ek'.
    2: { apply nth_error_None in Ek'. lia. }
    destruct (Hnth k d Ek) as [Ho [Hs Hd]].
    destruct (Hnth' k d' Ek') as [Ho' [Hs' Hd']].
    f_equal. apply ExtraFacts.doc_eq; try congruence.
    rewrite Hd, Hd'.
    assert (Hh : datetime.hour (timestamp d') = datetime.hour (timestamp d))
      by (unfold datetime.hour; congruence).
    rewrite Hh. symmetry. apply ExtraFacts.sample_ext.
    intros i Hi.
    replace (i + (5 * k + s))%nat with ((i + 5 * k) + s)%nat by lia.
    apply H. lia.
  - apply nth_error_None in Ek. apply nth_error_None. lia.
Qed.

(** X13 on two sources that differ only after the 240th variate. *)
Lemma X13_run_reads_240_variates_witness :
  exists docs,
    Generator.generate_data (fun _ => 0) 3 (fun _ => 0) 0%nat
    = Py.Ok (docs, 240%nat) /\
    Generator.generate_data (fun _ => 0) 3
      (fun j => if (j <? 240)%nat then 0 else 1) 0%nat
    = Py.Ok (docs, 240%nat).
Proof.
  apply (X13_run_reads_240_variates (fun _ => 0) 3 (fun _ => 0)
           (fun j => if (j <? 240)%nat then 0 else 1) 0%nat).
  intros j Hj. rewrite Nat.add_0_r.
  destruct (Nat.ltb_spec j 240); [reflexivity|lia].
Defined.

(** X14.  Every temperature of a run is a whole number of tenths of a
    degree, between 150 and 350 tenths. *)
Theorem X14_temperature_in_tenths
    (np_sin : Q -> Q) (np_pi : Q) (gauss : nat -> Q) (s : nat) :
  exists docs s',
    Generator.generate_data np_sin np_pi gauss s = Py.Ok (docs, s') /\
    forall d, In d docs ->
      exists n : Z,
        temperature (data d) = inject_Z n / 10 /\ (150 <= n <= 350)%Z.
Proof.
  destruct (GeneratorFacts.generate_data_ok np_sin np_pi gauss s)
    as [docs [E [_ Hnth]]].
  exists docs, (240 + s)%nat. split; [exact E|].
  intros d Hd. apply In_nth_error in Hd. destruct Hd as [k Hk].
  destruct (Hnth k d Hk) as [_ [_ ->]].
  unfold GeneratorSpec.sample. cbn [temperature]. unfold Py.round.
  eexists. split; [reflexivity|].
  match goal with
  | |- (_ <= Py.round_half_even (?v * _) <= _)%Z =>
      pose proof (PyFacts.max_min_bounds 15 35
                    (25.0 + Generator.temp_cycle np_sin np_pi
                              (datetime.hour (timestamp d))
                     + (0 + 0.3 * gauss (5 * k + s)%nat))
                    ltac:(apply Qle_bool_imp_le; reflexivity)) as [B1 B2]
  end.
  change (inject_Z (10 ^ Z.of_nat 1)) with 10.
  split.
  - apply PyFacts.round_half_even_ge. change (inject_Z 150) with (15 * 10). lra.
  - apply PyFacts.round_half_even_le. change (inject_Z 350) with (35 * 10). lra.
Qed.

(** X15.  Within four standard deviations of noise, and with a sine
    between -1 and 1, the limits of lines 53 to 57 never act except the
    floor of the light level at 0: every reading of the run is the
    rounded or truncated sum of base, cycle and noise. *)
Theorem X15_limits_idle_within_four_sigma
    (np_sin : Q -> Q) (np_pi : Q) (gauss : nat -> Q) (s : nat) :
  (forall t, -1 <= np_sin t <= 1) ->
  (forall j, (j < 240)%nat -> -4 <= gauss (j + s)%nat <= 4) ->
  exists docs s',
    Generator.generate_data np_sin np_pi gauss s = Py.Ok (docs, s') /\
    forall k d, nth_error docs k = Some d ->
      data d = ExtraSpec.unclamped np_sin np_pi gauss
                 (datetime.hour (timestamp d)) (5 * k + s).
Proof.
  intros Hsin Hg.
  destruct (GeneratorFacts.generate_data_ok np_sin np_pi gauss s)
    as [docs [E [Hlen Hnth]]].
  exists docs, (240 + s)%nat. split; [exact E|].
  intros k d Hk.
  assert (Hlt : (k < 48)%nat)
    by (rewrite <- Hlen; apply nth_error_Some; congruence).
  destruct (Hnth k d Hk) as [_ [_ ->]].
  apply ExtraFacts.sample_unclamped; [exact Hsin|].
  intros i Hi.
  replace (i + (5 * k + s))%nat with ((i + 5 * k) + s)%nat by lia.
  apply Hg. lia.
Qed.

(** X15 on a run without noise and with a flat cycle. *)
Lemma X15_limits_idle_within_four_sigma_witness :
  exists docs s',
    Generator.generate_data (fun _ => 0) 3 (fun _ => 0) 0%nat = Py.Ok (docs, s') /\
    forall k d, nth_error docs k = Some d ->
      data d = ExtraSpec.unclamped (fun _ => 0) 3 (fun _ => 0)
                 (datetime.hour (timestamp d)) (5 * k + 0).
Proof.
  apply X15_limits_idle_within_four_sigma.
  - intros t. split; apply Qle_bool_imp_le; reflexivity.
  - intros j Hj. split; apply Qle_bool_imp_le; reflexivity.
Defined.

(** X16.  From 19:00 to 05:30, readings 0 to 11 and 38 to 47, the light
    cycle is off: the light level is the truncated noise alone, floored
    at 0, whatever the sine function returns. *)
Theorem X16_light_at_night
    (np_sin : Q -> Q) (np_pi : Q) (gauss : nat -> Q) (s : nat) :
  exists docs s',
    Generator.generate_data np_sin np_pi gauss s = Py.Ok (docs, s') /\
    forall k d, nth_error docs k = Some d ->
      (k < 12 \/ 38 <= k)%nat ->
      light_level (data d)
      = Z.max (Py.int (1000 * gauss (3 + (5 * k + s))%nat)) 0.
Proof.
  destruct (GeneratorFacts.generate_data_ok np_sin np_pi gauss s)
    as [docs [E [Hlen Hnth]]].
  exists docs, (240 + s)%nat. split; [exact E|].
  intros k d Hk Hnight.
  assert (Hlt : (k < 48)%nat)
    by (rewrite <- Hlen; apply nth_error_Some; congruence).
  destruct (Hnth k d Hk) as [_ [Hs ->]].
  unfold GeneratorSpec.sample. cbn [light_level].
  rewrite PyFacts.maxZ_max. f_equal.
  unfold Generator.light_cycle, datetime.hour. rewrite Hs.
  assert (Hoff : ((6 <=? 1800 * Z.of_nat k / 3600)
                  && (1800 * Z.of_nat k / 3600 <=? 18))%Z = false).
  { apply andb_false_iff.
    destruct Hnight; [left; apply Z.leb_gt|right; apply Z.leb_gt];
      Z.div_mod_to_equations; lia. }
  rewrite Hoff. apply PyFacts.int_compat. ring.
Qed.

(** * The two programs together *)

(** X17.  The analysis accepts what the generator writes: run on the 48
    generated documents as stored, with a drawing library that accepts
    equally long arguments, it completes with the five narratives, and
    the time axis it builds is the 48 distinct labels 00:00, 00:30, ...,
    23:30 in order. *)
Theorem X17_analysis_of_a_generated_day
    (np_sin : Q -> Q) (np_pi : Q) (gauss : nat -> Q) (s : nat)
    (ax_plot : list string -> list np.float64 -> Py.result unit) :
  (forall xs ys, length xs = length ys -> ax_plot xs ys = Py.Ok tt) ->
  exists docs s' series narratives,
    Generator.generate_data np_sin np_pi gauss s = Py.Ok (docs, s') /\
    Visualization.collect (map ExtraSpec.stored docs) Visualization.empty_series
    = Py.Ok series /\
    Visualization.timestamps series = ExtraSpec.half_hour_labels /\
    NoDup (Visualization.timestamps series) /\
    Visualization.create_visualization ax_plot (map ExtraSpec.stored docs)
    = Py.Ok (Some narratives) /\
    map fst narratives = ExtraSpec.supported.
Proof.
  intros Hplot.
  destruct (GeneratorFacts.generate_data_ok np_sin np_pi gauss s)
    as [docs [E [Hlen Hnth]]].
  destruct (ExtraFacts.stored_readable docs) as [Hread Hcount].
  destruct (ExtraFacts.run_completes ax_plot (map ExtraSpec.stored docs) Hplot Hread)
    as [narratives [Erun Hkeys]]; [rewrite Hcount; lia|].
  assert (Hlabels : map (fun d => Visualization.strftime_HM (timestamp d)) docs
                    = ExtraSpec.half_hour_labels).
  { apply nth_error_ext. intros k. rewrite nth_error_map.
    destruct (nth_error docs k) as [d|] eqn:Ek; cbn [option_map].
    - assert (Hk : (k < 48)%nat)
        by (rewrite <- Hlen; apply nth_error_Some; congruence).
      destruct (Hnth k d Ek) as [_ [Hs _]].
      symmetry. apply ExtraFacts.label_of_half_hour; assumption.
    - apply nth_error_None in Ek. symmetry. apply nth_error_None.
      unfold ExtraSpec.half_hour_labels, Py.range.
      rewrite !length_map, length_seq. lia. }
  eexists docs, (240 + s)%nat, _, narratives.
  split; [exact E|]. split; [apply ExtraFacts.collect_stored|].
  cbn [Visualization.timestamps Visualization.empty_series app].
  rewrite Hlabels.
  split; [reflexivity|]. split; [|split; [exact Erun|exact Hkeys]].
  assert (Hnd : nodup string_dec ExtraSpec.half_hour_labels
                = ExtraSpec.half_hour_labels) by (vm_compute; reflexivity).
  rewrite <- Hnd. apply NoDup_nodup.
Qed.

(** X17 on a run without noise. *)
Lemma X17_analysis_of_a_generated_day_witness :
  exists docs s' series narratives,
    Generator.generate_data (fun _ => 0) 3 (fun _ => 0) 0%nat = Py.Ok (docs, s') /\
    Visualization.collect (map ExtraSpec.stored docs) Visualization.empty_series
    = Py.Ok series /\
    Visualization.timestamps series = ExtraSpec.half_hour_labels /\
    NoDup (Visualization.timestamps series) /\
    Visualization.create_visualization AnalysisSpec.plot_same_length
      (map ExtraSpec.stored docs)
    = Py.Ok (Some narratives) /\
    map fst narratives = ExtraSpec.supported.
Proof.
  apply X17_analysis_of_a_generated_day.
  intros xs ys H. unfold AnalysisSpec.plot_same_length.
  rewrite H, Nat.eqb_refl. reflexivity.
Defined.
